(** * trade_analysis: the data-integration pipeline of [src/trade_analysis.py]

    A shallow embedding of the code mapper, the pairwise (CEPII) normalizer,
    the UN Comtrade fetcher and the merge engine, with the properties the
    specification states about them.

    Conventions of the embedding.
    - Python [str] is [string]; [<] on [str] is the lexicographic order on
      code units ([String.ltb]), [+] is [String.append].
    - A [dict] with string keys is a [gmap string _].
    - A pandas frame is positional: a list of column labels and a list of
      rows, each row a list of cells aligned with the labels.  A cell is
      [None] for NaN / <NA>.
    - Code that may raise returns a [result]; a caught exception is the
      branch the [except] clause takes.
    - Process-wide [CONFIG] and [COUNTRY_MAP] are passed explicitly. *)

From Stdlib Require Import ZArith.
From stdpp Require Import base option list strings gmap fin_maps sorting.

Set Default Proof Using "Type".

(** ** Strings *)

Module Str.

(** [a < b] on Python strings. *)
Definition lt (a b : string) : bool := String.ltb a b.

(** Python's [min(a, b)] and [max(a, b)]: the first argument is kept
    unless the second is strictly smaller (resp. strictly larger). *)
Definition min (a b : string) : string := if lt b a then b else a.
Definition max (a b : string) : string := if lt a b then b else a.

Lemma lt_irrefl a : lt a a = false.
Proof.
  unfold lt, String.ltb.
  pose proof (String.compare_antisym a a) as H.
  destruct (String.compare a a); simpl in H; congruence.
Qed.

Lemma lt_asym a b : lt a b = true → lt b a = false.
Proof.
  unfold lt, String.ltb. rewrite (String.compare_antisym b a).
  destruct (String.compare a b); simpl; congruence.
Qed.

Lemma not_lt_eq a b : lt a b = false → lt b a = false → a = b.
Proof.
  unfold lt, String.ltb. rewrite (String.compare_antisym b a).
  destruct (String.compare a b) eqn:E; simpl; try congruence.
  intros _ _. by apply String.compare_eq_iff.
Qed.

End Str.

(** ** The symmetric pair key *)

(** [prepare_cepii_data], step 2: the two ordered components
    [np.where(o < d, o, d)] and [np.where(o < d, d, o)]. *)
Definition key_a (iso3_o iso3_d : string) : string :=
  if Str.lt iso3_o iso3_d then iso3_o else iso3_d.

Definition key_b (iso3_o iso3_d : string) : string :=
  if Str.lt iso3_o iso3_d then iso3_d else iso3_o.

(** [collapsed["key_a"] + "-" + collapsed["key_b"]]. *)
Definition cepii_key (iso3_o iso3_d : string) : string :=
  key_a iso3_o iso3_d +:+ "-" +:+ key_b iso3_o iso3_d.

(** [merge_datasets], step 3.2:
    [np.where(r < p, r + "-" + p, p + "-" + r)]. *)
Definition cepii_merge_key (reporterISO partnerISO : string) : string :=
  if Str.lt reporterISO partnerISO
  then reporterISO +:+ "-" +:+ partnerISO
  else partnerISO +:+ "-" +:+ reporterISO.

(** The key as the specification words it. *)
Definition spec_pair_key (a b : string) : string :=
  Str.min a b +:+ "-" +:+ Str.max a b.

Lemma cepii_key_spec a b : cepii_key a b = spec_pair_key a b.
Proof.
  unfold cepii_key, key_a, key_b, spec_pair_key, Str.min, Str.max.
  destruct (Str.lt a b) eqn:Hab.
  - by rewrite (Str.lt_asym _ _ Hab).
  - destruct (Str.lt b a) eqn:Hba; [done|].
    by rewrite (Str.not_lt_eq _ _ Hab Hba).
Qed.

Lemma cepii_merge_key_spec a b : cepii_merge_key a b = spec_pair_key a b.
Proof.
  unfold cepii_merge_key, spec_pair_key, Str.min, Str.max.
  destruct (Str.lt a b) eqn:Hab.
  - by rewrite (Str.lt_asym _ _ Hab).
  - destruct (Str.lt b a) eqn:Hba; [done|].
    by rewrite (Str.not_lt_eq _ _ Hab Hba).
Qed.

Lemma spec_pair_key_sym a b : spec_pair_key a b = spec_pair_key b a.
Proof.
  unfold spec_pair_key, Str.min, Str.max.
  destruct (Str.lt a b) eqn:Hab.
  - by rewrite (Str.lt_asym _ _ Hab).
  - destruct (Str.lt b a) eqn:Hba; [done|].
    by rewrite (Str.not_lt_eq _ _ Hab Hba).
Qed.

(** C1. For every pair of ISO3 strings the symmetric key does not depend on
    the order of the pair and is [min(A,B) + "-" + max(A,B)], both for the
    key the pairwise normalizer builds and for the key formula the merge
    engine applies to trade rows. *)
Theorem symmetric_key_order_invariant (A B : string) :
  cepii_key A B = cepii_key B A
  ∧ cepii_key A B = Str.min A B +:+ "-" +:+ Str.max A B
  ∧ cepii_merge_key A B = cepii_merge_key B A
  ∧ cepii_merge_key A B = Str.min A B +:+ "-" +:+ Str.max A B.
Proof.
  rewrite !cepii_key_spec, !cepii_merge_key_spec.
  split_and!; auto using spec_pair_key_sym.
Qed.

(** ** The order [sorted] arranges strings in *)

(** [a <= b] is stdpp's [String.le], a total order; it is [a < b] or
    [a = b]. *)
Lemma str_le_iff a b : String.le a b ↔ a = b ∨ Str.lt a b = true.
Proof.
  unfold String.le, String.leb, Str.lt, String.ltb. split.
  - destruct (String.compare a b) eqn:E; intros H; try done.
    + left. by apply String.compare_eq_iff.
    + by right.
  - intros [->|H].
    + change (String.le b b). done.
    + by destruct (String.compare a b).
Qed.

(** [sorted(set(l))]: the distinct elements of [l] in ascending order. *)
Definition sorted_set (l : list string) : list string :=
  merge_sort String.le (elements (list_to_set (C := gset string) l)).

Lemma elem_of_sorted_set l x : x ∈ sorted_set l ↔ x ∈ l.
Proof.
  unfold sorted_set. rewrite merge_sort_Permutation, elem_of_elements.
  by rewrite elem_of_list_to_set.
Qed.

Lemma sorted_set_strict l :
  StronglySorted (λ a b, Str.lt a b = true) (sorted_set l).
Proof.
  unfold sorted_set.
  set (e := elements (list_to_set (C := gset string) l)).
  assert (Hnd : NoDup (merge_sort String.le e)).
  { rewrite merge_sort_Permutation. apply NoDup_elements. }
  pose proof (StronglySorted_merge_sort String.le e) as Hs.
  induction Hs as [|x xs Hs IH Hall]; [constructor|].
  apply NoDup_cons in Hnd as [Hx Hnd].
  constructor; [by apply IH|].
  rewrite Forall_forall in *. intros y Hy.
  destruct (proj1 (str_le_iff x y) (Hall y Hy)) as [->|]; [done|done].
Qed.

Lemma sorted_set_nil l : (∀ x, x ∉ l) → sorted_set l = [].
Proof.
  intros H. destruct (sorted_set l) as [|x xs] eqn:E; [done|].
  exfalso. apply (H x), elem_of_sorted_set. rewrite E. by left.
Qed.

(** ** Configuration *)

(** The entries of [CONFIG] the modelled functions read. *)
Record config := Config {
  YEARS : list Z;
  REPORTERS : list string;
  PARTNERS : list string;
  CEPII_VARIABLES : list string;
}.

(** ** Code mapper *)

Definition HARDCODED_COMTRADE_ITEMS : list (string * string) :=
  [
    ("USA", "842"); ("THA", "764"); ("CHN", "156"); ("DEU", "276"); ("JPN", "392");
    ("AFG", "004"); ("ALB", "008"); ("DZA", "012"); ("ASM", "016"); ("AND", "020");
    ("AGO", "024"); ("ATG", "028"); ("AZE", "031"); ("ARG", "032"); ("AUS", "036");
    ("AUT", "040"); ("BHS", "044"); ("BHR", "048"); ("BGD", "050"); ("ARM", "051");
    ("BRB", "052"); ("BEL", "056"); ("BMU", "060"); ("BTN", "064"); ("BOL", "068");
    ("BIH", "070"); ("BWA", "072"); ("BRA", "076"); ("BLZ", "084"); ("SLB", "090");
    ("BRN", "096"); ("BGR", "100"); ("MMR", "104"); ("BDI", "108"); ("BLR", "112");
    ("KHM", "116"); ("CMR", "120"); ("CAN", "124"); ("CPV", "132"); ("CAF", "140");
    ("LKA", "144"); ("TCD", "148"); ("CHL", "152"); ("COL", "170"); ("COM", "174");
    ("COG", "178"); ("CRI", "188"); ("HRV", "191"); ("CUB", "192"); ("CYP", "196");
    ("CZE", "203"); ("BEN", "204"); ("DNK", "208"); ("DOM", "214"); ("ECU", "218");
    ("EGY", "818"); ("SLV", "222"); ("GNQ", "226"); ("ERI", "232"); ("EST", "233");
    ("ETH", "231"); ("FRO", "234"); ("FIN", "246"); ("FRA", "250"); ("GAB", "266");
    ("GMB", "270"); ("GEO", "268"); ("GHA", "288"); ("GRC", "300"); ("GRL", "304");
    ("GRD", "308"); ("GTM", "320"); ("GIN", "324"); ("GUY", "328"); ("HTI", "332");
    ("HND", "340"); ("HKG", "344"); ("HUN", "348"); ("ISL", "352"); ("IND", "356");
    ("IDN", "360"); ("IRN", "364"); ("IRQ", "368"); ("IRL", "372"); ("ISR", "376");
    ("ITA", "380"); ("JAM", "388"); ("JPN", "392"); ("KAZ", "398"); ("JOR", "400");
    ("KEN", "404"); ("PRK", "408"); ("KOR", "410"); ("KWT", "414"); ("KGZ", "417");
    ("LAO", "418"); ("LVA", "428"); ("LBN", "422"); ("LSO", "426"); ("LBR", "430");
    ("LBY", "434"); ("LTU", "440"); ("LUX", "442"); ("MAC", "446"); ("MDG", "450");
    ("MWI", "454"); ("MYS", "458"); ("MDV", "462"); ("MLI", "466"); ("MLT", "470");
    ("MRT", "478"); ("MUS", "480"); ("MEX", "484"); ("MNG", "496"); ("MAR", "504");
    ("MOZ", "508"); ("NAM", "516"); ("NPL", "524"); ("NLD", "528"); ("NZL", "554");
    ("NIC", "558"); ("NER", "562"); ("NGA", "566"); ("NOR", "578"); ("OMN", "512");
    ("PAK", "586"); ("PAN", "591"); ("PNG", "598"); ("PRY", "600"); ("PER", "604");
    ("PHL", "608"); ("POL", "616"); ("PRT", "620"); ("QAT", "634"); ("ROU", "642");
    ("RUS", "643"); ("RWA", "646"); ("WSM", "882"); ("SMR", "674"); ("SAU", "682");
    ("SEN", "686"); ("SYC", "690"); ("SLE", "694"); ("SGP", "702"); ("SVK", "703");
    ("SVN", "705"); ("SOM", "706"); ("ZAF", "710"); ("ESP", "724"); ("SDN", "729");
    ("SUR", "740"); ("SWE", "752"); ("CHE", "756"); ("SYR", "760"); ("TJK", "762");
    ("TGO", "768"); ("TTO", "780"); ("TUN", "788"); ("TUR", "792"); ("TKM", "795");
    ("UGA", "800"); ("UKR", "804"); ("ARE", "784"); ("GBR", "826"); ("TZA", "834");
    ("URY", "858"); ("UZB", "860"); ("VEN", "862"); ("VNM", "704"); ("YEM", "887");
    ("ZMB", "894"); ("ZWE", "716"); ("TWN", "158"); ("ESH", "732")
  ].

(** [dict(pairs)] and a dict literal: a later entry for a key replaces an
    earlier one. *)
Definition dict_of_items (items : list (string * string)) : gmap string string :=
  foldl (λ m kv, <[kv.1 := kv.2]> m) ∅ items.

Definition HARDCODED_COMTRADE_MAP : gmap string string :=
  dict_of_items HARDCODED_COMTRADE_ITEMS.

(** What [load_country_mapping] finds at [MAPPING_PATH]: nothing (no path,
    no file), a file whose read or column access raises, or the
    [UNComtrade] sheet as its (ISO3, CountryCode) cells in row order. *)
Inductive mapping_source :=
| MappingAbsent
| MappingUnreadable
| MappingSheet (cells : list (string * string)).

Section CodeMapper.

(** Python's [str.strip], [str.upper] and [str.zfill]. *)
Variable str_strip : string → string.
Variable str_upper : string → string.
Variable str_zfill : nat → string → string.

(** Step 1 of [load_country_mapping]: [loaded_map] after the [try]. *)
Definition loaded_map_of (src : mapping_source) : gmap string string :=
  match src with
  | MappingSheet cells =>
      dict_of_items
        ((λ kv, (str_upper (str_strip kv.1), str_zfill 3 (str_strip kv.2))) <$> cells)
  | MappingAbsent | MappingUnreadable => ∅
  end.

(** [load_country_mapping]: [loaded_map.update(HARDCODED_COMTRADE_MAP)]
    when the loaded map is non-empty, the hardcoded map otherwise. *)
Definition load_country_mapping (src : mapping_source) : gmap string string :=
  let loaded_map := loaded_map_of src in
  if decide (loaded_map = ∅)
  then HARDCODED_COMTRADE_MAP
  else HARDCODED_COMTRADE_MAP ∪ loaded_map.

(** [get_reporter_codes], with [COUNTRY_MAP] passed in. *)
Definition get_reporter_codes (cfg : config) (COUNTRY_MAP : gmap string string)
  : list string :=
  if decide (REPORTERS cfg = ["all"])
  then sorted_set ((map_to_list COUNTRY_MAP).*2)
  else
    sorted_set
      (omap (λ iso, COUNTRY_MAP !! str_upper iso) (REPORTERS cfg)).

(** [get_partner_iso_list]: [None] for the wildcard. *)
Definition get_partner_iso_list (cfg : config) : option (list string) :=
  if decide (PARTNERS cfg = ["all"]) then None else Some (PARTNERS cfg).

Lemma load_country_mapping_hardcoded src iso code :
  HARDCODED_COMTRADE_MAP !! iso = Some code →
  load_country_mapping src !! iso = Some code.
Proof.
  intros H. unfold load_country_mapping.
  destruct (decide _); [done|].
  by apply lookup_union_Some_l.
Qed.

Lemma elem_of_get_reporter_codes_all cfg m c :
  REPORTERS cfg = ["all"] →
  c ∈ get_reporter_codes cfg m ↔ ∃ iso, m !! iso = Some c.
Proof.
  intros Hall. unfold get_reporter_codes. rewrite decide_True by done.
  rewrite elem_of_sorted_set, list_elem_of_fmap. split.
  - intros [[iso c'] [-> H]]. exists iso. by apply elem_of_map_to_list.
  - intros [iso H]. exists (iso, c). split; [done|]. by apply elem_of_map_to_list.
Qed.

Lemma elem_of_get_reporter_codes_listed cfg m c :
  REPORTERS cfg ≠ ["all"] →
  c ∈ get_reporter_codes cfg m ↔
  ∃ iso, iso ∈ REPORTERS cfg ∧ m !! str_upper iso = Some c.
Proof.
  intros Hall. unfold get_reporter_codes. rewrite decide_False by done.
  rewrite elem_of_sorted_set, list_elem_of_omap. done.
Qed.

Lemma get_reporter_codes_unmapped cfg m :
  REPORTERS cfg ≠ ["all"] →
  (∀ iso, iso ∈ REPORTERS cfg → m !! str_upper iso = None) →
  get_reporter_codes cfg m = [].
Proof.
  intros Hall Hun. unfold get_reporter_codes. rewrite decide_False by done.
  apply sorted_set_nil. intros c [iso [Hin Hc]]%list_elem_of_omap.
  rewrite (Hun _ Hin) in Hc. done.
Qed.

End CodeMapper.

(** C5. Every ISO3 code of the embedded table resolves to its embedded
    numeric code whatever the external sheet holds for it, and when the
    external table is absent or fails to load the resolved mapping is the
    embedded table alone. *)
Theorem embedded_table_wins
    (str_strip str_upper : string → string) (str_zfill : nat → string → string)
    (src : mapping_source) (iso code : string) :
  HARDCODED_COMTRADE_MAP !! iso = Some code →
  load_country_mapping str_strip str_upper str_zfill src !! iso = Some code
  ∧ load_country_mapping str_strip str_upper str_zfill MappingAbsent
    = HARDCODED_COMTRADE_MAP
  ∧ load_country_mapping str_strip str_upper str_zfill MappingUnreadable
    = HARDCODED_COMTRADE_MAP.
Proof.
  intros H. split_and!; [by apply load_country_mapping_hardcoded|done|done].
Qed.

(** ** ASCII instances of the string functions, to run the model *)

Module Ascii7.

Definition upper_char (c : Ascii.ascii) : Ascii.ascii :=
  let n := Ascii.N_of_ascii c in
  if ((97 <=? n) && (n <=? 122))%N then Ascii.ascii_of_N (n - 32) else c.

Fixpoint upper (s : string) : string :=
  match s with
  | EmptyString => EmptyString
  | String c s => String (upper_char c) (upper s)
  end.

Definition is_space (c : Ascii.ascii) : bool :=
  let n := Ascii.N_of_ascii c in ((n =? 32) || ((9 <=? n) && (n <=? 13)))%N.

Fixpoint lstrip (s : string) : string :=
  match s with
  | String c s' => if is_space c then lstrip s' else s
  | EmptyString => EmptyString
  end.

Fixpoint rstrip (s : string) : string :=
  match s with
  | EmptyString => EmptyString
  | String c s' =>
      match rstrip s' with
      | EmptyString => if is_space c then EmptyString else String c EmptyString
      | r => String c r
      end
  end.

Definition strip (s : string) : string := rstrip (lstrip s).

Fixpoint zeros (n : nat) : string :=
  match n with O => EmptyString | S n => String (Ascii.ascii_of_N 48) (zeros n) end.

Definition zfill (width : nat) (s : string) : string :=
  let pad := zeros (width - String.length s) in
  match s with
  | String c s' =>
      if ((Ascii.N_of_ascii c =? 43) || (Ascii.N_of_ascii c =? 45))%N
      then String c (pad +:+ s') else pad +:+ s
  | EmptyString => pad
  end.

End Ascii7.

Lemma embedded_table_wins_witness :
  HARDCODED_COMTRADE_MAP !! "THA" = Some "764"
  ∧ load_country_mapping Ascii7.strip Ascii7.upper Ascii7.zfill
      (MappingSheet [(" tha ", "999"); ("zzz", "7")]) !! "THA" = Some "764".
Proof.
  assert (H : HARDCODED_COMTRADE_MAP !! "THA" = Some "764") by (vm_compute; reflexivity).
  split; [exact H|].
  exact (proj1 (embedded_table_wins Ascii7.strip Ascii7.upper Ascii7.zfill
                  (MappingSheet [(" tha ", "999"); ("zzz", "7")]) "THA" "764" H)).
Defined.

(** ** Results of code that may raise *)

Inductive exn := KeyError | TypeError | ValueError | MergeError.

Inductive result (A : Type) : Type :=
| Ok (a : A)
| Raise (e : exn).
Arguments Ok {A} a.
Arguments Raise {A} e.

(** The error monad; sequencing is written [x ← m; k]. *)
#[export] Instance result_bind : MBind result :=
  λ A B k m, match m with Ok a => k a | Raise e => Raise e end.

#[export] Instance result_ret : MRet result := λ A a, Ok a.

(** ** Frames *)

(** A cell value: a Python [str] or a number.  The numeric domain [num]
    (float64, int64, Int64) is kept abstract: the pipeline parses numbers,
    compares them for equality and passes them on, and never computes with
    them. *)
Inductive value (num : Type) : Type :=
| VStr (s : string)
| VNum (n : num).
Arguments VStr {num} s.
Arguments VNum {num} n.

(** A cell; [None] is NaN / <NA>. *)
Abbreviation cell num := (option (value num)).

Record DataFrame (num : Type) : Type := Frame {
  columns : list string;
  rows : list (list (cell num));
}.
Arguments Frame {num} columns rows.
Arguments columns {num} d.
Arguments rows {num} d.

#[export] Instance value_eq_dec {num} `{EqDecision num} : EqDecision (value num).
Proof. solve_decision. Defined.

#[export] Instance DataFrame_eq_dec {num} `{EqDecision num} : EqDecision (DataFrame num).
Proof. solve_decision. Defined.

Section Rows.

Context {A : Type}.

(** The cell of a row under a label (the first such label), NaN when the
    row has none. *)
Fixpoint cell_at (cols : list string) (row : list (option A)) (c : string)
  : option A :=
  match cols, row with
  | l :: cols, v :: row => if decide (l = c) then v else cell_at cols row c
  | _, _ => None
  end.

(** [row.reindex(cols')]: the cells of a row under another list of labels. *)
Definition reindex (cols : list string) (row : list (option A))
    (cols' : list string) : list (option A) :=
  cell_at cols row <$> cols'.

Lemma cell_at_notin cols row c : c ∉ cols → cell_at cols row c = None.
Proof.
  revert row. induction cols as [|l cols IH]; intros [|v row] Hc; simpl; try done.
  apply not_elem_of_cons in Hc as [Hne Hc].
  rewrite decide_False by done. by apply IH.
Qed.

(** A row laid out from a view [f] of its cells holds [f c] under every
    label [c] it has. *)
Lemma cell_at_fmap (f : string → option A) cols c :
  cell_at cols (f <$> cols) c = if decide (c ∈ cols) then f c else None.
Proof.
  induction cols as [|l cols IH].
  - destruct (decide (c ∈ [])) as [H|]; [by apply elem_of_nil in H|done].
  - cbn [fmap list_fmap cell_at]. destruct (decide (l = c)) as [->|Hne].
    + destruct (decide (c ∈ c :: cols)) as [|H]; [done|].
      exfalso. apply H. by left.
    + change (list_fmap string (option A) f cols) with (f <$> cols).
      rewrite IH. destruct (decide (c ∈ cols)) as [Hin|Hnin];
        destruct (decide (c ∈ l :: cols)) as [Hin'|Hnin']; try done.
      * exfalso. apply Hnin'. by right.
      * apply elem_of_cons in Hin' as [?|?]; congruence.
Qed.

Lemma cell_at_reindex cols row cols' c :
  cell_at cols' (reindex cols row cols') c
  = if decide (c ∈ cols') then cell_at cols row c else None.
Proof. apply cell_at_fmap. Qed.

Lemma cell_at_reindex_incl cols row cols' c :
  cols ⊆ cols' →
  cell_at cols' (reindex cols row cols') c = cell_at cols row c.
Proof.
  intros Hsub. rewrite cell_at_reindex.
  destruct (decide (c ∈ cols')) as [|Hnin]; [done|].
  symmetry. apply cell_at_notin. intros Hin. by apply Hnin, Hsub.
Qed.

End Rows.

Section Frames.

Context {num : Type}.

(** [pd.DataFrame()]. *)
Definition empty_frame : DataFrame num := Frame [] [].

(** [df.empty]: some axis has length 0. *)
Definition df_empty (df : DataFrame num) : bool :=
  match rows df, columns df with
  | [], _ | _, [] => true
  | _, _ => false
  end.

(** The representation invariant of a frame: every row has one cell per
    label. *)
Definition aligned (df : DataFrame num) : Prop :=
  Forall (λ r, length r = length (columns df)) (rows df).

(** Labels in order of first appearance. *)
Fixpoint union_labels (seen : list string) (l : list string) : list string :=
  match l with
  | [] => seen
  | x :: l =>
      if decide (x ∈ seen) then union_labels seen l
      else union_labels (seen ++ [x]) l
  end.

(** [pd.concat(frames, ignore_index=True)] on frames with unique labels:
    the union of the labels in order of appearance, every row re-indexed
    to it. *)
Definition concat_frames (frames : list (DataFrame num)) : DataFrame num :=
  let cols := union_labels [] (mjoin (columns <$> frames)) in
  Frame cols
    (mjoin ((λ df, (λ r, reindex (columns df) r cols) <$> rows df) <$> frames)).

(** [df[df[label].isin(keep)]]: the rows whose cell under [label] is a
    string of [keep]. *)
Definition cell_isin (keep : list string) (v : cell num) : bool :=
  match v with
  | Some (VStr s) => bool_decide (s ∈ keep)
  | _ => false
  end.

Definition filter_isin (label : string) (keep : list string)
    (df : DataFrame num) : DataFrame num :=
  Frame (columns df)
    (filter (λ r, cell_isin keep (cell_at (columns df) r label) = true) (rows df)).

(** *** Facts about labels and concatenation *)

Lemma elem_of_union_labels seen l x :
  x ∈ union_labels seen l ↔ x ∈ seen ∨ x ∈ l.
Proof.
  revert seen. induction l as [|y l IH]; intros seen; simpl.
  - split; [by left|]. intros [?|H]; [done|]. by apply elem_of_nil in H.
  - destruct (decide (y ∈ seen)) as [Hy|Hy]; rewrite IH, elem_of_cons.
    + split; [tauto|]. intros [?|[->|?]]; auto.
    + rewrite elem_of_app, list_elem_of_singleton. tauto.
Qed.

Lemma NoDup_union_labels seen l : NoDup seen → NoDup (union_labels seen l).
Proof.
  revert seen. induction l as [|y l IH]; intros seen Hnd; simpl; [done|].
  destruct (decide (y ∈ seen)); [by apply IH|].
  apply IH. apply NoDup_app. split_and!; [done| |apply NoDup_singleton].
  intros x Hx ->%list_elem_of_singleton. done.
Qed.

Lemma columns_concat_frames frames df :
  df ∈ frames → columns df ⊆ columns (concat_frames frames).
Proof.
  intros Hdf c Hc. simpl. apply elem_of_union_labels. right.
  apply list_elem_of_join. exists (columns df). split; [done|].
  apply list_elem_of_fmap. eauto.
Qed.

Lemma elem_of_rows_concat_frames frames r' :
  r' ∈ rows (concat_frames frames) ↔
  ∃ df r, df ∈ frames ∧ r ∈ rows df
          ∧ r' = reindex (columns df) r (columns (concat_frames frames)).
Proof.
  simpl. rewrite list_elem_of_join. split.
  - intros (l & Hr & (df & -> & Hdf)%list_elem_of_fmap).
    apply list_elem_of_fmap in Hr as (r & -> & Hr). eauto.
  - intros (df & r & Hdf & Hr & ->).
    eexists. split; [|apply list_elem_of_fmap; eauto].
    apply list_elem_of_fmap. eauto.
Qed.

End Frames.

(** ** Trade fetcher *)

(** A flat JSON object: its items in order. *)
Abbreviation record num := (list (string * cell num)).

(** What [pd.json_normalize] is handed: a list of flat objects, or
    something it rejects with an exception. *)
Inductive json_data (num : Type) : Type :=
| JRecords (recs : list (record num))
| JMalformed.
Arguments JRecords {num} recs.
Arguments JMalformed {num}.

(** What [comtradeapicall.getFinalData] returns: [None], a frame, a list,
    a dict (with or without a ["dataset"] entry, and [other_keys] further
    entries), or some other object. *)
Inductive api_response (num : Type) : Type :=
| RespNone
| RespFrame (df : DataFrame num)
| RespList (items : json_data num)
| RespDict (dataset : option (json_data num)) (other_keys : nat)
| RespOther.
Arguments RespNone {num}.
Arguments RespFrame {num} df.
Arguments RespList {num} items.
Arguments RespDict {num} dataset other_keys.
Arguments RespOther {num}.

(** One call of the service for a (year, reporter) unit. *)
Inductive api_outcome (num : Type) : Type :=
| ApiRaises
| ApiReturns (resp : api_response num).
Arguments ApiRaises {num}.
Arguments ApiReturns {num} resp.

(** The files the pipeline writes. *)
Inductive csv_target :=
| UNComtradeYearCsv (year : Z)
| UNComtradeMergedCsv
| MergedTradeWbCepiiCsv.

(** [l[i:i + n] for i in range(0, len(l), n)]. *)
Fixpoint chunks_from {A} (fuel n : nat) (l : list A) : list (list A) :=
  match fuel, l with
  | S fuel, _ :: _ => take n l :: chunks_from fuel n (drop n l)
  | _, _ => []
  end.

Definition chunks {A} (n : nat) (l : list A) : list (list A) :=
  chunks_from (length l) n l.

Section TradeFetcher.

Context {num : Type}.

(** The remote service, the order in which the futures of one batch
    complete, and [DataFrame.to_csv]. *)
Variable api : Z → string → api_outcome num.
Variable as_completed : Z → list string → list string.
Variable to_csv : csv_target → DataFrame num → result unit.

Variable str_upper : string → string.

Fixpoint record_get (rec : record num) (c : string) : cell num :=
  match rec with
  | [] => None
  | (k, v) :: rec => if decide (k = c) then v else record_get rec c
  end.

(** [pd.json_normalize] on flat records: one row per record, the labels
    in order of first appearance, NaN where a record lacks a label. *)
Definition json_normalize (data : json_data num) : result (DataFrame num) :=
  match data with
  | JRecords recs =>
      let cols := union_labels [] (mjoin ((λ rec, rec.*1) <$> recs)) in
      Ok (Frame cols ((λ rec, record_get rec <$> cols) <$> recs))
  | JMalformed => Raise TypeError
  end.

(** The [except Exception] of [fetch_single]. *)
Definition or_empty (m : result (DataFrame num)) : DataFrame num :=
  match m with
  | Ok df => df
  | Raise _ => empty_frame
  end.

(** [fetch_single(year, reporter_code)]. *)
Definition fetch_single (year : Z) (reporter_code : string) : DataFrame num :=
  match api year reporter_code with
  | ApiRaises => empty_frame
  | ApiReturns RespNone => empty_frame
  | ApiReturns (RespFrame df) =>
      if bool_decide (0 < length (rows df)) then df else empty_frame
  | ApiReturns (RespList (JRecords recs)) =>
      if bool_decide (0 < length recs)
      then or_empty (json_normalize (JRecords recs)) else empty_frame
  | ApiReturns (RespList JMalformed) => or_empty (json_normalize JMalformed)
  | ApiReturns (RespDict (Some data) _) => or_empty (json_normalize data)
  | ApiReturns (RespDict None _) => empty_frame
  | ApiReturns RespOther => empty_frame
  end.

(** The reporters of one year in the order their results are taken:
    batches of 20, each batch in completion order. *)
Definition year_units (year : Z) (reporter_codes : list string) : list string :=
  mjoin (as_completed year <$> chunks 20 reporter_codes).

(** [year_data] at the end of the loop over the batches. *)
Definition year_data (year : Z) (reporter_codes : list string)
  : list (DataFrame num) :=
  filter (λ df, df_empty df = false)
         (fetch_single year <$> year_units year reporter_codes).

(** The loop over the years: [all_years_data]. *)
Fixpoint fetch_years (years : list Z) (reporter_codes : list string)
  : result (list (DataFrame num)) :=
  match years with
  | [] => Ok []
  | year :: years =>
      this ← match year_data year reporter_codes with
             | [] => Ok []
             | data =>
                 let combined := concat_frames data in
                 _ ← to_csv (UNComtradeYearCsv year) combined;
                 Ok [combined]
             end;
      rest ← fetch_years years reporter_codes;
      Ok (this ++ rest)
  end.

(** The partner filter at the end of [fetch_un_comtrade_data]. *)
Definition partner_filter (cfg : config) (merged : DataFrame num)
  : DataFrame num :=
  match get_partner_iso_list cfg with
  | Some partner_keep_list =>
      if decide ("partnerISO" ∈ columns merged)
      then filter_isin "partnerISO" partner_keep_list merged
      else merged
  | None => merged
  end.

(** [fetch_un_comtrade_data]. *)
Definition fetch_un_comtrade_data (cfg : config)
    (COUNTRY_MAP : gmap string string) : result (DataFrame num) :=
  match get_reporter_codes str_upper cfg COUNTRY_MAP with
  | [] => Ok empty_frame
  | reporter_codes =>
      all_years_data ← fetch_years (YEARS cfg) reporter_codes;
      match all_years_data with
      | [] => Ok empty_frame
      | _ =>
          let merged := partner_filter cfg (concat_frames all_years_data) in
          _ ← to_csv UNComtradeMergedCsv merged;
          Ok merged
      end
  end.

(** *** The schedule of a year *)

Lemma mjoin_chunks_from {A} (n : nat) : 0 < n →
  ∀ fuel (l : list A), length l ≤ fuel → mjoin (chunks_from fuel n l) = l.
Proof.
  intros Hn. induction fuel as [|fuel IH]; intros [|x l] Hl; simpl in *; try done.
  - lia.
  - destruct n as [|n]; [lia|]. simpl. f_equal.
    rewrite IH by (rewrite length_drop; lia).
    apply take_drop.
Qed.

Lemma mjoin_chunks {A} (n : nat) (l : list A) : 0 < n → mjoin (chunks n l) = l.
Proof. intros Hn. by apply mjoin_chunks_from. Qed.

(** Every batch completes as a whole. *)
Definition completes_each_batch : Prop :=
  ∀ year group, as_completed year group ≡ₚ group.

Lemma year_units_Permutation year codes :
  completes_each_batch → year_units year codes ≡ₚ codes.
Proof.
  intros Hc. unfold year_units.
  transitivity (mjoin (chunks 20 codes)); [|by rewrite mjoin_chunks by lia].
  induction (chunks 20 codes) as [|g gs IH]; simpl; [done|].
  by apply Permutation_app.
Qed.

(** *** The tables of a run *)

(** The per-year tables a run that is not interrupted accumulates. *)
Definition year_tables (years : list Z) (codes : list string)
  : list (DataFrame num) :=
  mjoin ((λ year, match year_data year codes with
                  | [] => []
                  | data => [concat_frames data]
                  end) <$> years).

Lemma year_tables_cons year years codes :
  year_tables (year :: years) codes
  = match year_data year codes with
    | [] => []
    | data => [concat_frames data]
    end ++ year_tables years codes.
Proof. reflexivity. Qed.

Lemma year_tables_no_codes years : year_tables years [] = [].
Proof.
  induction years as [|y ys IH]; [done|].
  rewrite year_tables_cons, IH. reflexivity.
Qed.

Lemma fetch_years_Ok years codes tables :
  fetch_years years codes = Ok tables → tables = year_tables years codes.
Proof.
  revert tables. induction years as [|y ys IH]; intros tables; simpl.
  - by intros [= <-].
  - unfold year_tables. simpl. fold (year_tables ys codes).
    destruct (year_data y codes) as [|d ds]; simpl.
    + destruct (fetch_years ys codes) as [rest|e]; simpl; [|done].
      intros [= <-]. by rewrite (IH rest).
    + destruct (to_csv _ _); simpl; [|done].
      destruct (fetch_years ys codes) as [rest|e]; simpl; [|done].
      intros [= <-]. by rewrite (IH rest).
Qed.

(** Writing never fails. *)
Definition writes_succeed : Prop := ∀ target df, to_csv target df = Ok ().

Lemma fetch_years_writes_succeed years codes :
  writes_succeed → fetch_years years codes = Ok (year_tables years codes).
Proof.
  intros Hw. induction years as [|y ys IH]; simpl; [done|].
  unfold year_tables. simpl. fold (year_tables ys codes).
  rewrite IH. destruct (year_data y codes) as [|d ds]; simpl; [done|].
  by rewrite Hw.
Qed.

(** Two rows, each under its own labels, hold the same cell under every
    label. *)
Definition same_row (cols1 : list string) (r1 : list (cell num))
    (cols2 : list string) (r2 : list (cell num)) : Prop :=
  ∀ c, cell_at cols1 r1 c = cell_at cols2 r2 c.

Lemma concat_frames_row_in frames df r :
  df ∈ frames → r ∈ rows df →
  ∃ r', r' ∈ rows (concat_frames frames)
        ∧ same_row (columns (concat_frames frames)) r' (columns df) r.
Proof.
  intros Hdf Hr. eexists. split.
  - apply elem_of_rows_concat_frames. eauto.
  - intros c. apply cell_at_reindex_incl. by apply columns_concat_frames.
Qed.

Lemma concat_frames_row_from frames r' :
  r' ∈ rows (concat_frames frames) →
  ∃ df r, df ∈ frames ∧ r ∈ rows df
          ∧ same_row (columns (concat_frames frames)) r' (columns df) r.
Proof.
  intros (df & r & Hdf & Hr & ->)%elem_of_rows_concat_frames.
  exists df, r. split_and!; [done|done|].
  intros c. apply cell_at_reindex_incl. by apply columns_concat_frames.
Qed.

Lemma elem_of_year_tables years codes t :
  t ∈ year_tables years codes ↔
  ∃ year, year ∈ years ∧ year_data year codes ≠ []
          ∧ t = concat_frames (year_data year codes).
Proof.
  unfold year_tables. rewrite list_elem_of_join. split.
  - intros (l & Ht & (y & -> & Hy)%list_elem_of_fmap).
    exists y. destruct (year_data y codes) as [|d ds] eqn:E.
    + by apply elem_of_nil in Ht.
    + apply list_elem_of_singleton in Ht. done.
  - intros (y & Hy & Hne & ->).
    exists [concat_frames (year_data y codes)]. split; [by left|].
    apply list_elem_of_fmap. exists y. split; [|done].
    by destruct (year_data y codes).
Qed.

Lemma elem_of_year_data year codes df :
  df ∈ year_data year codes ↔
  df_empty df = false
  ∧ ∃ code, code ∈ year_units year codes ∧ df = fetch_single year code.
Proof.
  unfold year_data. rewrite list_elem_of_filter, list_elem_of_fmap.
  split.
  - intros [Hne (code & -> & Hcode)]. split; [done|]. by exists code.
  - intros [Hne (code & Hcode & ->)]. split; [done|]. by exists code.
Qed.

(** Every row of the run-wide concatenation comes from one unit. *)
Lemma merged_row_from years codes r' :
  let merged := concat_frames (year_tables years codes) in
  r' ∈ rows merged →
  ∃ year code r,
    year ∈ years ∧ code ∈ year_units year codes
    ∧ r ∈ rows (fetch_single year code)
    ∧ same_row (columns merged) r' (columns (fetch_single year code)) r.
Proof.
  intros merged (t & r1 & Ht & Hr1 & Hsame1)%concat_frames_row_from.
  apply elem_of_year_tables in Ht as (y & Hy & _ & ->).
  apply concat_frames_row_from in Hr1 as (df & r & Hdf & Hr & Hsame2).
  apply elem_of_year_data in Hdf as (_ & code & Hcode & ->).
  exists y, code, r. split_and!; try done.
  intros c. by rewrite Hsame1, Hsame2.
Qed.

(** Every row of a unit with a non-empty table is in the run-wide
    concatenation. *)
Lemma merged_row_in years codes year code r :
  let merged := concat_frames (year_tables years codes) in
  year ∈ years → code ∈ year_units year codes →
  df_empty (fetch_single year code) = false →
  r ∈ rows (fetch_single year code) →
  ∃ r', r' ∈ rows merged
        ∧ same_row (columns merged) r' (columns (fetch_single year code)) r.
Proof.
  intros merged Hy Hcode Hne Hr.
  assert (Hdf : fetch_single year code ∈ year_data year codes).
  { apply elem_of_year_data. eauto. }
  destruct (concat_frames_row_in _ _ _ Hdf Hr) as (r1 & Hr1 & Hsame1).
  assert (Ht : concat_frames (year_data year codes) ∈ year_tables years codes).
  { apply elem_of_year_tables. exists year. split_and!; [done| |done].
    intros E. rewrite E in Hdf. by apply elem_of_nil in Hdf. }
  destruct (concat_frames_row_in _ _ _ Ht Hr1) as (r' & Hr' & Hsame2).
  exists r'. split; [done|]. intros c. by rewrite Hsame2, Hsame1.
Qed.

End TradeFetcher.

(** ** Properties of the code mapper and the trade fetcher *)

Lemma StronglySorted_lt_NoDup (l : list string) :
  StronglySorted (λ a b, Str.lt a b = true) l → NoDup l.
Proof.
  induction 1 as [|x l Hs IH Hall]; constructor; [|done].
  intros Hx. rewrite Forall_forall in Hall.
  specialize (Hall x Hx). by rewrite Str.lt_irrefl in Hall.
Qed.

(** C8. [get_reporter_codes] returns the distinct numeric codes of the
    requested reporters in ascending order, or those of every mapped
    country under the wildcard [all]; unmapped ISO3 values are skipped.
    When every requested reporter is unmapped the result is empty and
    [fetch_un_comtrade_data] returns the empty table, without raising. *)
Theorem reporter_codes_sorted_distinct {num : Type}
    (api : Z → string → api_outcome num)
    (as_completed : Z → list string → list string)
    (to_csv : csv_target → DataFrame num → result unit)
    (str_upper : string → string)
    (cfg : config) (COUNTRY_MAP : gmap string string) :
  let codes := get_reporter_codes str_upper cfg COUNTRY_MAP in
  StronglySorted (λ a b, Str.lt a b = true) codes
  ∧ NoDup codes
  ∧ (REPORTERS cfg = ["all"] →
     ∀ c, c ∈ codes ↔ ∃ iso, COUNTRY_MAP !! iso = Some c)
  ∧ (REPORTERS cfg ≠ ["all"] →
     ∀ c, c ∈ codes ↔
          ∃ iso, iso ∈ REPORTERS cfg ∧ COUNTRY_MAP !! str_upper iso = Some c)
  ∧ (REPORTERS cfg ≠ ["all"] →
     (∀ iso, iso ∈ REPORTERS cfg → COUNTRY_MAP !! str_upper iso = None) →
     codes = []
     ∧ fetch_un_comtrade_data api as_completed to_csv str_upper cfg COUNTRY_MAP
       = Ok empty_frame).
Proof.
  intros codes.
  assert (Hs : StronglySorted (λ a b, Str.lt a b = true) codes).
  { unfold codes, get_reporter_codes. destruct (decide _); apply sorted_set_strict. }
  split_and!; [done|by apply StronglySorted_lt_NoDup| | |].
  - intros Hall c. by apply elem_of_get_reporter_codes_all.
  - intros Hall c. by apply elem_of_get_reporter_codes_listed.
  - intros Hall Hun.
    assert (E : codes = []) by (by apply get_reporter_codes_unmapped).
    split; [done|]. unfold fetch_un_comtrade_data. fold codes. by rewrite E.
Qed.

(** ** A small world to run the model in *)

Module Demo.

Definition str_upper := Ascii7.upper.

(** No mapping file: [COUNTRY_MAP] is the embedded table. *)
Definition COUNTRY_MAP : gmap string string :=
  load_country_mapping Ascii7.strip Ascii7.upper Ascii7.zfill MappingAbsent.

Definition in_order (year : Z) (group : list string) : list string := group.

Definition to_csv (target : csv_target) (df : DataFrame Z) : result unit := Ok ().

(** The service raises for every unit. *)
Definition api_down (year : Z) (code : string) : api_outcome Z := ApiRaises.

Definition cfg_unmapped : config :=
  Config [2015%Z] ["ZZZ"] ["all"] ["contig"].

End Demo.

Lemma reporter_codes_sorted_distinct_witness :
  REPORTERS Demo.cfg_unmapped ≠ ["all"]
  ∧ (∀ iso, iso ∈ REPORTERS Demo.cfg_unmapped →
            Demo.COUNTRY_MAP !! Demo.str_upper iso = None)
  ∧ get_reporter_codes Demo.str_upper Demo.cfg_unmapped Demo.COUNTRY_MAP = []
  ∧ fetch_un_comtrade_data Demo.api_down Demo.in_order Demo.to_csv
      Demo.str_upper Demo.cfg_unmapped Demo.COUNTRY_MAP = Ok empty_frame.
Proof.
  assert (H1 : REPORTERS Demo.cfg_unmapped ≠ ["all"]) by (simpl; congruence).
  assert (H2 : ∀ iso, iso ∈ REPORTERS Demo.cfg_unmapped →
                      Demo.COUNTRY_MAP !! Demo.str_upper iso = None).
  { intros iso Hiso. simpl in Hiso. apply list_elem_of_singleton in Hiso.
    subst iso. vm_compute. reflexivity. }
  split; [exact H1|]. split; [exact H2|].
  exact (proj2 (proj2 (proj2 (proj2
    (reporter_codes_sorted_distinct Demo.api_down Demo.in_order Demo.to_csv
       Demo.str_upper Demo.cfg_unmapped Demo.COUNTRY_MAP)))) H1 H2).
Defined.

(** Frames the service hands over are proper frames: unique labels, one
    cell per label in every row. *)
Definition well_formed {num} (df : DataFrame num) : Prop :=
  NoDup (columns df) ∧ aligned df.

Definition api_well_formed {num} (api : Z → string → api_outcome num) : Prop :=
  ∀ year code df, api year code = ApiReturns (RespFrame df) → well_formed df.

(** The cell is a string of the list. *)
Definition partner_in {num} (keep : list string) (v : cell num) : Prop :=
  ∃ s, v = Some (VStr s) ∧ s ∈ keep.

#[export] Instance partner_in_dec {num} keep (v : cell num) :
  Decision (partner_in keep v).
Proof.
  destruct v as [[s|z]|].
  - destruct (decide (s ∈ keep)) as [Hs|Hs].
    + left. by exists s.
    + right. intros (s' & [= <-] & ?). done.
  - right. by intros (s & [=] & _).
  - right. by intros (s & [=] & _).
Defined.

Lemma cell_isin_true {num} keep (v : cell num) :
  cell_isin keep v = true ↔ partner_in keep v.
Proof.
  unfold partner_in. destruct v as [[s|z]|]; simpl;
    rewrite ?bool_decide_eq_true; naive_solver.
Qed.

(** C7, as the code has it.  The run-wide concatenation [merged] of the
    per-year tables is filtered only when the partner list is not the
    wildcard [all] and [merged] has a [partnerISO] column: the final table
    then keeps exactly the rows whose [partnerISO] cell is a member of the
    list, in their order.  Under the wildcard, or without that column, the
    final table is [merged]. *)
Theorem partner_filter_guarded {num : Type}
    (api : Z → string → api_outcome num)
    (as_completed : Z → list string → list string)
    (to_csv : csv_target → DataFrame num → result unit)
    (str_upper : string → string)
    (cfg : config) (COUNTRY_MAP : gmap string string)
    (tables : list (DataFrame num)) (final : DataFrame num) :
  api_well_formed api →
  get_reporter_codes str_upper cfg COUNTRY_MAP ≠ [] →
  fetch_years api as_completed to_csv (YEARS cfg)
    (get_reporter_codes str_upper cfg COUNTRY_MAP) = Ok tables →
  fetch_un_comtrade_data api as_completed to_csv str_upper cfg COUNTRY_MAP
    = Ok final →
  let merged := concat_frames tables in
  columns final = columns merged
  ∧ (PARTNERS cfg ≠ ["all"] → "partnerISO" ∈ columns merged →
     rows final
     = filter (λ r, partner_in (PARTNERS cfg)
                      (cell_at (columns merged) r "partnerISO"))
              (rows merged))
  ∧ (PARTNERS cfg = ["all"] ∨ "partnerISO" ∉ columns merged → final = merged).
Proof.
  intros _ Hcodes Hyears Hrun merged.
  unfold fetch_un_comtrade_data in Hrun.
  destruct (get_reporter_codes str_upper cfg COUNTRY_MAP) as [|c0 codes] eqn:Ec;
    [done|].
  rewrite Hyears in Hrun. simpl in Hrun.
  assert (Hfinal : final = partner_filter cfg merged).
  { destruct tables as [|t ts].
    - injection Hrun as <-. unfold partner_filter, merged.
      destruct (get_partner_iso_list cfg); [|done].
      by rewrite decide_False by (simpl; apply not_elem_of_nil).
    - destruct (to_csv _ _); simpl in Hrun; [|done]. by injection Hrun as <-. }
  clearbody merged. subst final.
  unfold partner_filter, get_partner_iso_list.
  destruct (decide (PARTNERS cfg = ["all"])) as [Hall|Hall].
  { split_and!; [done|done|done]. }
  destruct (decide ("partnerISO" ∈ columns merged)) as [Hcol|Hcol].
  - split_and!; [done| |].
    + intros _ _. simpl. apply list_filter_iff. intros r. apply cell_isin_true.
    + intros [?|?]; done.
  - split_and!; [done|done|done].
Qed.

Module DemoPartner.

(** One reporter, partner list [USA]; the service answers with a frame
    that has no [partnerISO] column. *)
Definition cfg : config := Config [2015%Z] ["THA"] ["USA"] ["contig"].

Definition table : DataFrame Z :=
  Frame ["reporterISO"; "primaryValue"] [[Some (VStr "THA"); Some (VNum 5%Z)]].

Definition api (year : Z) (code : string) : api_outcome Z :=
  if bool_decide (year = 2015%Z ∧ code = "764")
  then ApiReturns (RespFrame table) else ApiRaises.

Definition run : result (DataFrame Z) :=
  fetch_un_comtrade_data api Demo.in_order Demo.to_csv Demo.str_upper cfg
    Demo.COUNTRY_MAP.

Lemma partner_api_ok : api_well_formed api.
Proof.
  intros year code df. unfold api. case_bool_decide; [|done].
  intros [= <-]. split.
  - simpl. apply NoDup_cons. split; [|apply NoDup_singleton].
    intros ?%list_elem_of_singleton. done.
  - repeat constructor.
Qed.

End DemoPartner.

(** The claim as worded fails: with partner list [USA] the final table
    keeps a row that has no [partnerISO] value at all. *)
Lemma partner_filter_counterexample :
  PARTNERS DemoPartner.cfg ≠ ["all"]
  ∧ DemoPartner.run = Ok DemoPartner.table
  ∧ ∃ r, r ∈ rows DemoPartner.table
         ∧ ¬ partner_in (PARTNERS DemoPartner.cfg)
               (cell_at (columns DemoPartner.table) r "partnerISO").
Proof.
  split; [simpl; congruence|]. split; [vm_compute; reflexivity|].
  exists [Some (VStr "THA"); Some (VNum 5%Z)]. split; [by left|].
  intros (s & Hs & _). vm_compute in Hs. discriminate.
Qed.

Lemma partner_filter_guarded_witness :
  api_well_formed DemoPartner.api
  ∧ get_reporter_codes Demo.str_upper DemoPartner.cfg Demo.COUNTRY_MAP ≠ []
  ∧ fetch_years DemoPartner.api Demo.in_order Demo.to_csv [2015%Z]
      (get_reporter_codes Demo.str_upper DemoPartner.cfg Demo.COUNTRY_MAP)
    = Ok [DemoPartner.table]
  ∧ DemoPartner.run = Ok DemoPartner.table
  ∧ (PARTNERS DemoPartner.cfg = ["all"]
     ∨ "partnerISO" ∉ columns (concat_frames [DemoPartner.table]) →
     DemoPartner.table = concat_frames [DemoPartner.table]).
Proof.
  assert (H1 : get_reporter_codes Demo.str_upper DemoPartner.cfg Demo.COUNTRY_MAP
               ≠ []) by (vm_compute; congruence).
  assert (H2 : fetch_years DemoPartner.api Demo.in_order Demo.to_csv
                 (YEARS DemoPartner.cfg)
                 (get_reporter_codes Demo.str_upper DemoPartner.cfg Demo.COUNTRY_MAP)
               = Ok [DemoPartner.table]) by (vm_compute; reflexivity).
  assert (H3 : DemoPartner.run = Ok DemoPartner.table) by (vm_compute; reflexivity).
  split; [exact DemoPartner.partner_api_ok|]. split; [exact H1|].
  split; [exact H2|]. split; [exact H3|].
  exact (proj2 (proj2 (partner_filter_guarded DemoPartner.api Demo.in_order
    Demo.to_csv Demo.str_upper DemoPartner.cfg Demo.COUNTRY_MAP
    [DemoPartner.table] DemoPartner.table DemoPartner.partner_api_ok H1 H2 H3))).
Defined.

(** *** Isolation of a failing unit *)

Section FailureIsolation.

Context {num : Type}.
Variable api : Z → string → api_outcome num.
Variable as_completed : Z → list string → list string.
Variable to_csv : csv_target → DataFrame num → result unit.
Variable str_upper : string → string.

Lemma fetch_single_raises year code :
  api year code = ApiRaises → fetch_single api year code = empty_frame.
Proof. intros H. unfold fetch_single. by rewrite H. Qed.

Lemma partner_filter_empty cfg : partner_filter cfg (@empty_frame num) = empty_frame.
Proof.
  unfold partner_filter. destruct (get_partner_iso_list cfg); [|done].
  by rewrite decide_False by (simpl; apply not_elem_of_nil).
Qed.

(** With writes that succeed the run returns the filtered concatenation
    of its per-year tables. *)
Lemma fetch_un_comtrade_data_Ok cfg COUNTRY_MAP :
  writes_succeed to_csv →
  fetch_un_comtrade_data api as_completed to_csv str_upper cfg COUNTRY_MAP
  = Ok (partner_filter cfg
          (concat_frames
             (year_tables api as_completed (YEARS cfg)
                (get_reporter_codes str_upper cfg COUNTRY_MAP)))).
Proof.
  intros Hw. unfold fetch_un_comtrade_data.
  destruct (get_reporter_codes str_upper cfg COUNTRY_MAP) as [|c0 codes] eqn:Ec.
  - rewrite year_tables_no_codes. by rewrite partner_filter_empty.
  - rewrite fetch_years_writes_succeed by done. simpl.
    destruct (year_tables _ _ _ _) as [|t ts] eqn:Et.
    + by rewrite partner_filter_empty.
    + by rewrite Hw.
Qed.

Lemma columns_partner_filter cfg (merged : DataFrame num) :
  columns (partner_filter cfg merged) = columns merged.
Proof.
  unfold partner_filter. destruct (get_partner_iso_list cfg); [|done].
  by destruct (decide _).
Qed.

Lemma rows_partner_filter_incl cfg (merged : DataFrame num) r :
  r ∈ rows (partner_filter cfg merged) → r ∈ rows merged.
Proof.
  unfold partner_filter. destruct (get_partner_iso_list cfg); [|done].
  destruct (decide _); [|done]. simpl. rewrite list_elem_of_filter. tauto.
Qed.

Lemma rows_partner_filter_keeps cfg (merged : DataFrame num) r :
  r ∈ rows merged →
  PARTNERS cfg = ["all"] ∨ "partnerISO" ∉ columns merged
  ∨ partner_in (PARTNERS cfg) (cell_at (columns merged) r "partnerISO") →
  r ∈ rows (partner_filter cfg merged).
Proof.
  intros Hr Hkeep. unfold partner_filter, get_partner_iso_list.
  destruct (decide (PARTNERS cfg = ["all"])) as [Hall|Hall]; [done|].
  destruct (decide ("partnerISO" ∈ columns merged)) as [Hcol|Hcol]; [|done].
  simpl. apply list_elem_of_filter. split; [|done].
  apply cell_isin_true. destruct Hkeep as [?|[?|?]]; done.
Qed.

End FailureIsolation.

(** C3, as the code has it.  When the service raises for the unit
    [(Y, R)], that unit yields the empty table and the run still returns
    its final table.  That table holds, for every unit with a non-empty
    table, each row the partner filter keeps (every row under the wildcard
    [all] or without a [partnerISO] column), and each of its rows comes
    from a unit other than [(Y, R)]. *)
Theorem failed_unit_isolated {num : Type}
    (api : Z → string → api_outcome num)
    (as_completed : Z → list string → list string)
    (to_csv : csv_target → DataFrame num → result unit)
    (str_upper : string → string)
    (cfg : config) (COUNTRY_MAP : gmap string string)
    (Y : Z) (R : string) :
  api_well_formed api →
  completes_each_batch as_completed →
  writes_succeed to_csv →
  api Y R = ApiRaises →
  let codes := get_reporter_codes str_upper cfg COUNTRY_MAP in
  fetch_single api Y R = empty_frame
  ∧ ∃ final,
      fetch_un_comtrade_data api as_completed to_csv str_upper cfg COUNTRY_MAP
      = Ok final
      ∧ (∀ year code r,
           year ∈ YEARS cfg → code ∈ codes →
           let chunk := fetch_single api year code in
           columns chunk ≠ [] → r ∈ rows chunk →
           PARTNERS cfg = ["all"] ∨ "partnerISO" ∉ columns final
           ∨ partner_in (PARTNERS cfg) (cell_at (columns chunk) r "partnerISO") →
           ∃ r', r' ∈ rows final
                 ∧ same_row (columns final) r' (columns chunk) r)
      ∧ (∀ r', r' ∈ rows final →
           ∃ year code r,
             year ∈ YEARS cfg ∧ code ∈ codes ∧ (year, code) ≠ (Y, R)
             ∧ api year code ≠ ApiRaises
             ∧ r ∈ rows (fetch_single api year code)
             ∧ same_row (columns final) r'
                 (columns (fetch_single api year code)) r).
Proof.
  intros _ Hperm Hw Hfail codes.
  split; [by apply fetch_single_raises|].
  eexists. split; [by apply fetch_un_comtrade_data_Ok|].
  fold codes. set (merged := concat_frames (year_tables api as_completed (YEARS cfg) codes)).
  rewrite columns_partner_filter. split.
  - intros year code r Hy Hcode chunk Hcols Hr Hkeep.
    assert (Hunit : code ∈ year_units as_completed year codes).
    { by rewrite (year_units_Permutation as_completed year codes Hperm). }
    assert (Hne : df_empty chunk = false).
    { unfold df_empty. destruct (rows chunk); [by apply elem_of_nil in Hr|].
      by destruct (columns chunk). }
    destruct (merged_row_in api as_completed (YEARS cfg) codes year code r
                Hy Hunit Hne Hr) as (r' & Hr' & Hsame).
    exists r'. split; [|done].
    apply rows_partner_filter_keeps; [done|].
    subst merged. rewrite (Hsame "partnerISO"). done.
  - intros r' Hr'%rows_partner_filter_incl.
    destruct (merged_row_from api as_completed (YEARS cfg) codes r' Hr')
      as (year & code & r & Hy & Hunit & Hr & Hsame).
    assert (Hok : api year code ≠ ApiRaises).
    { intros E. rewrite (fetch_single_raises api year code E) in Hr.
      by apply elem_of_nil in Hr. }
    exists year, code, r. split_and!; try done.
    + by rewrite <- (year_units_Permutation as_completed year codes Hperm).
    + intros [= -> ->]. done.
Qed.

Module DemoFailure.

(** Two reporters, partner list [THA]; the service raises for Thailand
    (764) and answers for the United States (842). *)
Definition cfg : config := Config [2015%Z] ["THA"; "USA"] ["THA"] ["contig"].

Definition labels : list string := ["reporterISO"; "partnerISO"; "primaryValue"].

Definition row_tha : list (cell Z) :=
  [Some (VStr "USA"); Some (VStr "THA"); Some (VNum 3%Z)].

Definition row_chn : list (cell Z) :=
  [Some (VStr "USA"); Some (VStr "CHN"); Some (VNum 7%Z)].

Definition table_usa : DataFrame Z := Frame labels [row_tha; row_chn].

Definition api (year : Z) (code : string) : api_outcome Z :=
  if bool_decide (year = 2015%Z ∧ code = "842")
  then ApiReturns (RespFrame table_usa) else ApiRaises.

Definition run : result (DataFrame Z) :=
  fetch_un_comtrade_data api Demo.in_order Demo.to_csv Demo.str_upper cfg
    Demo.COUNTRY_MAP.

Lemma failure_api_ok : api_well_formed api.
Proof.
  intros year code df. unfold api. case_bool_decide; [|done].
  intros [= <-]. split.
  - apply (bool_decide_unpack _). vm_compute. exact I.
  - repeat constructor.
Qed.

Lemma run_eq : run = Ok (Frame labels [row_tha]).
Proof. vm_compute. reflexivity. Qed.

End DemoFailure.

(** The claim as worded fails: Thailand's unit raises, the United States'
    unit is fetched, and its row with partner CHN is not in the final
    table. *)
Lemma failed_unit_counterexample :
  DemoFailure.api 2015%Z "764" = ApiRaises
  ∧ DemoFailure.row_chn ∈ rows (fetch_single DemoFailure.api 2015%Z "842")
  ∧ ∃ final,
      DemoFailure.run = Ok final
      ∧ ¬ ∃ r', r' ∈ rows final
                ∧ same_row (columns final) r'
                    (columns (fetch_single DemoFailure.api 2015%Z "842"))
                    DemoFailure.row_chn.
Proof.
  split; [reflexivity|]. split.
  { change (DemoFailure.row_chn ∈ [DemoFailure.row_tha; DemoFailure.row_chn]).
    right. left. }
  eexists. split; [apply DemoFailure.run_eq|].
  intros (r' & Hr' & Hsame). simpl in Hr'.
  apply list_elem_of_singleton in Hr'. subst r'.
  specialize (Hsame "partnerISO"). vm_compute in Hsame. discriminate.
Qed.

Lemma failed_unit_isolated_witness :
  api_well_formed DemoFailure.api
  ∧ completes_each_batch Demo.in_order
  ∧ writes_succeed Demo.to_csv
  ∧ DemoFailure.api 2015%Z "764" = ApiRaises
  ∧ fetch_single DemoFailure.api 2015%Z "764" = empty_frame
  ∧ ∃ final, DemoFailure.run = Ok final
      ∧ ∃ r', r' ∈ rows final
              ∧ same_row (columns final) r' DemoFailure.labels DemoFailure.row_tha.
Proof.
  assert (H2 : completes_each_batch Demo.in_order) by (intros y g; reflexivity).
  assert (H3 : writes_succeed Demo.to_csv) by (intros t df; reflexivity).
  assert (H4 : DemoFailure.api 2015%Z "764" = ApiRaises) by reflexivity.
  split; [exact DemoFailure.failure_api_ok|]. split; [exact H2|].
  split; [exact H3|]. split; [exact H4|].
  destruct (failed_unit_isolated DemoFailure.api Demo.in_order Demo.to_csv
              Demo.str_upper DemoFailure.cfg Demo.COUNTRY_MAP 2015%Z "764"
              DemoFailure.failure_api_ok H2 H3 H4) as [Hempty (final & Hrun & Hin & _)].
  split; [exact Hempty|].
  exists final. split; [exact Hrun|].
  apply (Hin 2015%Z "842" DemoFailure.row_tha).
  - simpl. left.
  - apply (bool_decide_unpack _). vm_compute. exact I.
  - simpl. discriminate.
  - simpl. left.
  - right. right. exists "THA". split; [reflexivity|]. simpl. left.
Defined.

(** ** Frame operations of the normalizer and the merge engine *)

(** How often a label occurs, and the check pandas makes when a label is
    used as one column: absent is a [KeyError], repeated makes [df[label]]
    a frame, which the next operation rejects with [dup_error]. *)
Definition label_count (label : string) (cols : list string) : nat :=
  length (filter (λ l, l = label) cols).

Definition require_unique (dup_error : exn) (label : string)
    (cols : list string) : result unit :=
  match label_count label cols with
  | 0 => Raise KeyError
  | 1 => Ok ()
  | _ => Raise dup_error
  end.

Section FrameOps.

Context {num : Type}.

(** [df[labels]]: the columns under [labels], in that order. *)
Definition select (labels : list string) (df : DataFrame num)
  : result (DataFrame num) :=
  if decide (Forall (λ c, c ∈ columns df) labels)
  then Ok (Frame labels ((λ r, reindex (columns df) r labels) <$> rows df))
  else Raise KeyError.

(** [df[label] = f(df)] for an element-wise [f]: the column is overwritten
    where the label exists and appended otherwise; [f] sees the row as it
    was. *)
Definition assign_labels (label : string) (cols : list string) : list string :=
  if decide (label ∈ cols) then cols else cols ++ [label].

Definition assign_row (label : string) (f : list (cell num) → cell num)
    (cols : list string) (r : list (cell num)) : list (cell num) :=
  if decide (label ∈ cols)
  then zip_with (λ l v, if decide (l = label) then f r else v) cols r
  else r ++ [f r].

Definition assign (label : string) (f : list (cell num) → cell num)
    (df : DataFrame num) : DataFrame num :=
  Frame (assign_labels label (columns df))
        (assign_row label f (columns df) <$> rows df).

(** [a < b] on cells that hold strings; a comparison with NaN is false. *)
Definition cell_lt (x y : cell num) : bool :=
  match x, y with
  | Some (VStr a), Some (VStr b) => Str.lt a b
  | _, _ => false
  end.

(** [a + b] on cells that hold strings; NaN is absorbing. *)
Definition cell_add (x y : cell num) : cell num :=
  match x, y with
  | Some (VStr a), Some (VStr b) => Some (VStr (a +:+ b))
  | _, _ => None
  end.

(** [first_nonnull(series)]. *)
Fixpoint first_nonnull (series : list (cell num)) : cell num :=
  match series with
  | [] => None
  | v :: series =>
      match v with
      | Some _ => v
      | None => first_nonnull series
      end
  end.

(** The group key of a row: [groupby] drops a row when a key is NaN. *)
Definition row_pair (ka kb : cell num) : option (string * string) :=
  match ka, kb with
  | Some (VStr a), Some (VStr b) => Some (a, b)
  | _, _ => None
  end.

(** The order of the groups: by first key, then by second. *)
Definition pair_le (p q : string * string) : Prop :=
  Str.lt p.1 q.1 = true ∨ (p.1 = q.1 ∧ String.le p.2 q.2).

#[export] Instance pair_le_dec : RelDecision pair_le.
Proof. intros p q. unfold pair_le. apply _. Defined.

(** [df.groupby([ka, kb], as_index=False).agg({c: first_nonnull for c in
    agg})]: one row per distinct pair of keys, in key order. *)
Definition groupby_first (ka kb : string) (agg : list string)
    (df : DataFrame num) : result (DataFrame num) :=
  _ ← require_unique ValueError ka (columns df);
  _ ← require_unique ValueError kb (columns df);
  let cols := columns df in
  let pair r := row_pair (cell_at cols r ka) (cell_at cols r kb) in
  let keys := merge_sort pair_le (remove_dups (omap pair (rows df))) in
  let group k := filter (λ r, pair r = Some k) (rows df) in
  Ok (Frame (ka :: kb :: agg)
        ((λ k, Some (VStr k.1) :: Some (VStr k.2)
               :: ((λ c, first_nonnull ((λ r, cell_at cols r c) <$> group k))
                     <$> agg))
           <$> keys)).

(** *** Facts about the operations *)

Lemma elem_of_assign_labels label cols c :
  c ∈ assign_labels label cols ↔ c ∈ cols ∨ c = label.
Proof.
  unfold assign_labels. destruct (decide (label ∈ cols)) as [Hin|Hnin].
  - split; [by left|]. intros [?|E]; [done|by subst c].
  - rewrite elem_of_app, list_elem_of_singleton. done.
Qed.

Lemma assign_labels_in label cols : label ∈ cols → assign_labels label cols = cols.
Proof. intros H. unfold assign_labels. by rewrite decide_True. Qed.

Lemma NoDup_assign_labels label cols :
  NoDup cols → NoDup (assign_labels label cols).
Proof.
  intros Hnd. unfold assign_labels. destruct (decide (label ∈ cols)); [done|].
  apply NoDup_app. split_and!; [done| |apply NoDup_singleton].
  intros x Hx ->%list_elem_of_singleton. done.
Qed.

Lemma length_assign_row label f cols r :
  length r = length cols →
  length (assign_row label f cols r) = length (assign_labels label cols).
Proof.
  intros Hlen. unfold assign_row, assign_labels.
  destruct (decide (label ∈ cols)).
  - rewrite length_zip_with. lia.
  - rewrite !length_app. simpl. lia.
Qed.

Lemma cell_at_overwrite_ne label (x : cell num) cols r c :
  c ≠ label →
  cell_at cols (zip_with (λ l v, if decide (l = label) then x else v) cols r) c
  = cell_at cols r c.
Proof.
  intros Hne. revert r.
  induction cols as [|l cols IH]; intros [|v r]; cbn [zip_with cell_at]; try done.
  destruct (decide (l = c)) as [->|]; [|apply IH].
  by rewrite decide_False.
Qed.

Lemma cell_at_overwrite_eq label (x : cell num) cols r :
  label ∈ cols → length r = length cols →
  cell_at cols (zip_with (λ l v, if decide (l = label) then x else v) cols r)
    label = x.
Proof.
  revert r. induction cols as [|l cols IH]; intros [|v r] Hin Hlen;
    simpl in Hlen; try done.
  - by apply elem_of_nil in Hin.
  - cbn [zip_with cell_at]. destruct (decide (l = label)) as [->|Hne]; [done|].
    apply IH; [|lia]. apply elem_of_cons in Hin as [?|?]; [congruence|done].
Qed.

Lemma cell_at_append label (x : cell num) cols r c :
  label ∉ cols → length r = length cols →
  cell_at (cols ++ [label]) (r ++ [x]) c
  = if decide (c = label) then x else cell_at cols r c.
Proof.
  revert r. induction cols as [|l cols IH]; intros [|v r] Hnin Hlen;
    simpl in Hlen; try done.
  - cbn [app cell_at]. destruct (decide (label = c)) as [->|].
    + by rewrite decide_True.
    + by rewrite decide_False by congruence.
  - apply not_elem_of_cons in Hnin as [Hne Hnin]. cbn [app cell_at].
    destruct (decide (l = c)) as [->|Hlc].
    + by rewrite decide_False by congruence.
    + apply IH; [done|lia].
Qed.

Lemma cell_at_assign_row label f cols r c :
  length r = length cols →
  cell_at (assign_labels label cols) (assign_row label f cols r) c
  = if decide (c = label) then f r else cell_at cols r c.
Proof.
  intros Hlen. unfold assign_row, assign_labels.
  destruct (decide (label ∈ cols)) as [Hin|Hnin].
  - destruct (decide (c = label)) as [->|Hne].
    + by apply cell_at_overwrite_eq.
    + by apply cell_at_overwrite_ne.
  - by apply cell_at_append.
Qed.

Lemma label_count_notin label cols : label ∉ cols → label_count label cols = 0.
Proof.
  unfold label_count. induction cols as [|l cols IH]; intros Hn; [done|].
  apply not_elem_of_cons in Hn as [Hne Hn].
  rewrite filter_cons_False by congruence. by apply IH.
Qed.

Lemma label_count_NoDup label cols :
  NoDup cols → label ∈ cols → label_count label cols = 1.
Proof.
  unfold label_count. induction cols as [|l cols IH]; intros Hnd Hin.
  - by apply elem_of_nil in Hin.
  - apply NoDup_cons in Hnd as [Hl Hnd].
    destruct (decide (l = label)) as [->|Hne].
    + rewrite filter_cons_True by done. simpl. f_equal.
      by apply (label_count_notin label cols).
    + rewrite filter_cons_False by done. apply IH; [done|].
      apply elem_of_cons in Hin as [?|?]; [congruence|done].
Qed.

Lemma require_unique_Ok e label cols :
  NoDup cols → label ∈ cols → require_unique e label cols = Ok ().
Proof.
  intros Hnd Hin. unfold require_unique. by rewrite label_count_NoDup.
Qed.

Lemma select_Ok labels df :
  (∀ c, c ∈ labels → c ∈ columns df) →
  select labels df
  = Ok (Frame labels ((λ r, reindex (columns df) r labels) <$> rows df)).
Proof.
  intros H. unfold select. rewrite decide_True; [done|].
  by apply Forall_forall.
Qed.

Lemma union_labels_NoDup seen l :
  NoDup (seen ++ l) → union_labels seen l = seen ++ l.
Proof.
  revert seen. induction l as [|x l IH]; intros seen Hnd; simpl.
  - by rewrite app_nil_r.
  - assert (Hx : x ∉ seen).
    { apply NoDup_app in Hnd as (_ & Hd & _). intros Hx. apply (Hd x Hx). by left. }
    rewrite decide_False by done. rewrite IH; [by rewrite <- app_assoc|].
    by rewrite <- app_assoc.
Qed.

Lemma first_nonnull_spec (series : list (cell num)) :
  (∃ i x, series !! i = Some (Some x)
          ∧ (∀ j, j < i → series !! j = Some None)
          ∧ first_nonnull series = Some x)
  ∨ ((∀ v, v ∈ series → v = None) ∧ first_nonnull series = None).
Proof.
  induction series as [|v series IH]; simpl.
  - right. split; [|done]. intros v Hv. by apply elem_of_nil in Hv.
  - destruct v as [x|].
    + left. exists 0, x. split_and!; [done| |done]. intros j Hj. lia.
    + destruct IH as [(i & x & Hi & Hlt & Hf)|[Hall Hf]].
      * left. exists (S i), x. split_and!; [done| |done].
        intros [|j] Hj; [done|]. simpl. apply Hlt. lia.
      * right. split; [|done]. intros v [->|Hv]%elem_of_cons; auto.
Qed.

End FrameOps.

(** *** Lists *)

Lemma filter_all {B} (P : B → Prop) `{!∀ x, Decision (P x)} (l : list B) :
  (∀ x, x ∈ l → P x) → filter P l = l.
Proof.
  induction l as [|x l IH]; intros Hall; [done|].
  rewrite filter_cons_True by (apply Hall; by left).
  f_equal. apply IH. intros y Hy. apply Hall. by right.
Qed.

Lemma filter_fmap {B C} (f : B → C) (P : C → Prop) `{!∀ x, Decision (P x)}
    (l : list B) :
  filter P (f <$> l) = f <$> filter (λ x, P (f x)) l.
Proof.
  induction l as [|x l IH]; [done|]. cbn [fmap list_fmap].
  destruct (decide (P (f x))) as [HP|HP].
  - rewrite !filter_cons_True by done. cbn [fmap list_fmap]. f_equal. apply IH.
  - rewrite !filter_cons_False by done. apply IH.
Qed.

Lemma omap_fmap {B C D} (f : B → C) (g : C → option D) (l : list B) :
  omap g (f <$> l) = omap (λ x, g (f x)) l.
Proof.
  induction l as [|x l IH]; [done|]. cbn [fmap list_fmap omap list_omap].
  destruct (g (f x)); [f_equal|]; apply IH.
Qed.

(** ** Pairwise dataset normalizer *)

Definition all_cepii_cols : list string :=
  [
    "iso3_o"; "iso3_d"; "distw_harmonic"; "distw_arithmetic";
    "distw_harmonic_jh"; "distw_arithmetic_jh"; "dist"; "main_city_source_o";
    "main_city_source_d"; "distcap"; "contig"; "diplo_disagreement";
    "scaled_sci_2021"; "comlang_off"; "comlang_ethno"; "comcol";
    "col45"; "legal_old_o"; "legal_old_d"; "legal_new_o";
    "legal_new_d"; "comleg_pretrans"; "comleg_posttrans"; "transition_legalchange";
    "comrelig"; "heg_o"; "heg_d"; "col_dep_ever";
    "col_dep"; "col_dep_end_year"; "col_dep_end_conflict"; "empire";
    "sibling_ever"; "sibling"; "sever_year"; "sib_conflict"
  ].

(** What [prepare_cepii_data] finds at [CEPII_PATH]: nothing, a file
    [pd.read_csv] raises on, or a table read with [dtype=str]: unique
    labels, every cell a string or NaN. *)
Inductive cepii_source :=
| CepiiAbsent
| CepiiUnreadable
| CepiiCsv (labels : list string) (lines : list (list (option string))).

(** [cols_to_keep]. *)
Definition cols_to_keep_of (cfg : config) (df_columns : list string)
  : list string :=
  if decide (CEPII_VARIABLES cfg = ["all"])
  then filter (λ c, (c ∉ ["iso3_o"; "iso3_d"]) ∧ (c ∈ df_columns)) all_cepii_cols
  else filter (λ c, c ∈ df_columns) (CEPII_VARIABLES cfg).

Definition num_cols_all : list string :=
  filter (λ c, c ∉ ["iso3_o"; "iso3_d"]) all_cepii_cols.

(** [agg_dict]'s keys: the kept columns, each once. *)
Definition agg_keys (cols_to_keep df_columns : list string) : list string :=
  union_labels [] (filter (λ c, c ∈ df_columns) cols_to_keep).

Lemma cols_to_keep_of_in cfg labels c :
  c ∈ cols_to_keep_of cfg labels → c ∈ labels.
Proof.
  unfold cols_to_keep_of. destruct (decide _);
    rewrite list_elem_of_filter; tauto.
Qed.

Section Normalizer.

Context {num : Type}.

(** [pd.to_numeric] on one string; [None] where [errors="coerce"] yields
    NaN. *)
Variable to_numeric : string → option num.

Definition to_numeric_cell (v : cell num) : cell num :=
  match v with
  | Some (VStr s) => VNum <$> to_numeric s
  | other => other
  end.

Definition read_csv (labels : list string) (lines : list (list (option string)))
  : DataFrame num :=
  Frame labels
    ((λ line : list (option string),
        (λ v : option string, VStr <$> v) <$> line) <$> lines).

(** [for c in num_cols: df[c] = pd.to_numeric(df[c], errors="coerce")]. *)
Fixpoint coerce_columns (num_cols : list string) (df : DataFrame num)
  : result (DataFrame num) :=
  match num_cols with
  | [] => Ok df
  | c :: num_cols =>
      _ ← require_unique TypeError c (columns df);
      coerce_columns num_cols
        (assign c (λ r, to_numeric_cell (cell_at (columns df) r c)) df)
  end.

(** Step 2 of [prepare_cepii_data]: the columns [key_a] and [key_b],
    [np.where(o < d, o, d)] and [np.where(o < d, d, o)]. *)
Definition order_invariant_keys (df : DataFrame num) : result (DataFrame num) :=
  _ ← require_unique ValueError "iso3_o" (columns df);
  _ ← require_unique ValueError "iso3_d" (columns df);
  let df1 :=
    assign "key_a"
      (λ r, let o := cell_at (columns df) r "iso3_o" in
            let d := cell_at (columns df) r "iso3_d" in
            if cell_lt o d then o else d)
      df in
  Ok (assign "key_b"
        (λ r, let o := cell_at (columns df1) r "iso3_o" in
              let d := cell_at (columns df1) r "iso3_d" in
              if cell_lt o d then d else o)
        df1).

(** Step 3 of [prepare_cepii_data]: the aggregation by [(key_a, key_b)],
    the symmetric key and the final selection. *)
Definition aggregate_pairs (cols_to_keep : list string) (df : DataFrame num)
  : result (DataFrame num) :=
  let agg_dict := agg_keys cols_to_keep (columns df) in
  if decide (agg_dict = []) then Ok empty_frame
  else
    collapsed ← groupby_first "key_a" "key_b" agg_dict df;
    let collapsed :=
      assign "cepii_key"
        (λ r, cell_add
                (cell_add (cell_at (columns collapsed) r "key_a")
                          (Some (VStr "-")))
                (cell_at (columns collapsed) r "key_b"))
        collapsed in
    let final_cols := "cepii_key" :: cols_to_keep in
    select final_cols collapsed.

(** [prepare_cepii_data]. *)
Definition prepare_cepii_data (cfg : config) (src : cepii_source)
  : result (DataFrame num) :=
  match src with
  | CepiiAbsent | CepiiUnreadable => Ok empty_frame
  | CepiiCsv labels lines =>
      let df := read_csv labels lines in
      let cols_to_keep := cols_to_keep_of cfg (columns df) in
      let cols_to_keep_with_iso := ["iso3_o"; "iso3_d"] ++ cols_to_keep in
      let existing_cols := filter (λ c, c ∈ columns df) cols_to_keep_with_iso in
      if decide (¬ ("iso3_o" ∈ existing_cols ∧ "iso3_d" ∈ existing_cols))
      then Ok empty_frame
      else
        df ← select existing_cols df;
        let num_cols := filter (λ c, c ∈ num_cols_all) existing_cols in
        df ← coerce_columns num_cols df;
        df ← order_invariant_keys df;
        aggregate_pairs cols_to_keep df
  end.

(** *** The normalized table, as the specification words it *)

(** The cell of a source line under a label, as read. *)
Definition raw_value (labels : list string) (line : list (option string))
    (c : string) : cell num :=
  VStr <$> cell_at labels line c.

(** The value of an attribute in a source line once the numeric coercion
    has run: known CEPII columns are parsed, the others are kept as read. *)
Definition attr_value (labels : list string) (line : list (option string))
    (c : string) : cell num :=
  if decide (c ∈ num_cols_all)
  then to_numeric_cell (raw_value labels line c)
  else raw_value labels line c.

(** The unordered pair of a source line; none when an identity is NaN. *)
Definition line_pair (labels : list string) (line : list (option string))
  : option (string * string) :=
  match cell_at labels line "iso3_o", cell_at labels line "iso3_d" with
  | Some o, Some d => Some (key_a o d, key_b o d)
  | _, _ => None
  end.

(** The lines of one pair, in encounter order. *)
Definition group_of (labels : list string) (lines : list (list (option string)))
    (k : string * string) : list (list (option string)) :=
  filter (λ line, line_pair labels line = Some k) lines.

(** The pairs of the source, each once, in key order. *)
Definition group_keys (labels : list string)
    (lines : list (list (option string))) : list (string * string) :=
  merge_sort pair_le (remove_dups (omap (line_pair labels) lines)).

Definition normalized_row (labels : list string)
    (lines : list (list (option string))) (keep : list string)
    (k : string * string) : list (cell num) :=
  Some (VStr (k.1 +:+ "-" +:+ k.2))
  :: ((λ c, first_nonnull
              ((λ line, attr_value labels line c) <$> group_of labels lines k))
        <$> keep).

(** The labels the normalizer uses for itself. *)
Definition reserved_labels : list string :=
  ["iso3_o"; "iso3_d"; "key_a"; "key_b"; "cepii_key"].

(** A request the frames can serve: no attribute asked twice, none under
    a label the normalizer uses for itself. *)
Definition proper_request (keep : list string) : Prop :=
  NoDup keep ∧ ∀ c, c ∈ keep → c ∉ reserved_labels.

(** *** Facts *)

Lemma to_numeric_cell_idemp v :
  to_numeric_cell (to_numeric_cell v) = to_numeric_cell v.
Proof.
  destruct v as [[s|n]|]; simpl; try done.
  by destruct (to_numeric s).
Qed.

Lemma coerce_columns_Ok num_cols cols :
  NoDup cols → (∀ c, c ∈ num_cols → c ∈ cols) →
  ∀ rows0, ∃ g,
    coerce_columns num_cols (Frame cols rows0) = Ok (Frame cols (g <$> rows0))
    ∧ ∀ r, length r = length cols →
           length (g r) = length cols
           ∧ ∀ c, cell_at cols (g r) c
                  = if decide (c ∈ num_cols)
                    then to_numeric_cell (cell_at cols r c)
                    else cell_at cols r c.
Proof.
  intros Hnd. induction num_cols as [|x xs IH]; intros Hin rows0.
  - exists id. split; [by rewrite list_fmap_id|].
    intros r Hlen. split; [done|].
    intros c. by rewrite decide_False by apply not_elem_of_nil.
  - assert (Hx : x ∈ cols) by (apply Hin; by left).
    cbn [coerce_columns columns]. rewrite require_unique_Ok by done.
    cbn [mbind result_bind]. unfold assign. cbn [columns rows].
    rewrite assign_labels_in by done.
    set (ar := assign_row x (λ r, to_numeric_cell (cell_at cols r x)) cols).
    destruct (IH (λ c Hc, Hin c (list_elem_of_further _ _ _ Hc)) (ar <$> rows0))
      as (g & Hg & Hview).
    exists (g ∘ ar). split; [by rewrite list_fmap_compose|].
    intros r Hlen. cbn [compose].
    assert (Hlen' : length (ar r) = length cols).
    { unfold ar. rewrite length_assign_row by done.
      by rewrite assign_labels_in. }
    destruct (Hview (ar r) Hlen') as [Hl Hv]. split; [done|].
    intros c. rewrite Hv.
    assert (Har : ∀ y, cell_at cols (ar r) y
                       = if decide (y = x) then to_numeric_cell (cell_at cols r x)
                         else cell_at cols r y).
    { intros y. unfold ar.
      pose proof (cell_at_assign_row x
        (λ r, to_numeric_cell (cell_at cols r x)) cols r y Hlen) as Hy.
      by rewrite (assign_labels_in x cols Hx) in Hy. }
    rewrite Har.
    destruct (decide (c = x)) as [->|Hne].
    + rewrite (decide_True (P := x ∈ x :: xs)) by (by left).
      destruct (decide (x ∈ xs)); [apply to_numeric_cell_idemp|done].
    + destruct (decide (c ∈ xs)) as [Hc|Hc].
      * by rewrite decide_True by (by right).
      * rewrite decide_False; [done|].
        intros [?|?]%elem_of_cons; done.
Qed.

Lemma cell_at_read_csv labels (line : list (option string)) c :
  cell_at labels ((λ v : option string, @VStr num <$> v) <$> line) c
  = raw_value labels line c.
Proof.
  unfold raw_value. revert line.
  induction labels as [|l labels IH]; intros [|v line]; simpl; try done.
  destruct (decide (l = c)); [done|apply IH].
Qed.

Lemma order_invariant_keys_Ok cols rows0 :
  NoDup cols → "iso3_o" ∈ cols → "iso3_d" ∈ cols →
  "key_a" ∉ cols → "key_b" ∉ cols →
  ∃ g, order_invariant_keys (Frame cols rows0)
       = Ok (Frame (cols ++ ["key_a"; "key_b"]) (g <$> rows0))
       ∧ ∀ r, length r = length cols →
           length (g r) = length (cols ++ ["key_a"; "key_b"])
           ∧ ∀ c,
               cell_at (cols ++ ["key_a"; "key_b"]) (g r) c
               = let o := cell_at cols r "iso3_o" in
                 let d := cell_at cols r "iso3_d" in
                 if decide (c = "key_b") then (if cell_lt o d then d else o)
                 else if decide (c = "key_a") then (if cell_lt o d then o else d)
                 else cell_at cols r c.
Proof.
  intros Hnd Ho Hd Ha Hb.
  assert (E : assign_labels "key_b" (assign_labels "key_a" cols)
              = cols ++ ["key_a"; "key_b"]).
  { unfold assign_labels. rewrite (decide_False (P := "key_a" ∈ cols)) by done.
    rewrite decide_False.
    - by rewrite <- app_assoc.
    - rewrite elem_of_app, list_elem_of_singleton. intros [?|?]; done. }
  rewrite <- E. unfold order_invariant_keys. cbn [columns].
  rewrite !require_unique_Ok by done. cbn [mbind result_bind].
  unfold assign. cbn [columns rows].
  eexists. split.
  - rewrite <- list_fmap_compose. reflexivity.
  - intros r Hlen. cbn [compose].
    set (fa := λ r : list (cell num),
           let o := cell_at cols r "iso3_o" in
           let d := cell_at cols r "iso3_d" in
           if cell_lt o d then o else d).
    assert (Hlen1 : length (assign_row "key_a" fa cols r)
                    = length (assign_labels "key_a" cols))
      by (by apply length_assign_row).
    split; [by apply length_assign_row|].
    intros c. rewrite cell_at_assign_row by done.
    rewrite !(cell_at_assign_row "key_a") by done.
    rewrite !(decide_False (P := "iso3_o" = "key_a")) by done.
    rewrite !(decide_False (P := "iso3_d" = "key_a")) by done.
    cbn zeta. destruct (decide (c = "key_b")); [done|].
    destruct (decide (c = "key_a")); done.
Qed.

Lemma str_app_assoc (a b c : string) : (a +:+ b) +:+ c = a +:+ b +:+ c.
Proof.
  induction a as [|x a IH]; [done|].
  change (String x ((a +:+ b) +:+ c) = String x (a +:+ b +:+ c)).
  by rewrite IH.
Qed.

Lemma aggregate_pairs_Ok keep cols rows0 :
  NoDup cols → "key_a" ∈ cols → "key_b" ∈ cols →
  NoDup keep →
  (∀ c, c ∈ keep → c ∈ cols ∧ c ∉ ["key_a"; "key_b"; "cepii_key"]) →
  keep ≠ [] →
  let pair r := row_pair (cell_at cols r "key_a") (cell_at cols r "key_b") in
  aggregate_pairs keep (Frame cols rows0)
  = Ok (Frame ("cepii_key" :: keep)
          ((λ k, Some (VStr (k.1 +:+ "-" +:+ k.2))
                 :: ((λ c, first_nonnull
                             ((λ r, cell_at cols r c)
                                <$> filter (λ r, pair r = Some k) rows0))
                       <$> keep))
             <$> merge_sort pair_le (remove_dups (omap pair rows0)))).
Proof.
  intros Hnd Ha Hb Hknd Hk Hne pair.
  unfold aggregate_pairs. cbn [columns].
  assert (Eagg : agg_keys keep cols = keep).
  { unfold agg_keys. rewrite filter_all by (intros c Hc; by apply Hk).
    by apply (union_labels_NoDup []). }
  rewrite Eagg. rewrite decide_False by done.
  unfold groupby_first. cbn [columns rows].
  rewrite !require_unique_Ok by done. cbn [mbind result_bind].
  unfold assign. cbn [columns rows].
  rewrite select_Ok.
  2:{ cbn [columns]. intros c Hc. apply elem_of_assign_labels.
      apply elem_of_cons in Hc as [->|Hc]; [by right|].
      left. by do 2 right. }
  cbn [columns rows]. f_equal. f_equal.
  rewrite <- !list_fmap_compose. apply list_fmap_ext. intros _ k _. cbn [compose].
  unfold reindex. cbn [fmap list_fmap]. f_equal.
  - rewrite cell_at_assign_row by (cbn [length]; by rewrite length_fmap).
    rewrite decide_True by done.
    cbn [cell_at]. rewrite decide_True by done.
    rewrite (decide_False (P := "key_a" = "key_b")) by done.
    rewrite decide_True by done. cbn [cell_add]. by rewrite str_app_assoc.
  - apply list_fmap_ext. intros i c Hc%list_elem_of_lookup_2.
    destruct (Hk c Hc) as [_ Hnot].
    rewrite cell_at_assign_row by (cbn [length]; by rewrite length_fmap).
    rewrite decide_False.
    2:{ intros ->. apply Hnot. by do 2 right; left. }
    cbn [cell_at]. rewrite (decide_False (P := "key_a" = c)).
    2:{ intros <-. apply Hnot. by left. }
    rewrite (decide_False (P := "key_b" = c)).
    2:{ intros <-. apply Hnot. by right; left. }
    rewrite cell_at_fmap. by rewrite decide_True.
Qed.

Lemma row_pair_keys (o d : option string) :
  let co : cell num := VStr <$> o in
  let cd : cell num := VStr <$> d in
  row_pair (if cell_lt co cd then co else cd) (if cell_lt co cd then cd else co)
  = match o, d with
    | Some o, Some d => Some (key_a o d, key_b o d)
    | _, _ => None
    end.
Proof.
  destruct o as [o|], d as [d|]; simpl; try done.
  unfold key_a, key_b. by destruct (Str.lt o d).
Qed.

Lemma omap_ext {B C} (f g : B → option C) (l : list B) :
  (∀ x, f x = g x) → omap f l = omap g l.
Proof.
  intros H. induction l as [|x l IH]; [done|].
  cbn [omap list_omap]. rewrite H. destruct (g x); [f_equal|]; apply IH.
Qed.

Lemma prepare_cepii_data_normal cfg labels lines :
  NoDup labels → "iso3_o" ∈ labels → "iso3_d" ∈ labels →
  proper_request (cols_to_keep_of cfg labels) →
  cols_to_keep_of cfg labels ≠ [] →
  prepare_cepii_data cfg (CepiiCsv labels lines)
  = Ok (Frame ("cepii_key" :: cols_to_keep_of cfg labels)
          (normalized_row labels lines (cols_to_keep_of cfg labels)
             <$> group_keys labels lines)).
Proof.
  intros Hnd Ho Hd [Hkeep_nd Hres] Hne.
  unfold prepare_cepii_data. cbn [read_csv columns].
  set (keep := cols_to_keep_of cfg labels) in *.
  set (existing := "iso3_o" :: "iso3_d" :: keep).
  assert (Hkeep_in : ∀ c, c ∈ keep → c ∈ labels).
  { intros c Hc. by apply cols_to_keep_of_in in Hc. }
  assert (Hex : filter (λ c, c ∈ labels) (["iso3_o"; "iso3_d"] ++ keep) = existing).
  { apply filter_all. intros c Hc. simpl in Hc.
    apply elem_of_cons in Hc as [->|Hc]; [done|].
    apply elem_of_cons in Hc as [->|Hc]; [done|]. by apply Hkeep_in. }
  rewrite Hex.
  rewrite decide_False by (intros H; apply H; split; [left | right; left]).
  assert (Hres' : ∀ c, c ∈ keep →
            c ≠ "iso3_o" ∧ c ≠ "iso3_d" ∧ c ≠ "key_a" ∧ c ≠ "key_b" ∧ c ≠ "cepii_key").
  { intros c Hc. specialize (Hres c Hc). unfold reserved_labels in Hres.
    rewrite !not_elem_of_cons in Hres. tauto. }
  assert (Hex_nd : NoDup existing).
  { unfold existing. apply NoDup_cons. split.
    - intros [?|Hc]%elem_of_cons; [done|]. by destruct (Hres' _ Hc) as (? & _).
    - apply NoDup_cons. split; [|done].
      intros Hc. by destruct (Hres' _ Hc) as (_ & ? & _). }
  rewrite select_Ok.
  2:{ cbn [columns]. intros c Hc. unfold existing in Hc.
      apply elem_of_cons in Hc as [->|Hc]; [done|].
      apply elem_of_cons in Hc as [->|Hc]; [done|]. by apply Hkeep_in. }
  cbn [mbind result_bind columns rows].
  set (num_cols := filter (λ c, c ∈ num_cols_all) existing).
  edestruct (coerce_columns_Ok num_cols existing Hex_nd) as (g2 & -> & Hv2).
  { intros c Hc. unfold num_cols in Hc. apply list_elem_of_filter in Hc. tauto. }
  cbn [mbind result_bind].
  edestruct (order_invariant_keys_Ok existing) as (g3 & -> & Hv3); try done.
  { unfold existing. left. }
  { unfold existing. right. left. }
  { unfold existing. rewrite !not_elem_of_cons. split_and!; [done|done|].
    intros Hc. by destruct (Hres' _ Hc) as (_ & _ & ? & _). }
  { unfold existing. rewrite !not_elem_of_cons. split_and!; [done|done|].
    intros Hc. by destruct (Hres' _ Hc) as (_ & _ & _ & ? & _). }
  cbn [mbind result_bind]. unfold read_csv. cbn [columns rows].
  assert (Hlen1 : ∀ r : list (cell num),
            length (reindex labels r existing) = length existing).
  { intros r. unfold reindex. apply length_fmap. }
  assert (Hw2 : ∀ (r : list (cell num)) c,
            cell_at existing (g2 (reindex labels r existing)) c
            = if decide (c ∈ num_cols)
              then to_numeric_cell (cell_at existing (reindex labels r existing) c)
              else cell_at existing (reindex labels r existing) c).
  { intros r c. by apply Hv2. }
  assert (Hw3 : ∀ (r : list (cell num)) c,
            cell_at (existing ++ ["key_a"; "key_b"])
              (g3 (g2 (reindex labels r existing))) c
            = let o := cell_at existing (g2 (reindex labels r existing)) "iso3_o" in
              let d := cell_at existing (g2 (reindex labels r existing)) "iso3_d" in
              if decide (c = "key_b") then (if cell_lt o d then d else o)
              else if decide (c = "key_a") then (if cell_lt o d then o else d)
              else cell_at existing (g2 (reindex labels r existing)) c).
  { intros r c. apply Hv3. by apply Hv2. }
  clear Hv2 Hv3.
  rewrite <- !list_fmap_compose.
  set (G := g3 ∘ (g2 ∘ ((λ r : list (cell num), reindex labels r existing)
                         ∘ (λ line : list (option string),
                              (λ v : option string, VStr <$> v) <$> line)))).
  set (cols4 := existing ++ ["key_a"; "key_b"]).
  assert (Hiso : ∀ line c, c ∈ existing → c ∉ num_cols →
            cell_at existing
              (g2 (reindex labels ((λ v : option string, VStr <$> v) <$> line) existing)) c
            = raw_value labels line c).
  { intros line c Hc Hn. rewrite Hw2, (decide_False (P := c ∈ num_cols)) by done.
    rewrite cell_at_reindex, (decide_True (P := c ∈ existing)) by done.
    apply cell_at_read_csv. }
  assert (Hnot_num : ∀ c, c ∉ num_cols_all → c ∉ num_cols).
  { intros c Hc Hin. unfold num_cols in Hin.
    apply list_elem_of_filter in Hin. tauto. }
  assert (Ho' : "iso3_o" ∉ num_cols).
  { apply Hnot_num. unfold num_cols_all. rewrite list_elem_of_filter.
    intros [H _]. apply H. by left. }
  assert (Hd' : "iso3_d" ∉ num_cols).
  { apply Hnot_num. unfold num_cols_all. rewrite list_elem_of_filter.
    intros [H _]. apply H. by right; left. }
  assert (Hpair : ∀ line,
            row_pair (cell_at cols4 (G line) "key_a") (cell_at cols4 (G line) "key_b")
            = line_pair labels line).
  { intros line. unfold G, cols4. cbn [compose]. rewrite !Hw3. cbn zeta.
    rewrite (decide_False (P := "key_a" = "key_b")) by done.
    rewrite (decide_True (P := "key_a" = "key_a")) by done.
    rewrite (decide_True (P := "key_b" = "key_b")) by done.
    assert (Hoe : "iso3_o" ∈ existing) by (unfold existing; by left).
    assert (Hde : "iso3_d" ∈ existing) by (unfold existing; by right; left).
    rewrite !Hiso by done.
    unfold raw_value, line_pair. apply row_pair_keys. }
  assert (Hattr : ∀ line c, c ∈ keep →
            cell_at cols4 (G line) c = attr_value labels line c).
  { intros line c Hc. destruct (Hres' c Hc) as (? & ? & ? & ? & ?).
    assert (Hc_ex : c ∈ existing) by (unfold existing; by do 2 right).
    unfold G, cols4. cbn [compose]. rewrite Hw3. cbn zeta.
    rewrite (decide_False (P := c = "key_b")) by done.
    rewrite (decide_False (P := c = "key_a")) by done. rewrite Hw2.
    rewrite cell_at_reindex, (decide_True (P := c ∈ existing)) by done.
    rewrite cell_at_read_csv. unfold attr_value.
    destruct (decide (c ∈ num_cols_all)) as [Hn|Hn].
    - rewrite decide_True; [done|]. unfold num_cols.
      apply list_elem_of_filter. by split.
    - rewrite decide_False; [done|]. by apply Hnot_num. }
  rewrite aggregate_pairs_Ok; try done.
  - f_equal. f_equal. unfold group_keys.
    rewrite omap_fmap. rewrite (omap_ext _ (line_pair labels)) by apply Hpair.
    apply list_fmap_ext. intros _ k _. unfold normalized_row. f_equal.
    apply list_fmap_ext. intros _ c Hc%list_elem_of_lookup_2. f_equal.
    rewrite filter_fmap, <- list_fmap_compose. unfold group_of.
    rewrite (list_filter_iff _ (λ line, line_pair labels line = Some k)).
    2:{ intros line. by rewrite Hpair. }
    apply list_fmap_ext. intros _ line _. cbn [compose]. by apply Hattr.
  - unfold cols4. apply NoDup_app. split_and!; [done| |].
    + intros c Hc Hc'. unfold existing in Hc.
      assert (c = "key_a" ∨ c = "key_b") as Hab.
      { apply elem_of_cons in Hc' as [?|Hc']; [by left|].
        apply list_elem_of_singleton in Hc'. by right. }
      apply elem_of_cons in Hc as [->|Hc]; [by destruct Hab|].
      apply elem_of_cons in Hc as [->|Hc]; [by destruct Hab|].
      destruct (Hres' c Hc) as (? & ? & ? & ? & ?). by destruct Hab.
    + apply NoDup_cons. split; [|apply NoDup_singleton].
      intros ?%list_elem_of_singleton. done.
  - unfold cols4. apply elem_of_app. right. by left.
  - unfold cols4. apply elem_of_app. right. by right; left.
  - intros c Hc. destruct (Hres' c Hc) as (? & ? & ? & ? & ?). split.
    + unfold cols4, existing. apply elem_of_app. left. by do 2 right.
    + rewrite !not_elem_of_cons. split_and!; try done. apply not_elem_of_nil.
Qed.
End Normalizer.

(** ** Properties of the pairwise normalizer *)

(** The attributes a configuration asks for: the listed ones, or every
    known CEPII attribute under the wildcard [all]. *)
Definition requested_attributes (cfg : config) : list string :=
  if decide (CEPII_VARIABLES cfg = ["all"])
  then filter (λ c, c ∉ ["iso3_o"; "iso3_d"]) all_cepii_cols
  else CEPII_VARIABLES cfg.

Lemma filter_none {B} (P : B → Prop) `{!∀ x, Decision (P x)} (l : list B) :
  (∀ x, x ∈ l → ¬ P x) → filter P l = [].
Proof.
  induction l as [|x l IH]; intros Hall; [done|].
  rewrite filter_cons_False by (apply Hall; by left).
  apply IH. intros y Hy. apply Hall. by right.
Qed.

Lemma cols_to_keep_of_none cfg labels :
  (∀ c, c ∈ requested_attributes cfg → c ∉ labels) →
  cols_to_keep_of cfg labels = [].
Proof.
  unfold cols_to_keep_of, requested_attributes.
  destruct (decide (CEPII_VARIABLES cfg = ["all"])); intros Hnone.
  - apply filter_none. intros c Hc [Hiso Hl].
    apply (Hnone c); [|done]. apply list_elem_of_filter. by split.
  - apply filter_none. intros c Hc Hl. by apply (Hnone c).
Qed.

(** C6. [prepare_cepii_data] returns the empty table, and does not raise,
    when the source file is absent, when it cannot be read, when it lacks
    [iso3_o] or [iso3_d], and when it has none of the requested
    attributes (an empty table then, not a table of keys alone). *)
Theorem normalizer_fails_soft {num : Type} (to_numeric : string → option num)
    (cfg : config) (src : cepii_source) :
  src = CepiiAbsent
  ∨ src = CepiiUnreadable
  ∨ (∃ labels lines,
       src = CepiiCsv labels lines
       ∧ ("iso3_o" ∉ labels ∨ "iso3_d" ∉ labels
          ∨ ∀ c, c ∈ requested_attributes cfg → c ∉ labels)) →
  prepare_cepii_data to_numeric cfg src = Ok empty_frame.
Proof.
  intros [->|[->|(labels & lines & -> & Hcase)]]; [done|done|].
  unfold prepare_cepii_data. cbn [read_csv columns].
  set (keep := cols_to_keep_of cfg labels).
  destruct (decide (¬ ("iso3_o" ∈ filter (λ c, c ∈ labels) (["iso3_o"; "iso3_d"] ++ keep)
                       ∧ "iso3_d" ∈ filter (λ c, c ∈ labels) (["iso3_o"; "iso3_d"] ++ keep))))
    as [|Hboth]; [done|].
  apply dec_stable in Hboth. destruct Hboth as [Ho Hd].
  apply list_elem_of_filter in Ho as [Ho _].
  apply list_elem_of_filter in Hd as [Hd _].
  destruct Hcase as [?|[?|Hnone]]; [done|done|].
  assert (E : keep = []) by (by apply cols_to_keep_of_none).
  rewrite E. cbn [app].
  rewrite (filter_all (λ c, c ∈ labels) ["iso3_o"; "iso3_d"]).
  2:{ intros c [->|[->|[]%elem_of_nil]%elem_of_cons]%elem_of_cons; done. }
  rewrite select_Ok.
  2:{ intros c [->|[->|[]%elem_of_nil]%elem_of_cons]%elem_of_cons; done. }
  cbn [mbind result_bind].
  assert (En : filter (λ c, c ∈ num_cols_all) ["iso3_o"; "iso3_d"] = []).
  { apply (bool_decide_unpack _). vm_compute. exact I. }
  rewrite En. cbn [coerce_columns mbind result_bind].
  reflexivity.
Qed.

Module DemoCepii.

(** Unsigned decimal integers, the numbers of the examples. *)
Fixpoint digits (acc : Z) (s : string) : option Z :=
  match s with
  | EmptyString => Some acc
  | String c s =>
      let n := Ascii.N_of_ascii c in
      if ((48 <=? n) && (n <=? 57))%N
      then digits (10 * acc + Z.of_N (n - 48)) s
      else None
  end.

Definition to_numeric (s : string) : option Z :=
  match s with
  | EmptyString => None
  | _ => digits 0 s
  end.

(** Two raw lines for the pair (THA, USA), in both directions; [gdp_o] is
    not a known CEPII column. *)
Definition labels : list string :=
  ["iso3_o"; "iso3_d"; "contig"; "comlang_off"; "gdp_o"].

Definition lines : list (list (option string)) :=
  [ [Some "THA"; Some "USA"; Some "0"; None; Some "12.5e3"];
    [Some "USA"; Some "THA"; None; Some "1"; Some "9"] ].

Definition source : cepii_source := CepiiCsv labels lines.

Definition cfg : config :=
  Config [2015%Z] ["THA"; "USA"] ["THA"; "USA"] ["contig"; "comlang_off"; "gdp_o"].

(** The source has none of the requested attributes. *)
Definition cfg_none : config :=
  Config [2015%Z] ["THA"; "USA"] ["THA"; "USA"] ["distcap"; "pop_o"].

Definition normalized : DataFrame Z :=
  Frame ["cepii_key"; "contig"; "comlang_off"; "gdp_o"]
    [[Some (VStr "THA-USA"); Some (VNum 0%Z); Some (VNum 1%Z);
      Some (VStr "12.5e3")]].

Lemma normalized_eq : prepare_cepii_data to_numeric cfg source = Ok normalized.
Proof. vm_compute. reflexivity. Qed.

End DemoCepii.

Lemma normalizer_fails_soft_witness :
  (∀ c, c ∈ requested_attributes DemoCepii.cfg_none → c ∉ DemoCepii.labels)
  ∧ prepare_cepii_data DemoCepii.to_numeric DemoCepii.cfg_none DemoCepii.source
    = Ok empty_frame.
Proof.
  assert (H : ∀ c, c ∈ requested_attributes DemoCepii.cfg_none
                   → c ∉ DemoCepii.labels).
  { apply Forall_forall. apply (bool_decide_unpack _). vm_compute. exact I. }
  split; [exact H|].
  apply (normalizer_fails_soft DemoCepii.to_numeric DemoCepii.cfg_none).
  right. right. exists DemoCepii.labels, DemoCepii.lines.
  split; [reflexivity|]. right. right. exact H.
Defined.

(** [v] is the first non-null value of [series] in order, and null when
    every value of [series] is null. *)
Definition first_non_null_of {num} (series : list (cell num)) (v : cell num)
  : Prop :=
  (∃ i x, series !! i = Some (Some x)
          ∧ (∀ j, j < i → series !! j = Some None)
          ∧ v = Some x)
  ∨ ((∀ u, u ∈ series → u = None) ∧ v = None).

Lemma elem_of_group_keys labels lines k :
  k ∈ group_keys labels lines ↔
  ∃ line, line ∈ lines ∧ line_pair labels line = Some k.
Proof.
  unfold group_keys.
  rewrite merge_sort_Permutation, elem_of_remove_dups, list_elem_of_omap.
  done.
Qed.

Lemma NoDup_group_keys labels lines : NoDup (group_keys labels lines).
Proof.
  unfold group_keys. rewrite merge_sort_Permutation. apply NoDup_remove_dups.
Qed.

(** The cells of a normalized row, read under the labels of the table. *)
Lemma cell_at_normalized_row {num} (to_numeric : string → option num)
    labels lines keep k :
  "cepii_key" ∉ keep →
  cell_at ("cepii_key" :: keep) (normalized_row to_numeric labels lines keep k)
    "cepii_key" = Some (VStr (k.1 +:+ "-" +:+ k.2))
  ∧ ∀ c, c ∈ keep →
         cell_at ("cepii_key" :: keep)
           (normalized_row to_numeric labels lines keep k) c
         = first_nonnull
             ((λ line, attr_value to_numeric labels line c)
                <$> group_of labels lines k).
Proof.
  intros Hk. unfold normalized_row. cbn [cell_at]. split.
  - by rewrite decide_True.
  - intros c Hc. rewrite decide_False by (by intros <-).
    rewrite cell_at_fmap. by rewrite decide_True.
Qed.

(** C2. For every pair of the source there is a normalized row under its
    symmetric key, and for every requested attribute its value in that row
    is the first non-null value of the attribute among the source lines of
    the pair, in encounter order, and null when all of them are null.
    Values are taken as the frame holds them when it is grouped: an entry
    of a known numeric column that does not parse is null.  The table has
    one row per pair and no other rows. *)
Theorem first_non_null_per_pair {num : Type} (to_numeric : string → option num)
    (cfg : config) (labels : list string) (lines : list (list (option string))) :
  let keep := cols_to_keep_of cfg labels in
  NoDup labels → "iso3_o" ∈ labels → "iso3_d" ∈ labels →
  proper_request keep → keep ≠ [] →
  ∃ out,
    prepare_cepii_data to_numeric cfg (CepiiCsv labels lines) = Ok out
    ∧ length (rows out) = length (group_keys labels lines)
    ∧ (∀ k, k ∈ group_keys labels lines →
         ∃ row, row ∈ rows out
           ∧ cell_at (columns out) row "cepii_key"
             = Some (VStr (k.1 +:+ "-" +:+ k.2))
           ∧ ∀ c, c ∈ keep →
               first_non_null_of
                 ((λ line, attr_value to_numeric labels line c)
                    <$> group_of labels lines k)
                 (cell_at (columns out) row c))
    ∧ (∀ line o d,
         line ∈ lines →
         cell_at labels line "iso3_o" = Some o →
         cell_at labels line "iso3_d" = Some d →
         (key_a o d, key_b o d) ∈ group_keys labels lines).
Proof.
  intros keep Hnd Ho Hd Hreq Hne.
  eexists. split; [by apply prepare_cepii_data_normal|].
  cbn [columns rows]. fold keep.
  assert (Hck : "cepii_key" ∉ keep).
  { intros Hc. apply (proj2 Hreq _ Hc). unfold reserved_labels. by do 4 right; left. }
  split_and!.
  - by rewrite length_fmap.
  - intros k Hk. eexists. split; [apply list_elem_of_fmap; eauto|].
    destruct (cell_at_normalized_row to_numeric labels lines keep k Hck)
      as [Hkey Hval].
    split; [done|]. intros c Hc. rewrite (Hval c Hc).
    destruct (first_nonnull_spec
                ((λ line, attr_value to_numeric labels line c)
                   <$> group_of labels lines k))
      as [(i & x & Hi & Hlt & ->)|[Hall ->]].
    + left. by exists i, x.
    + by right.
  - intros line o d Hline Eo Ed. apply elem_of_group_keys.
    exists line. split; [done|]. unfold line_pair. by rewrite Eo, Ed.
Qed.

Lemma demo_cepii_proper :
  proper_request (cols_to_keep_of DemoCepii.cfg DemoCepii.labels).
Proof.
  split.
  - apply (bool_decide_unpack _). vm_compute. exact I.
  - apply Forall_forall. apply (bool_decide_unpack _). vm_compute. exact I.
Qed.

Lemma first_non_null_per_pair_witness :
  NoDup DemoCepii.labels
  ∧ "iso3_o" ∈ DemoCepii.labels ∧ "iso3_d" ∈ DemoCepii.labels
  ∧ proper_request (cols_to_keep_of DemoCepii.cfg DemoCepii.labels)
  ∧ cols_to_keep_of DemoCepii.cfg DemoCepii.labels ≠ []
  ∧ ∃ out,
      prepare_cepii_data DemoCepii.to_numeric DemoCepii.cfg
        (CepiiCsv DemoCepii.labels DemoCepii.lines) = Ok out
      ∧ length (rows out) = length (group_keys DemoCepii.labels DemoCepii.lines).
Proof.
  assert (H1 : NoDup DemoCepii.labels)
    by (apply (bool_decide_unpack _); vm_compute; exact I).
  assert (H2 : "iso3_o" ∈ DemoCepii.labels) by (by left).
  assert (H3 : "iso3_d" ∈ DemoCepii.labels) by (by right; left).
  assert (H5 : cols_to_keep_of DemoCepii.cfg DemoCepii.labels ≠ [])
    by (vm_compute; congruence).
  split; [exact H1|]. split; [exact H2|]. split; [exact H3|].
  split; [exact demo_cepii_proper|]. split; [exact H5|].
  destruct (first_non_null_per_pair DemoCepii.to_numeric DemoCepii.cfg
              DemoCepii.labels DemoCepii.lines H1 H2 H3 demo_cepii_proper H5)
    as (out & Hout & Hlen & _).
  exists out. split; [exact Hout|exact Hlen].
Defined.

Lemma attr_value_known {num} (to_numeric : string → option num) labels line c :
  c ∈ all_cepii_cols → c ≠ "iso3_o" → c ≠ "iso3_d" →
  attr_value to_numeric labels line c
  = to_numeric_cell to_numeric (raw_value labels line c).
Proof.
  intros Hc Ho Hd. unfold attr_value. rewrite decide_True; [done|].
  unfold num_cols_all. apply list_elem_of_filter. split; [|done].
  rewrite !not_elem_of_cons. split_and!; [done|done|apply not_elem_of_nil].
Qed.

Lemma attr_value_other {num} (to_numeric : string → option num) labels line c :
  c ∉ all_cepii_cols →
  attr_value to_numeric labels line c = raw_value labels line c.
Proof.
  intros Hc. unfold attr_value. rewrite decide_False; [done|].
  unfold num_cols_all. rewrite list_elem_of_filter. tauto.
Qed.

(** C10. In the normalized table an attribute of the embedded list of
    known CEPII columns holds the first non-null of its parsed values (an
    entry that does not parse is null); a requested attribute that is not
    in that list holds the first non-null of its entries as read, strings
    that were never parsed. *)
Theorem coercion_only_known_columns {num : Type}
    (to_numeric : string → option num)
    (cfg : config) (labels : list string) (lines : list (list (option string))) :
  let keep := cols_to_keep_of cfg labels in
  NoDup labels → "iso3_o" ∈ labels → "iso3_d" ∈ labels →
  proper_request keep → keep ≠ [] →
  ∃ out,
    prepare_cepii_data to_numeric cfg (CepiiCsv labels lines) = Ok out
    ∧ ∀ k, k ∈ group_keys labels lines →
        ∃ row, row ∈ rows out
          ∧ cell_at (columns out) row "cepii_key"
            = Some (VStr (k.1 +:+ "-" +:+ k.2))
          ∧ ∀ c, c ∈ keep →
              (c ∈ all_cepii_cols →
               cell_at (columns out) row c
               = first_nonnull
                   ((λ line, to_numeric_cell to_numeric (raw_value labels line c))
                      <$> group_of labels lines k))
              ∧ (c ∉ all_cepii_cols →
                 cell_at (columns out) row c
                 = first_nonnull
                     ((λ line, raw_value labels line c)
                        <$> group_of labels lines k)).
Proof.
  intros keep Hnd Ho Hd Hreq Hne.
  eexists. split; [by apply prepare_cepii_data_normal|].
  cbn [columns rows]. fold keep.
  assert (Hres : ∀ c, c ∈ keep → c ≠ "iso3_o" ∧ c ≠ "iso3_d" ∧ c ≠ "cepii_key").
  { intros c Hc. pose proof (proj2 Hreq c Hc) as Hr. unfold reserved_labels in Hr.
    rewrite !not_elem_of_cons in Hr. tauto. }
  assert (Hck : "cepii_key" ∉ keep).
  { intros Hc. by destruct (Hres _ Hc) as (_ & _ & ?). }
  intros k Hk. eexists. split; [apply list_elem_of_fmap; eauto|].
  destruct (cell_at_normalized_row to_numeric labels lines keep k Hck)
    as [Hkey Hval].
  split; [done|]. intros c Hc. rewrite (Hval c Hc).
  destruct (Hres c Hc) as (Hco & Hcd & _). split; intros Hin; f_equal.
  - apply list_fmap_ext. intros _ line _. by apply attr_value_known.
  - apply list_fmap_ext. intros _ line _. by apply attr_value_other.
Qed.

Lemma coercion_only_known_columns_witness :
  NoDup DemoCepii.labels
  ∧ "iso3_o" ∈ DemoCepii.labels ∧ "iso3_d" ∈ DemoCepii.labels
  ∧ proper_request (cols_to_keep_of DemoCepii.cfg DemoCepii.labels)
  ∧ cols_to_keep_of DemoCepii.cfg DemoCepii.labels ≠ []
  ∧ ∃ out,
      prepare_cepii_data DemoCepii.to_numeric DemoCepii.cfg
        (CepiiCsv DemoCepii.labels DemoCepii.lines) = Ok out
      ∧ ∀ k, k ∈ group_keys DemoCepii.labels DemoCepii.lines →
          ∃ row, row ∈ rows out
            ∧ cell_at (columns out) row "cepii_key"
              = Some (VStr (k.1 +:+ "-" +:+ k.2)).
Proof.
  assert (H1 : NoDup DemoCepii.labels)
    by (apply (bool_decide_unpack _); vm_compute; exact I).
  assert (H2 : "iso3_o" ∈ DemoCepii.labels) by (by left).
  assert (H3 : "iso3_d" ∈ DemoCepii.labels) by (by right; left).
  assert (H5 : cols_to_keep_of DemoCepii.cfg DemoCepii.labels ≠ [])
    by (vm_compute; congruence).
  split; [exact H1|]. split; [exact H2|]. split; [exact H3|].
  split; [exact demo_cepii_proper|]. split; [exact H5|].
  destruct (coercion_only_known_columns DemoCepii.to_numeric DemoCepii.cfg
              DemoCepii.labels DemoCepii.lines H1 H2 H3 demo_cepii_proper H5)
    as (out & Hout & Hrows).
  exists out. split; [exact Hout|].
  intros k Hk. destruct (Hrows k Hk) as (row & Hrow & Hkey & _).
  exists row. split; [exact Hrow|exact Hkey].
Defined.

(** ** Merge engine *)

(** [[f(x) for x in l]] where [f] may raise: the first exception wins. *)
Fixpoint traverse {A B} (f : A → result B) (l : list A) : result (list B) :=
  match l with
  | [] => Ok []
  | x :: l => y ← f x; ys ← traverse f l; Ok (y :: ys)
  end.

(** [index.duplicated()]: true where a label repeats an earlier one. *)
Fixpoint duplicated_from (seen : list string) (l : list string) : list bool :=
  match l with
  | [] => []
  | x :: l => bool_decide (x ∈ seen) :: duplicated_from (x :: seen) l
  end.

Definition duplicated (l : list string) : list bool := duplicated_from [] l.

(** The check of [_items_overlap_with_suffix]: a suffix must not create a
    repeated label. *)
Definition suffix_creates_duplicate (renamed original : list string) : bool :=
  existsb (λ p : bool * bool, p.1 && negb p.2)
          (zip (duplicated renamed) (duplicated original)).

Section MergeEngine.

Context {num : Type} `{!EqDecision num}.

(** [pd.to_numeric] on one string, [astype("Int64")] on one number
    ([None] where the cast raises), and [DataFrame.to_csv]. *)
Variable to_numeric : string → option num.
Variable as_Int64 : num → option num.
Variable to_csv : csv_target → DataFrame num → result unit.

(** [pd.to_numeric(v, errors="coerce").astype("Int64")] on one cell. *)
Definition year_cell (v : cell num) : result (cell num) :=
  match to_numeric_cell to_numeric v with
  | Some (VNum n) =>
      match as_Int64 n with
      | Some m => Ok (Some (VNum m))
      | None => Raise TypeError
      end
  | _ => Ok None
  end.

(** The head of [merge_datasets]: [period] is renamed to [year] and the
    [year] column is coerced in place. *)
Definition normalize_year (df_trade : DataFrame num) : result (DataFrame num) :=
  let cols :=
    if decide ("period" ∈ columns df_trade)
    then (λ l, if decide (l = "period") then "year" else l) <$> columns df_trade
    else columns df_trade in
  _ ← require_unique TypeError "year" cols;
  rows' ← traverse
            (λ r, y ← year_cell (cell_at cols r "year");
                  Ok (zip_with (λ l v, if decide (l = "year") then y else v) cols r))
            (rows df_trade);
  Ok (Frame cols rows').

(** [df_wb.add_suffix(suffix).rename(columns={"countryISO" + suffix:
    country, "Year" + suffix: "year"})]. *)
Definition wb_label (suffix country : string) (l : string) : string :=
  let l' := l +:+ suffix in
  if decide (l' = "countryISO" +:+ suffix) then country
  else if decide (l' = "Year" +:+ suffix) then "year"
  else l'.

Definition wb_side (suffix country : string) (df_wb : DataFrame num)
  : DataFrame num :=
  Frame (wb_label suffix country <$> columns df_wb) (rows df_wb).

(** The cells of a row under the labels that are not dropped. *)
Definition cells_without (dropped : list string) (cols : list string)
    (r : list (cell num)) : list (cell num) :=
  (filter (λ lv : string * cell num, lv.1 ∉ dropped) (zip cols r)).*2.

(** [left.merge(right, left_on=.., right_on=.., how="left")], the keys
    given as pairs (left label, right label).  A right key column is
    dropped when it has the name of its left key.  Labels the two sides
    share get the suffixes [_x] and [_y].  Keys compare as cells, NaN
    matching NaN.  Every left row is kept, in order: once with NaN in the
    columns of the right table when no right row has its key, once per
    matching right row otherwise. *)
Definition right_drop (keys : list (string * string)) : list string :=
  (filter (λ k : string * string, k.1 = k.2) keys).*2.

Definition kept_right_labels (keys : list (string * string))
    (right : DataFrame num) : list string :=
  filter (λ l, l ∉ right_drop keys) (columns right).

Definition merged_labels (keys : list (string * string))
    (left right : DataFrame num) : list string :=
  let rcols := kept_right_labels keys right in
  let lcols := columns left in
  ((λ l, if decide (l ∈ rcols) then l +:+ "_x" else l) <$> lcols)
  ++ ((λ l, if decide (l ∈ lcols) then l +:+ "_y" else l) <$> rcols).

Definition left_key (keys : list (string * string)) (left : DataFrame num)
    (l : list (cell num)) : list (cell num) :=
  (λ k : string * string, cell_at (columns left) l k.1) <$> keys.

Definition right_key (keys : list (string * string)) (right : DataFrame num)
    (r : list (cell num)) : list (cell num) :=
  (λ k : string * string, cell_at (columns right) r k.2) <$> keys.

Definition matches (keys : list (string * string))
    (left right : DataFrame num) (l : list (cell num))
  : list (list (cell num)) :=
  filter (λ r, right_key keys right r = left_key keys left l) (rows right).

Definition joined_rows (keys : list (string * string))
    (left right : DataFrame num) (l : list (cell num))
  : list (list (cell num)) :=
  match matches keys left right l with
  | [] => [l ++ replicate (length (kept_right_labels keys right)) None]
  | found =>
      (λ r, l ++ cells_without (right_drop keys) (columns right) r) <$> found
  end.

Definition merge_left (keys : list (string * string))
    (left right : DataFrame num) : result (DataFrame num) :=
  _ ← traverse (λ k, require_unique ValueError k.1 (columns left)) keys;
  _ ← traverse (λ k, require_unique ValueError k.2 (columns right)) keys;
  let rcols := kept_right_labels keys right in
  let lcols := columns left in
  let llabels := (λ l, if decide (l ∈ rcols) then l +:+ "_x" else l) <$> lcols in
  let rlabels := (λ l, if decide (l ∈ lcols) then l +:+ "_y" else l) <$> rcols in
  if suffix_creates_duplicate llabels lcols
     || suffix_creates_duplicate rlabels rcols
  then Raise MergeError
  else
    Ok (Frame (merged_labels keys left right)
              (mjoin (joined_rows keys left right <$> rows left))).

(** Step 3.1: the two joins with the indicator table. *)
Definition merge_world_bank (df_wb df_trade : DataFrame num)
  : result (DataFrame num) :=
  let wb_rep := wb_side "_reporter" "reporterISO" df_wb in
  let wb_par := wb_side "_partner" "partnerISO" df_wb in
  merged ← merge_left [("reporterISO", "reporterISO"); ("year", "year")]
             df_trade wb_rep;
  merge_left [("partnerISO", "partnerISO"); ("year", "year")] merged wb_par.

(** [r + "-" + p] raises on a number. *)
Definition require_str (v : cell num) : result unit :=
  match v with
  | Some (VNum _) => Raise TypeError
  | _ => Ok ()
  end.

(** [np.where(r < p, r + "-" + p, p + "-" + r)] on one row. *)
Definition pair_key_cell (rep par : cell num) : cell num :=
  if cell_lt rep par
  then cell_add (cell_add rep (Some (VStr "-"))) par
  else cell_add (cell_add par (Some (VStr "-"))) rep.

(** [df.drop(columns=labels, errors='ignore')]. *)
Definition drop_columns (labels : list string) (df : DataFrame num)
  : DataFrame num :=
  Frame (filter (λ l, l ∉ labels) (columns df))
        (cells_without labels (columns df) <$> rows df).

(** Step 3.2: the join with the pairwise table on the symmetric key. *)
Definition merge_cepii (merged df_cepii : DataFrame num)
  : result (DataFrame num) :=
  if decide (df_empty df_cepii = false
             ∧ "reporterISO" ∈ columns merged
             ∧ "partnerISO" ∈ columns merged)
  then
    let cols := columns merged in
    _ ← require_unique ValueError "reporterISO" cols;
    _ ← require_unique ValueError "partnerISO" cols;
    _ ← traverse (λ r, _ ← require_str (cell_at cols r "reporterISO");
                       require_str (cell_at cols r "partnerISO"))
          (rows merged);
    let with_key :=
      assign "cepii_merge_key"
        (λ r, pair_key_cell (cell_at cols r "reporterISO")
                            (cell_at cols r "partnerISO"))
        merged in
    joined ← merge_left [("cepii_merge_key", "cepii_key")] with_key df_cepii;
    Ok (drop_columns ["cepii_merge_key"; "cepii_key"] joined)
  else Ok merged.

(** [merge_datasets]. *)
Definition merge_datasets (df_wb df_trade df_cepii : DataFrame num)
  : result (DataFrame num) :=
  if df_empty df_trade then Ok df_trade
  else
    df_trade ← normalize_year df_trade;
    merged ← merge_world_bank df_wb df_trade;
    merged ← merge_cepii merged df_cepii;
    _ ← to_csv MergedTradeWbCepiiCsv merged;
    Ok merged.

End MergeEngine.

(** ** Properties of the merge engine *)

(** On strings the key column of step 3.2 holds the symmetric key
    [cepii_merge_key]. *)
Lemma pair_key_cell_str {num} (r p : string) :
  pair_key_cell (num := num) (Some (VStr r)) (Some (VStr p))
  = Some (VStr (cepii_merge_key r p)).
Proof.
  unfold pair_key_cell, cepii_merge_key. cbn [cell_lt cell_add].
  destruct (Str.lt r p); by rewrite str_app_assoc.
Qed.

(** C9. A non-empty trade table that has neither a [period] nor a [year]
    column makes [merge_datasets] raise (the [KeyError] of
    [df_trade["year"]]); nothing is returned. *)
Theorem merge_requires_year_column {num : Type} `{!EqDecision num}
    (to_numeric : string → option num) (as_Int64 : num → option num)
    (to_csv : csv_target → DataFrame num → result unit)
    (df_wb df_trade df_cepii : DataFrame num) :
  df_empty df_trade = false →
  "period" ∉ columns df_trade →
  "year" ∉ columns df_trade →
  merge_datasets to_numeric as_Int64 to_csv df_wb df_trade df_cepii
  = Raise KeyError.
Proof.
  intros Hne Hperiod Hyear. unfold merge_datasets. rewrite Hne.
  unfold normalize_year. rewrite decide_False by done.
  unfold require_unique. by rewrite label_count_notin.
Qed.

Module DemoMerge.

Definition as_Int64 (n : Z) : option Z := Some n.

(** A trade table without a period or year column. *)
Definition trade_no_year : DataFrame Z :=
  Frame ["reporterISO"; "partnerISO"; "primaryValue"]
    [[Some (VStr "THA"); Some (VStr "USA"); Some (VNum 10%Z)]].

Definition wb : DataFrame Z :=
  Frame ["countryISO"; "Year"; "NY.GDP.MKTP.CD"]
    [[Some (VStr "THA"); Some (VNum 2015%Z); Some (VNum 401%Z)];
     [Some (VStr "USA"); Some (VNum 2015%Z); Some (VNum 18206%Z)]].

End DemoMerge.

Lemma merge_requires_year_column_witness :
  df_empty DemoMerge.trade_no_year = false
  ∧ ("period" ∉ columns DemoMerge.trade_no_year)
  ∧ ("year" ∉ columns DemoMerge.trade_no_year)
  ∧ merge_datasets DemoCepii.to_numeric DemoMerge.as_Int64 Demo.to_csv
      DemoMerge.wb DemoMerge.trade_no_year DemoCepii.normalized
    = Raise KeyError.
Proof.
  assert (H1 : df_empty DemoMerge.trade_no_year = false) by reflexivity.
  assert (H2 : "period" ∉ columns DemoMerge.trade_no_year)
    by (apply (bool_decide_unpack _); vm_compute; exact I).
  assert (H3 : "year" ∉ columns DemoMerge.trade_no_year)
    by (apply (bool_decide_unpack _); vm_compute; exact I).
  split; [exact H1|]. split; [exact H2|]. split; [exact H3|].
  exact (merge_requires_year_column DemoCepii.to_numeric DemoMerge.as_Int64
           Demo.to_csv DemoMerge.wb DemoMerge.trade_no_year DemoCepii.normalized
           H1 H2 H3).
Defined.

(** *** Strings and suffixes *)

Lemma chars_app (a b : string) :
  String.list_ascii_of_string (a +:+ b)
  = String.list_ascii_of_string a ++ String.list_ascii_of_string b.
Proof.
  induction a as [|x a IH]; [done|].
  change (x :: String.list_ascii_of_string (a +:+ b)
          = x :: (String.list_ascii_of_string a ++ String.list_ascii_of_string b)).
  by rewrite IH.
Qed.

Lemma chars_inj (a b : string) :
  String.list_ascii_of_string a = String.list_ascii_of_string b → a = b.
Proof.
  intros H. rewrite <- (String.string_of_list_ascii_of_string a),
    <- (String.string_of_list_ascii_of_string b). by rewrite H.
Qed.

Lemma str_app_inj_l (a b s : string) : a +:+ s = b +:+ s → a = b.
Proof.
  intros H. apply chars_inj.
  apply (f_equal String.list_ascii_of_string) in H.
  rewrite !chars_app in H. by apply app_inv_tail in H.
Qed.

(** A string that ends in [s] has the characters of [s] as a suffix. *)
Lemma str_app_suffix (a s t : string) :
  a +:+ s = t →
  String.list_ascii_of_string s `suffix_of` String.list_ascii_of_string t.
Proof.
  intros <-. rewrite chars_app. by eexists.
Qed.

(** [t] does not end in [s]; decided by computation. *)
Definition not_ending (s t : string) : Prop :=
  ¬ (String.list_ascii_of_string s `suffix_of` String.list_ascii_of_string t).

Lemma not_ending_app (a s t : string) : not_ending s t → a +:+ s ≠ t.
Proof. intros H E. by apply H, (str_app_suffix a). Qed.

Ltac not_ending := apply (bool_decide_unpack _); vm_compute; exact I.

(** *** Labels of the indicator sides *)

Lemma wb_label_country suffix country l :
  country ≠ "year" → not_ending suffix country →
  wb_label suffix country l = country ↔ l = "countryISO".
Proof.
  intros Hy Hend. unfold wb_label.
  destruct (decide (l +:+ suffix = "countryISO" +:+ suffix)) as [E|E].
  - apply str_app_inj_l in E. done.
  - assert (l ≠ "countryISO") by (intros ->; done).
    destruct (decide (l +:+ suffix = "Year" +:+ suffix)).
    + split; [congruence|done].
    + split; [|done]. intros E'. by apply not_ending_app in E'.
Qed.

Lemma wb_label_year suffix country l :
  country ≠ "year" → not_ending suffix "year" →
  wb_label suffix country l = "year" ↔ l = "Year".
Proof.
  intros Hy Hend. unfold wb_label.
  destruct (decide (l +:+ suffix = "countryISO" +:+ suffix)) as [E|E].
  - apply str_app_inj_l in E. subst l. split; [congruence|done].
  - destruct (decide (l +:+ suffix = "Year" +:+ suffix)) as [E'|E'].
    + apply str_app_inj_l in E'. done.
    + assert (l ≠ "Year") by (intros ->; done).
      split; [|done]. intros E''. by apply not_ending_app in E''.
Qed.

Lemma cell_at_rename {A} (f : string → string) (c c' : string) cols
    (r : list (option A)) :
  (∀ l, f l = c' ↔ l = c) →
  cell_at (f <$> cols) r c' = cell_at cols r c.
Proof.
  intros Hf. revert r. induction cols as [|l cols IH]; intros [|v r];
    cbn [fmap list_fmap cell_at]; try done.
  destruct (decide (f l = c')) as [E|E].
  - apply Hf in E. by rewrite decide_True.
  - rewrite decide_False; [apply IH|]. intros E'. by apply E, Hf.
Qed.

(** *** Facts about [traverse] and the left join *)

Lemma traverse_Ok {A B} (f : A → result B) (l : list A) (ys : list B) :
  traverse f l = Ok ys → Forall2 (λ x y, f x = Ok y) l ys.
Proof.
  revert ys. induction l as [|x l IH]; intros ys; cbn [traverse].
  - intros [= <-]. constructor.
  - destruct (f x) as [y|e] eqn:Ex; cbn [mbind result_bind]; [|done].
    destruct (traverse f l) as [ys'|e]; cbn [mbind result_bind]; [|done].
    intros [= <-]. constructor; [done|]. by apply IH.
Qed.

Section MergeFacts.

Context {num : Type} `{!EqDecision num}.
Implicit Types left right out : DataFrame num.

(** No two rows of [right] carry the same key. *)
Definition key_unique (keys : list (string * string)) right : Prop :=
  ∀ i j r1 r2,
    rows right !! i = Some r1 → rows right !! j = Some r2 →
    right_key keys right r1 = right_key keys right r2 → i = j.

(** What a left row is extended by. *)
Definition extension (keys : list (string * string)) left right
    (l : list (cell num)) : list (cell num) :=
  match matches keys left right l with
  | [] => replicate (length (kept_right_labels keys right)) None
  | r :: _ => cells_without (right_drop keys) (columns right) r
  end.

Lemma merge_left_inv keys left right out :
  merge_left keys left right = Ok out →
  out = Frame (merged_labels keys left right)
              (mjoin (joined_rows keys left right <$> rows left))
  ∧ (∀ k, k ∈ keys →
       require_unique ValueError k.1 (columns left) = Ok ()
       ∧ require_unique ValueError k.2 (columns right) = Ok ()).
Proof.
  unfold merge_left.
  destruct (traverse (λ k, require_unique ValueError k.1 (columns left)) keys)
    as [u1|] eqn:E1; [|by intros [=]].
  destruct (traverse (λ k, require_unique ValueError k.2 (columns right)) keys)
    as [u2|] eqn:E2; [|by intros [=]].
  cbn [mbind result_bind].
  destruct (_ || _); [by intros [=]|]. intros [= <-]. split; [done|].
  intros k Hk. apply traverse_Ok in E1, E2.
  apply list_elem_of_lookup in Hk as [i Hi].
  destruct (Forall2_lookup_l _ _ _ _ _ E1 Hi) as ([] & _ & H1).
  destruct (Forall2_lookup_l _ _ _ _ _ E2 Hi) as ([] & _ & H2).
  done.
Qed.

Lemma matches_at_most_one keys left right l :
  key_unique keys right →
  matches keys left right l = []
  ∨ ∃ r, matches keys left right l = [r].
Proof.
  unfold matches, key_unique. generalize (left_key keys left l). intros x.
  generalize (rows right). intros rs Hu.
  induction rs as [|r rs IH]; [by left|].
  destruct (decide (right_key keys right r = x)) as [E|E].
  - right. exists r. rewrite filter_cons_True by done. f_equal.
    apply filter_none. intros r' Hr' E'.
    apply list_elem_of_lookup in Hr' as [j Hj].
    assert (0 = S j) by (apply (Hu 0 (S j) r r'); [done|done|congruence]).
    done.
  - rewrite filter_cons_False by done. apply IH.
    intros i j r1 r2 Hi Hj E'. by assert (S i = S j) as [= ->] by eauto.
Qed.

Lemma joined_rows_unique keys left right l :
  key_unique keys right →
  joined_rows keys left right l = [l ++ extension keys left right l].
Proof.
  intros Hu. unfold joined_rows, extension.
  by destruct (matches_at_most_one keys left right l Hu) as [->|[r ->]].
Qed.

Lemma merge_left_unique keys left right out :
  key_unique keys right →
  merge_left keys left right = Ok out →
  columns out = merged_labels keys left right
  ∧ rows out = (λ l, l ++ extension keys left right l) <$> rows left.
Proof.
  intros Hu [-> _]%merge_left_inv. split; [done|]. cbn [rows].
  induction (rows left) as [|l ls IH]; [done|].
  cbn [fmap list_fmap mjoin list_join]. rewrite joined_rows_unique by done.
  cbn [app]. f_equal. apply IH.
Qed.

End MergeFacts.

Section MergeStages.

Context {num : Type} `{!EqDecision num}.
Variable to_numeric : string → option num.
Variable as_Int64 : num → option num.
Variable to_csv : csv_target → DataFrame num → result unit.
Implicit Types df_wb df_trade df_cepii merged out : DataFrame num.

(** The labels of the trade table once [period] is called [year]. *)
Definition year_labels df_trade : list string :=
  if decide ("period" ∈ columns df_trade)
  then (λ l, if decide (l = "period") then "year" else l) <$> columns df_trade
  else columns df_trade.

Lemma normalize_year_inv df_trade trade1 :
  normalize_year to_numeric as_Int64 df_trade = Ok trade1 →
  columns trade1 = year_labels df_trade
  ∧ label_count "year" (year_labels df_trade) = 1
  ∧ Forall2
      (λ r r1, ∃ y,
         year_cell to_numeric as_Int64 (cell_at (year_labels df_trade) r "year")
         = Ok y
         ∧ r1 = zip_with (λ l v, if decide (l = "year") then y else v)
                  (year_labels df_trade) r)
      (rows df_trade) (rows trade1).
Proof.
  unfold normalize_year. fold (year_labels df_trade).
  unfold require_unique.
  destruct (label_count "year" (year_labels df_trade)) as [|[|n]] eqn:Ec;
    [by intros [=]| |by intros [=]].
  cbn [mbind result_bind].
  destruct (traverse _ (rows df_trade)) as [rows'|] eqn:Et; [|by intros [=]].
  cbn [mbind result_bind]. intros [= <-]. cbn [columns rows].
  split_and!; [done|done|].
  apply traverse_Ok in Et. eapply Forall2_impl; [exact Et|].
  intros r r1 Hr. cbn beta in Hr.
  destruct (year_cell _ _ _) as [y|]; [|by inversion Hr].
  cbn [mbind result_bind] in Hr. injection Hr as <-. by exists y.
Qed.

(** The indicator table has at most one row per (country, year). *)
Definition wb_unique df_wb : Prop :=
  ∀ i j r1 r2,
    rows df_wb !! i = Some r1 → rows df_wb !! j = Some r2 →
    cell_at (columns df_wb) r1 "countryISO"
    = cell_at (columns df_wb) r2 "countryISO" →
    cell_at (columns df_wb) r1 "Year" = cell_at (columns df_wb) r2 "Year" →
    i = j.

(** The pairwise table has at most one row per symmetric key. *)
Definition cepii_unique df_cepii : Prop :=
  ∀ i j r1 r2,
    rows df_cepii !! i = Some r1 → rows df_cepii !! j = Some r2 →
    cell_at (columns df_cepii) r1 "cepii_key"
    = cell_at (columns df_cepii) r2 "cepii_key" →
    i = j.

Lemma right_key_wb_side suffix country df_wb (w : list (cell num)) :
  country ≠ "year" → not_ending suffix country → not_ending suffix "year" →
  right_key [(country, country); ("year", "year")] (wb_side suffix country df_wb) w
  = [cell_at (columns df_wb) w "countryISO"; cell_at (columns df_wb) w "Year"].
Proof.
  intros Hy H1 H2. unfold right_key, wb_side. cbn [fmap list_fmap columns fst snd].
  rewrite (cell_at_rename (wb_label suffix country) "countryISO" country)
    by (intros l; by apply wb_label_country).
  rewrite (cell_at_rename (wb_label suffix country) "Year" "year")
    by (intros l; by apply wb_label_year).
  done.
Qed.

Lemma key_unique_wb_side suffix country df_wb :
  country ≠ "year" → not_ending suffix country → not_ending suffix "year" →
  wb_unique df_wb →
  key_unique [(country, country); ("year", "year")] (wb_side suffix country df_wb).
Proof.
  intros Hy H1 H2 Hu i j r1 r2 Hi Hj.
  rewrite !right_key_wb_side by done. intros [= E1 E2].
  by apply (Hu i j r1 r2).
Qed.

Lemma key_unique_cepii df_cepii :
  cepii_unique df_cepii → key_unique [("cepii_merge_key", "cepii_key")] df_cepii.
Proof.
  intros Hu i j r1 r2 Hi Hj. unfold right_key. cbn [fmap list_fmap snd].
  intros [= E]. by apply (Hu i j r1 r2).
Qed.

End MergeStages.

(** *** Rows laid side by side *)

Section SideBySide.

Context {num : Type}.
Implicit Types l e r : list (cell num).

Lemma cell_at_app_l (A B : list string) l e c :
  length l = length A → c ∈ A →
  cell_at (A ++ B) (l ++ e) c = cell_at A l c.
Proof.
  revert l. induction A as [|a A IH]; intros [|v l] Hlen Hc; simpl in Hlen;
    try done.
  - by apply elem_of_nil in Hc.
  - cbn [app cell_at]. destruct (decide (a = c)); [done|].
    apply IH; [lia|]. apply elem_of_cons in Hc as [?|?]; [congruence|done].
Qed.

Lemma cells_without_app (D A B : list string) l e :
  length l = length A →
  cells_without D (A ++ B) (l ++ e)
  = cells_without D A l ++ cells_without D B e.
Proof.
  intros Hlen. unfold cells_without.
  rewrite zip_with_app by done. by rewrite filter_app, fmap_app.
Qed.

Lemma cells_without_id (D A : list string) l :
  length l = length A → (∀ c, c ∈ A → c ∉ D) → cells_without D A l = l.
Proof.
  unfold cells_without. revert l.
  induction A as [|a A IH]; intros [|v l] Hlen HA; simpl in Hlen; try done.
  cbn [zip zip_with]. rewrite filter_cons_True by (apply HA; by left).
  cbn [fmap list_fmap snd]. f_equal. apply IH; [lia|].
  intros c Hc. apply HA. by right.
Qed.

Lemma cells_without_all (D A : list string) l :
  (∀ c, c ∈ A → c ∈ D) → cells_without D A l = [].
Proof.
  unfold cells_without. revert l.
  induction A as [|a A IH]; intros [|v l] HA; try done.
  cbn [zip zip_with]. rewrite filter_cons_False.
  - apply IH. intros c Hc. apply HA. by right.
  - cbn [fst]. intros Hn. apply Hn, HA. by left.
Qed.

Lemma cells_without_null (D A : list string) e :
  Forall (λ v, v = None) e → Forall (λ v, v = None) (cells_without D A e).
Proof.
  unfold cells_without. revert e.
  induction A as [|a A IH]; intros [|v e] He; try by constructor.
  apply Forall_cons in He as [-> He]. cbn [zip zip_with].
  destruct (decide (a ∉ D)).
  - rewrite filter_cons_True by done. constructor; [done|by apply IH].
  - rewrite filter_cons_False by done. by apply IH.
Qed.

Lemma length_cells_without (D A : list string) r :
  length r = length A →
  length (cells_without D A r) = length (filter (λ c, c ∉ D) A).
Proof.
  unfold cells_without. revert r.
  induction A as [|a A IH]; intros [|v r] Hlen; simpl in Hlen; try done.
  cbn [zip zip_with]. destruct (decide (a ∉ D)).
  - rewrite !filter_cons_True by done. cbn [fmap list_fmap length].
    f_equal. apply IH. lia.
  - rewrite !filter_cons_False by done. apply IH. lia.
Qed.

End SideBySide.

(** *** The left join, row by row *)

Section JoinRows.

Context {num : Type} `{!EqDecision num}.
Implicit Types left right : DataFrame num.

Lemma elem_of_merged_labels keys left right c :
  c ∈ merged_labels keys left right →
  c ∈ columns left ∨ c ∈ kept_right_labels keys right
  ∨ (∃ l, c = l +:+ "_x") ∨ (∃ l, c = l +:+ "_y").
Proof.
  unfold merged_labels. rewrite elem_of_app, !list_elem_of_fmap.
  intros [(l & -> & Hl)|(l & -> & Hl)].
  - destruct (decide _); [right; right; left; by exists l|by left].
  - destruct (decide _); [right; right; right; by exists l|right; by left].
Qed.

Lemma length_merged_labels keys left right :
  length (merged_labels keys left right)
  = length (columns left) + length (kept_right_labels keys right).
Proof. unfold merged_labels. by rewrite length_app, !length_fmap. Qed.

(** A label of the left table that is not renamed keeps its cell. *)
Lemma cell_at_merged_left keys left right (l e : list (cell num)) c :
  length l = length (columns left) →
  c ∈ columns left → c ∉ kept_right_labels keys right →
  not_ending "_x" c →
  cell_at (merged_labels keys left right) (l ++ e) c
  = cell_at (columns left) l c.
Proof.
  intros Hlen Hc Hk Hx. unfold merged_labels.
  set (f := λ l0, if decide (l0 ∈ kept_right_labels keys right)
                  then l0 +:+ "_x" else l0).
  assert (Hf : ∀ l0, f l0 = c ↔ l0 = c).
  { intros l0. unfold f. destruct (decide _) as [Hin|Hin].
    - split; [intros E; by apply not_ending_app in E|intros ->; done].
    - done. }
  rewrite cell_at_app_l.
  - by apply cell_at_rename.
  - by rewrite length_fmap.
  - apply list_elem_of_fmap. exists c. split; [|done]. symmetry. by apply Hf.
Qed.

(** A unique label of the merged table that is no label of the right
    side and carries no suffix is a label of the left table. *)
Lemma merged_label_from_left keys left right c :
  c ∈ merged_labels keys left right →
  c ∉ kept_right_labels keys right →
  not_ending "_x" c → not_ending "_y" c →
  c ∈ columns left.
Proof.
  intros Hc Hk Hx Hy.
  apply elem_of_merged_labels in Hc as [?|[?|[[l E]|[l E]]]]; try done.
  - symmetry in E. by apply not_ending_app in E.
  - symmetry in E. by apply not_ending_app in E.
Qed.

Lemma length_extension keys left right (l : list (cell num)) :
  aligned right →
  length (extension keys left right l) = length (kept_right_labels keys right).
Proof.
  intros Hal. unfold extension.
  destruct (matches keys left right l) as [|r rs] eqn:E.
  - by rewrite length_replicate.
  - assert (Hr : r ∈ rows right).
    { assert (Hin : r ∈ matches keys left right l) by (rewrite E; by left).
      unfold matches in Hin. apply list_elem_of_filter in Hin. tauto. }
    unfold aligned in Hal. rewrite Forall_forall in Hal.
    by rewrite length_cells_without by (by apply Hal).
Qed.

Lemma extension_unmatched keys left right (l : list (cell num)) :
  (∀ r, r ∈ rows right → right_key keys right r ≠ left_key keys left l) →
  Forall (λ v, v = None) (extension keys left right l).
Proof.
  intros Hno. unfold extension.
  destruct (matches keys left right l) as [|r rs] eqn:E.
  - apply Forall_forall. intros v Hv. by apply elem_of_replicate in Hv as [? _].
  - assert (Hin : r ∈ matches keys left right l) by (rewrite E; by left).
    unfold matches in Hin. apply list_elem_of_filter in Hin as [Hk Hr].
    by destruct (Hno r Hr).
Qed.

Lemma require_unique_elem e label cols :
  require_unique e label cols = Ok () → label ∈ cols.
Proof.
  unfold require_unique. destruct (decide (label ∈ cols)) as [|Hn]; [done|].
  by rewrite label_count_notin.
Qed.

Lemma kept_right_labels_wb_side suffix country (df_wb : DataFrame num) c :
  c ∈ kept_right_labels [(country, country); ("year", "year")]
        (wb_side suffix country df_wb) →
  ∃ l, c = l +:+ suffix.
Proof.
  unfold kept_right_labels, right_drop.
  rewrite !filter_cons_True by done. rewrite filter_nil.
  cbn [fmap list_fmap snd wb_side columns].
  rewrite list_elem_of_filter, list_elem_of_fmap.
  intros [Hdrop (l & -> & _)]. rewrite !not_elem_of_cons in Hdrop.
  destruct Hdrop as (Hc & Hy & _). unfold wb_label in *.
  destruct (decide _); [done|]. destruct (decide _); [done|]. by exists l.
Qed.

End JoinRows.

(** *** The two joins with the indicator table *)

Section IndicatorJoins.

Context {num : Type} `{!EqDecision num}.
Implicit Types df_wb trade merged : DataFrame num.

(** No row of the indicator table is for this country and year. *)
Definition no_indicator_row df_wb (country year : cell num) : Prop :=
  ∀ w, w ∈ rows df_wb →
       ¬ (cell_at (columns df_wb) w "countryISO" = country
          ∧ cell_at (columns df_wb) w "Year" = year).

Lemma aligned_wb_side suffix country df_wb :
  aligned df_wb → aligned (wb_side suffix country df_wb).
Proof. unfold aligned, wb_side. cbn [columns rows]. by rewrite length_fmap. Qed.

Lemma wb_side_unmatched suffix country df_wb trade (l : list (cell num)) :
  country ≠ "year" → not_ending suffix country → not_ending suffix "year" →
  no_indicator_row df_wb (cell_at (columns trade) l country)
    (cell_at (columns trade) l "year") →
  Forall (λ v, v = None)
    (extension [(country, country); ("year", "year")] trade
       (wb_side suffix country df_wb) l).
Proof.
  intros Hy H1 H2 Hno. apply extension_unmatched. intros w Hw.
  rewrite right_key_wb_side by done. unfold left_key.
  cbn [fmap list_fmap fst]. intros [= E1 E2]. by apply (Hno w Hw).
Qed.

Lemma merge_world_bank_rows df_wb trade merged :
  wb_unique df_wb → aligned df_wb → aligned trade →
  merge_world_bank df_wb trade = Ok merged →
  "reporterISO" ∈ columns trade ∧ "partnerISO" ∈ columns trade
  ∧ (∀ c, c ∈ columns merged →
       c ∈ columns trade
       ∨ (∃ l, c = l +:+ "_x") ∨ (∃ l, c = l +:+ "_y")
       ∨ (∃ l, c = l +:+ "_reporter") ∨ (∃ l, c = l +:+ "_partner"))
  ∧ Forall2
      (λ l rm, ∃ rep par,
         rm = l ++ rep ++ par
         ∧ length rm = length (columns merged)
         ∧ cell_at (columns merged) rm "reporterISO"
           = cell_at (columns trade) l "reporterISO"
         ∧ cell_at (columns merged) rm "partnerISO"
           = cell_at (columns trade) l "partnerISO"
         ∧ (no_indicator_row df_wb (cell_at (columns trade) l "reporterISO")
              (cell_at (columns trade) l "year") →
            Forall (λ v, v = None) rep)
         ∧ (no_indicator_row df_wb (cell_at (columns trade) l "partnerISO")
              (cell_at (columns trade) l "year") →
            Forall (λ v, v = None) par))
      (rows trade) (rows merged).
Proof.
  intros Hu Hawb Hat. unfold merge_world_bank.
  set (keysR := [("reporterISO", "reporterISO"); ("year", "year")]).
  set (keysP := [("partnerISO", "partnerISO"); ("year", "year")]).
  set (wb_rep := wb_side "_reporter" "reporterISO" df_wb).
  set (wb_par := wb_side "_partner" "partnerISO" df_wb).
  destruct (merge_left keysR trade wb_rep) as [m1|] eqn:E1; [|by intros [=]].
  cbn [mbind result_bind]. intros E2.
  assert (HuR : key_unique keysR wb_rep).
  { apply key_unique_wb_side; [done|not_ending|not_ending|done]. }
  assert (HuP : key_unique keysP wb_par).
  { apply key_unique_wb_side; [done|not_ending|not_ending|done]. }
  destruct (merge_left_unique _ _ _ _ HuR E1) as [Hc1 Hr1].
  destruct (merge_left_unique _ _ _ _ HuP E2) as [Hc2 Hr2].
  destruct (merge_left_inv _ _ _ _ E1) as [_ Hq1].
  destruct (merge_left_inv _ _ _ _ E2) as [_ Hq2].
  assert (HrepT : "reporterISO" ∈ columns trade).
  { destruct (Hq1 ("reporterISO", "reporterISO")) as [H _]; [by left|].
    by apply require_unique_elem in H. }
  assert (HyearT : "year" ∈ columns trade).
  { destruct (Hq1 ("year", "year")) as [H _]; [by right; left|].
    by apply require_unique_elem in H. }
  assert (HkeptR : ∀ c, c ∈ kept_right_labels keysR wb_rep →
                        ∃ l, c = l +:+ "_reporter").
  { intros c. apply kept_right_labels_wb_side. }
  assert (HkeptP : ∀ c, c ∈ kept_right_labels keysP wb_par →
                        ∃ l, c = l +:+ "_partner").
  { intros c. apply kept_right_labels_wb_side. }
  assert (HnR : ∀ c, not_ending "_reporter" c →
                     c ∉ kept_right_labels keysR wb_rep).
  { intros c Hc Hin. destruct (HkeptR c Hin) as [l ->].
    by eapply not_ending_app. }
  assert (HnP : ∀ c, not_ending "_partner" c →
                     c ∉ kept_right_labels keysP wb_par).
  { intros c Hc Hin. destruct (HkeptP c Hin) as [l ->].
    by eapply not_ending_app. }
  assert (HparM : "partnerISO" ∈ columns m1).
  { destruct (Hq2 ("partnerISO", "partnerISO")) as [H _]; [by left|].
    by apply require_unique_elem in H. }
  assert (HparT : "partnerISO" ∈ columns trade).
  { rewrite Hc1 in HparM.
    apply (merged_label_from_left keysR trade wb_rep); [done| | |].
    - apply HnR. not_ending.
    - not_ending.
    - not_ending. }
  split; [done|]. split; [done|]. split.
  { intros c Hc. rewrite Hc2 in Hc.
    apply elem_of_merged_labels in Hc as [Hc|[Hc|[Hc|Hc]]].
    - rewrite Hc1 in Hc.
      apply elem_of_merged_labels in Hc as [Hc|[Hc|[Hc|Hc]]]; auto.
      right. right. right. left. by apply HkeptR.
    - right. right. right. right. by apply HkeptP.
    - auto.
    - auto. }
  rewrite Hr2, Hr1. rewrite <- list_fmap_compose.
  apply Forall2_fmap_r, Forall_Forall2_diag, Forall_forall.
  intros l Hl. cbn [compose].
  assert (Hlen : length l = length (columns trade)).
  { unfold aligned in Hat. rewrite Forall_forall in Hat. by apply Hat. }
  set (e1 := extension keysR trade wb_rep l).
  set (e2 := extension keysP m1 wb_par (l ++ e1)).
  assert (Hlen1 : length (l ++ e1) = length (columns m1)).
  { rewrite Hc1, length_merged_labels, length_app. unfold e1.
    rewrite length_extension by (by apply aligned_wb_side). lia. }
  assert (Hcell1 : ∀ c, c ∈ columns trade → not_ending "_reporter" c →
                        not_ending "_x" c →
                        cell_at (columns m1) (l ++ e1) c
                        = cell_at (columns trade) l c).
  { intros c Hc Hr Hx. rewrite Hc1.
    apply cell_at_merged_left; [done|done|by apply HnR|done]. }
  assert (Hin1 : ∀ c, c ∈ columns trade → not_ending "_reporter" c →
                      c ∈ columns m1).
  { intros c Hc Hr. rewrite Hc1. unfold merged_labels. apply elem_of_app. left.
    apply list_elem_of_fmap. exists c. split; [|done].
    rewrite decide_False; [done|]. by apply HnR. }
  assert (Hcell2 : ∀ c, c ∈ columns trade → not_ending "_reporter" c →
                        not_ending "_partner" c → not_ending "_x" c →
                        cell_at (columns merged) ((l ++ e1) ++ e2) c
                        = cell_at (columns trade) l c).
  { intros c Hc Hr Hp Hx. rewrite Hc2.
    rewrite cell_at_merged_left; [by apply Hcell1|done| |by apply HnP|done].
    by apply Hin1. }
  exists e1, e2. split_and!.
  - by rewrite app_assoc.
  - rewrite Hc2, length_merged_labels, length_app, Hlen1. unfold e2.
    rewrite length_extension by (by apply aligned_wb_side). lia.
  - apply Hcell2; [done|not_ending..].
  - apply Hcell2; [done|not_ending..].
  - intros Hno. by apply wb_side_unmatched; [done|not_ending|not_ending|].
  - intros Hno. apply wb_side_unmatched; [done|not_ending|not_ending|].
    rewrite (Hcell1 "partnerISO") by (done || not_ending).
    rewrite (Hcell1 "year") by (done || not_ending). done.
Qed.

End IndicatorJoins.

(** *** The join with the pairwise table *)

Section PairJoin.

Context {num : Type} `{!EqDecision num}.
Implicit Types df_cepii merged out : DataFrame num.

(** No row of the pairwise table has this key. *)
Definition no_pair_row df_cepii (key : cell num) : Prop :=
  ∀ w, w ∈ rows df_cepii → cell_at (columns df_cepii) w "cepii_key" ≠ key.

(** The key step 3.2 gives a row of the merged table. *)
Definition trade_pair_key (cols : list string) (r : list (cell num)) : cell num :=
  pair_key_cell (cell_at cols r "reporterISO") (cell_at cols r "partnerISO").

Lemma merge_cepii_rows merged df_cepii out :
  cepii_unique df_cepii →
  merge_cepii merged df_cepii = Ok out →
  length (rows out) = length (rows merged)
  ∧ (aligned merged →
     "cepii_merge_key" ∉ columns merged → "cepii_key" ∉ columns merged →
     "cepii_merge_key" ∉ columns df_cepii →
     Forall2
       (λ rm ro, ∃ cep,
          ro = rm ++ cep
          ∧ (no_pair_row df_cepii (trade_pair_key (columns merged) rm) →
             Forall (λ v, v = None) cep))
       (rows merged) (rows out)).
Proof.
  intros Hu. unfold merge_cepii.
  destruct (decide _) as [Happ|Hskip].
  2:{ intros [= <-]. split; [done|]. intros _ _ _ _.
      apply Forall_Forall2_diag, Forall_forall. intros rm _.
      exists []. split; [by rewrite app_nil_r|]. by constructor. }
  destruct (require_unique _ "reporterISO" _); [|by intros [=]].
  destruct (require_unique _ "partnerISO" _); [|by intros [=]].
  cbn [mbind result_bind].
  destruct (traverse _ (rows merged)); [|by intros [=]].
  cbn [mbind result_bind].
  set (f := λ r, pair_key_cell (cell_at (columns merged) r "reporterISO")
                               (cell_at (columns merged) r "partnerISO")).
  set (with_key := assign "cepii_merge_key" f merged).
  destruct (merge_left [("cepii_merge_key", "cepii_key")] with_key df_cepii) as [joined|] eqn:E3;
    [|by intros [=]].
  cbn [mbind result_bind]. intros [= <-].
  destruct (merge_left_unique _ _ _ _ (key_unique_cepii _ Hu) E3) as [Hc3 Hr3].
  assert (Hrk : rows with_key
                = assign_row "cepii_merge_key" f (columns merged) <$> rows merged)
    by reflexivity.
  unfold drop_columns. cbn [columns rows]. rewrite Hr3, Hrk.
  rewrite <- !list_fmap_compose. split; [by rewrite length_fmap|].
  intros Hal Hf1 Hf2 Hf3.
  apply Forall2_fmap_r, Forall_Forall2_diag, Forall_forall.
  intros rm Hrm. cbn [compose].
  assert (Hlen : length rm = length (columns merged)).
  { unfold aligned in Hal. rewrite Forall_forall in Hal. by apply Hal. }
  assert (Har : assign_row "cepii_merge_key" f (columns merged) rm = rm ++ [f rm]).
  { unfold assign_row. by rewrite decide_False. }
  assert (Hwk : columns with_key = columns merged ++ ["cepii_merge_key"]).
  { unfold with_key, assign, assign_labels. cbn [columns]. by rewrite decide_False. }
  rewrite Har, Hc3. unfold merged_labels. rewrite Hwk, fmap_app.
  set (kept := kept_right_labels [("cepii_merge_key", "cepii_key")] df_cepii).
  assert (Hkept : ∀ c, c ∈ kept → c ∈ columns df_cepii).
  { intros c Hc. unfold kept, kept_right_labels in Hc.
    apply list_elem_of_filter in Hc. tauto. }
  set (f3 := λ l, if decide (l ∈ kept) then l +:+ "_x" else l).
  set (e3 := extension [("cepii_merge_key", "cepii_key")] with_key df_cepii (rm ++ [f rm])).
  rewrite cells_without_app.
  2:{ rewrite !length_app, !length_fmap. cbn [length]. lia. }
  rewrite cells_without_app by (by rewrite length_fmap).
  rewrite cells_without_id.
  2:{ by rewrite length_fmap. }
  2:{ intros c (l & -> & Hl)%list_elem_of_fmap. unfold f3. cbv beta.
      rewrite !not_elem_of_cons. destruct (decide (l ∈ kept)).
      - split_and!; [apply not_ending_app; not_ending..|apply not_elem_of_nil].
      - split_and!; [by intros ->|by intros ->|apply not_elem_of_nil]. }
  rewrite cells_without_all.
  2:{ intros c ->%list_elem_of_singleton. unfold f3. cbv beta.
      rewrite decide_False by (intros Hk; by apply Hf3, Hkept). by left. }
  rewrite app_nil_r. eexists. split; [reflexivity|].
  intros Hno. apply cells_without_null, extension_unmatched.
  intros w Hw. unfold right_key, left_key. cbn [fmap list_fmap fst snd].
  rewrite Hwk, cell_at_append by done. rewrite decide_True by done.
  intros [= E]. by apply (Hno w Hw).
Qed.

End PairJoin.

(** *** The stages of [merge_datasets] together *)

Lemma Forall2_compose {A B C} (P : A → B → Prop) (Q : B → C → Prop)
    (l : list A) (k : list B) (m : list C) :
  Forall2 P l k → Forall2 Q k m → Forall2 (λ x z, ∃ y, P x y ∧ Q y z) l m.
Proof.
  intros HP. revert m. induction HP as [|x y l k Hxy HP IH]; intros m HQ.
  - inversion HQ. constructor.
  - inversion HQ as [|? z ? m' Hyz HQ']; subst. constructor; [eauto|].
    by apply IH.
Qed.

Lemma Forall2_right {A B} (P : A → B → Prop) (Q : B → Prop)
    (l : list A) (k : list B) :
  Forall2 P l k → (∀ x y, P x y → Q y) → Forall Q k.
Proof. induction 1; intros HPQ; constructor; eauto. Qed.

Section MergeWhole.

Context {num : Type} `{!EqDecision num}.
Variable to_numeric : string → option num.
Variable as_Int64 : num → option num.
Variable to_csv : csv_target → DataFrame num → result unit.
Implicit Types df_wb df_trade df_cepii merged out : DataFrame num.

Lemma elem_of_year_labels df_trade c :
  c ∈ year_labels df_trade → c ∈ columns df_trade ∨ c = "year".
Proof.
  unfold year_labels. destruct (decide _); [|by left].
  intros (l & -> & Hl)%list_elem_of_fmap.
  destruct (decide (l = "period")); [by right|by left].
Qed.

Lemma cell_at_year_labels df_trade (r : list (cell num)) c :
  c ≠ "year" → c ≠ "period" →
  cell_at (year_labels df_trade) r c = cell_at (columns df_trade) r c.
Proof.
  intros Hy Hp. unfold year_labels. destruct (decide _); [|done].
  apply cell_at_rename. intros l. destruct (decide (l = "period")) as [->|].
  - split; intros; congruence.
  - done.
Qed.

Lemma length_year_labels df_trade :
  length (year_labels df_trade) = length (columns df_trade).
Proof. unfold year_labels. destruct (decide _); [|done]. by rewrite length_fmap. Qed.

Lemma merge_world_bank_length df_wb df_trade merged :
  wb_unique df_wb →
  merge_world_bank df_wb df_trade = Ok merged →
  length (rows merged) = length (rows df_trade).
Proof.
  intros Hu. unfold merge_world_bank.
  destruct (merge_left _ df_trade _) as [m1|] eqn:E1; [|by intros [=]].
  cbn [mbind result_bind]. intros E2.
  apply merge_left_unique in E1 as [_ Hr1].
  2:{ apply key_unique_wb_side; [done|not_ending|not_ending|done]. }
  apply merge_left_unique in E2 as [_ Hr2].
  2:{ apply key_unique_wb_side; [done|not_ending|not_ending|done]. }
  by rewrite Hr2, Hr1, !length_fmap.
Qed.

Lemma merge_datasets_inv df_wb df_trade df_cepii out :
  df_empty df_trade = false →
  merge_datasets to_numeric as_Int64 to_csv df_wb df_trade df_cepii = Ok out →
  ∃ year_trade merged,
    normalize_year to_numeric as_Int64 df_trade = Ok year_trade
    ∧ merge_world_bank df_wb year_trade = Ok merged
    ∧ merge_cepii merged df_cepii = Ok out.
Proof.
  intros Hne. unfold merge_datasets. rewrite Hne.
  destruct (normalize_year _ _ _) as [t|] eqn:E1; [|by intros [=]].
  cbn [mbind result_bind].
  destruct (merge_world_bank _ _) as [m|] eqn:E2; [|by intros [=]].
  cbn [mbind result_bind].
  destruct (merge_cepii _ _) as [o|] eqn:E3; [|by intros [=]].
  cbn [mbind result_bind].
  destruct (to_csv _ _) as [[]|]; [|by intros [=]].
  cbn [mbind result_bind]. intros [= <-]. by exists t, m.
Qed.

End MergeWhole.

Lemma Forall2_with_left {A B} (P : A → B → Prop) (Q : A → Prop)
    (l : list A) (k : list B) :
  Forall2 P l k → Forall Q l → Forall2 (λ x y, P x y ∧ Q x) l k.
Proof.
  induction 1 as [|x y l k Hxy HP IH]; intros HQ; [constructor|].
  apply Forall_cons in HQ as [Hx HQ]. constructor; [done|by apply IH].
Qed.

(** *** The columns the joins add *)

(** The label pandas gives a column of a join: the label itself, with
    [_x] or [_y] appended where both sides have it. *)
Inductive suffixed (l : string) : string → Prop :=
| suffixed_same : suffixed l l
| suffixed_x l' : suffixed l l' → suffixed l (l' +:+ "_x")
| suffixed_y l' : suffixed l l' → suffixed l (l' +:+ "_y").

Lemma suffixed_trans a b c : suffixed a b → suffixed b c → suffixed a c.
Proof.
  intros Hab Hbc. induction Hbc as [|c _ IH|c _ IH]; [done| |].
  - by apply suffixed_x.
  - by apply suffixed_y.
Qed.

Lemma suffixed_fmap (f : string → string) (cols : list string) :
  (∀ l, suffixed l (f l)) → Forall2 suffixed cols (f <$> cols).
Proof.
  intros Hf. apply Forall2_fmap_r, Forall_Forall2_diag, Forall_forall.
  intros l _. apply Hf.
Qed.

Lemma suffixed_plain l c :
  suffixed l c → not_ending "_x" c → not_ending "_y" c → l = c.
Proof.
  intros [|l' _|l' _] Hx Hy; [done| |].
  - exfalso. by apply (not_ending_app l' "_x" (l' +:+ "_x")).
  - exfalso. by apply (not_ending_app l' "_y" (l' +:+ "_y")).
Qed.

Lemma fmap_fixed {A} (f : A → A) (l : list A) :
  (∀ x, x ∈ l → f x = x) → f <$> l = l.
Proof.
  intros Hf. rewrite <- (list_fmap_id l) at 2.
  apply list_fmap_ext. intros i x Hx. apply Hf. by eapply list_elem_of_lookup_2.
Qed.

(** Two strings that are equal end alike. *)
Lemma str_app_clash (a b s t : string) :
  a +:+ s = b +:+ t →
  String.list_ascii_of_string s `suffix_of` String.list_ascii_of_string t
  ∨ String.list_ascii_of_string t `suffix_of` String.list_ascii_of_string s.
Proof.
  intros E. apply (f_equal String.list_ascii_of_string) in E.
  rewrite !chars_app in E.
  apply app_eq_inv in E as [(k & _ & ->)|(k & _ & ->)]; [left|right];
    by exists k.
Qed.

Section JoinedColumns.

Context {num : Type} `{!EqDecision num}.
Implicit Types df_wb df_cepii trade merged out : DataFrame num.

(** The columns a join adds to the trade table: those of the indicator
    table but its keys, under the suffix of the side, and those of the
    pairwise table but its key (none when that table is empty and the join
    is skipped). *)
Definition indicator_labels (suffix : string) df_wb : list string :=
  (λ l, l +:+ suffix)
    <$> filter (λ l, l ∉ ["countryISO"; "Year"]) (columns df_wb).

Definition pairwise_labels df_cepii : list string :=
  if df_empty df_cepii then []
  else filter (λ l, l ≠ "cepii_key") (columns df_cepii).

Lemma kept_indicator_labels suffix country df_wb :
  country ≠ "year" → not_ending suffix country → not_ending suffix "year" →
  kept_right_labels [(country, country); ("year", "year")]
    (wb_side suffix country df_wb)
  = indicator_labels suffix df_wb.
Proof.
  intros Hy H1 H2. unfold kept_right_labels, right_drop, indicator_labels.
  rewrite !filter_cons_True by done. rewrite filter_nil.
  cbn [fmap list_fmap snd wb_side columns].
  induction (columns df_wb) as [|l ls IH]; [done|].
  cbn [fmap list_fmap].
  pose proof (wb_label_country suffix country l Hy H1) as Ec.
  pose proof (wb_label_year suffix country l Hy H2) as Ey.
  destruct (decide (l ∈ ["countryISO"; "Year"])) as [Hin|Hin].
  - rewrite (filter_cons_False _ l) by tauto.
    rewrite filter_cons_False; [exact IH|].
    intros Hn. apply Hn. rewrite !elem_of_cons, elem_of_nil in Hin |- *. tauto.
  - rewrite (filter_cons_True _ l) by done.
    rewrite filter_cons_True.
    + cbn [fmap list_fmap]. f_equal; [|exact IH].
      rewrite !elem_of_cons in Hin. unfold wb_label.
      rewrite !decide_False; [done|intros E; apply str_app_inj_l in E; tauto..].
    + rewrite !elem_of_cons, elem_of_nil in Hin |- *. tauto.
Qed.

Lemma indicator_sides_apart df_wb c :
  c ∈ indicator_labels "_reporter" df_wb →
  c ∉ indicator_labels "_partner" df_wb.
Proof.
  intros (l & -> & _)%list_elem_of_fmap (l' & E & _)%list_elem_of_fmap.
  apply str_app_clash in E as [H|H]; revert H; not_ending.
Qed.

Lemma indicator_label_ends suffix df_wb c :
  c ∈ indicator_labels suffix df_wb → ∃ l, c = l +:+ suffix.
Proof. intros (l & -> & _)%list_elem_of_fmap. by exists l. Qed.

End JoinedColumns.

Section JoinLayout.

Context {num : Type} `{!EqDecision num}.
Implicit Types df_wb df_cepii trade merged out : DataFrame num.

(** Step 3.1, columns and rows together: the labels of the trade table,
    then the reporter-side labels, then the partner-side labels, each row
    extended by one cell per added label. *)
Lemma merge_world_bank_layout df_wb trade merged :
  wb_unique df_wb → aligned df_wb → aligned trade →
  merge_world_bank df_wb trade = Ok merged →
  let rep_cols := indicator_labels "_reporter" df_wb in
  let par_cols := indicator_labels "_partner" df_wb in
  "reporterISO" ∈ columns merged ∧ "partnerISO" ∈ columns merged
  ∧ ∃ L R P,
      columns merged = L ++ R ++ P
      ∧ Forall2 suffixed (columns trade) L
      ∧ Forall2 suffixed rep_cols R
      ∧ Forall2 suffixed par_cols P
      ∧ (Forall (λ c, (c ∉ rep_cols) ∧ (c ∉ par_cols)) (columns trade) →
         L = columns trade ∧ R = rep_cols ∧ P = par_cols)
      ∧ Forall2
          (λ l rm, ∃ rep par,
             rm = l ++ rep ++ par
             ∧ length rep = length R ∧ length par = length P
             ∧ cell_at (columns merged) rm "reporterISO"
               = cell_at (columns trade) l "reporterISO"
             ∧ cell_at (columns merged) rm "partnerISO"
               = cell_at (columns trade) l "partnerISO"
             ∧ (no_indicator_row df_wb (cell_at (columns trade) l "reporterISO")
                  (cell_at (columns trade) l "year") →
                Forall (λ v, v = None) rep)
             ∧ (no_indicator_row df_wb (cell_at (columns trade) l "partnerISO")
                  (cell_at (columns trade) l "year") →
                Forall (λ v, v = None) par))
          (rows trade) (rows merged).
Proof.
  intros Hu Hawb Hat Hrun rep_cols par_cols. revert Hrun. unfold merge_world_bank.
  set (keysR := [("reporterISO", "reporterISO"); ("year", "year")]).
  set (keysP := [("partnerISO", "partnerISO"); ("year", "year")]).
  set (wb_rep := wb_side "_reporter" "reporterISO" df_wb).
  set (wb_par := wb_side "_partner" "partnerISO" df_wb).
  destruct (merge_left keysR trade wb_rep) as [m1|] eqn:E1; [|by intros [=]].
  cbn [mbind result_bind]. intros E2.
  assert (HuR : key_unique keysR wb_rep).
  { apply key_unique_wb_side; [done|not_ending|not_ending|done]. }
  assert (HuP : key_unique keysP wb_par).
  { apply key_unique_wb_side; [done|not_ending|not_ending|done]. }
  assert (HkR : kept_right_labels keysR wb_rep = rep_cols).
  { apply kept_indicator_labels; [done|not_ending..]. }
  assert (HkP : kept_right_labels keysP wb_par = par_cols).
  { apply kept_indicator_labels; [done|not_ending..]. }
  destruct (merge_left_unique _ _ _ _ HuR E1) as [Hc1 Hr1].
  destruct (merge_left_unique _ _ _ _ HuP E2) as [Hc2 Hr2].
  destruct (merge_left_inv _ _ _ _ E1) as [_ Hq1].
  destruct (merge_left_inv _ _ _ _ E2) as [_ Hq2].
  assert (HrepT : "reporterISO" ∈ columns trade).
  { destruct (Hq1 ("reporterISO", "reporterISO")) as [H _]; [by left|].
    by apply require_unique_elem in H. }
  assert (HyearT : "year" ∈ columns trade).
  { destruct (Hq1 ("year", "year")) as [H _]; [by right; left|].
    by apply require_unique_elem in H. }
  assert (HnR : ∀ c, not_ending "_reporter" c → c ∉ rep_cols).
  { intros c Hc [l ->]%indicator_label_ends. by eapply not_ending_app. }
  assert (HnP : ∀ c, not_ending "_partner" c → c ∉ par_cols).
  { intros c Hc [l ->]%indicator_label_ends. by eapply not_ending_app. }
  assert (HparM : "partnerISO" ∈ columns m1).
  { destruct (Hq2 ("partnerISO", "partnerISO")) as [H _]; [by left|].
    by apply require_unique_elem in H. }
  assert (HparT : "partnerISO" ∈ columns trade).
  { rewrite Hc1 in HparM.
    apply (merged_label_from_left keysR trade wb_rep); [done| | |].
    - rewrite HkR. apply HnR. not_ending.
    - not_ending.
    - not_ending. }
  set (fx1 := λ l, if decide (l ∈ rep_cols) then l +:+ "_x" else l).
  set (gy1 := λ l, if decide (l ∈ columns trade) then l +:+ "_y" else l).
  set (fx2 := λ l, if decide (l ∈ par_cols) then l +:+ "_x" else l).
  set (gy2 := λ l, if decide (l ∈ columns m1) then l +:+ "_y" else l).
  assert (Hm1 : columns m1 = (fx1 <$> columns trade) ++ (gy1 <$> rep_cols)).
  { rewrite Hc1. unfold merged_labels. by rewrite HkR. }
  assert (Hm2 : columns merged
                = (fx2 <$> (fx1 <$> columns trade))
                  ++ (fx2 <$> (gy1 <$> rep_cols)) ++ (gy2 <$> par_cols)).
  { assert (H : columns merged = (fx2 <$> columns m1) ++ (gy2 <$> par_cols)).
    { rewrite Hc2. unfold merged_labels. by rewrite HkP. }
    rewrite H, Hm1, fmap_app. by rewrite <- app_assoc. }
  assert (Hfx1 : ∀ l, suffixed l (fx1 l)).
  { intros l. unfold fx1. destruct (decide _); by repeat constructor. }
  assert (Hgy1 : ∀ l, suffixed l (gy1 l)).
  { intros l. unfold gy1. destruct (decide _); by repeat constructor. }
  assert (Hfx2 : ∀ l, suffixed l (fx2 l)).
  { intros l. unfold fx2. destruct (decide _); by repeat constructor. }
  assert (Hgy2 : ∀ l, suffixed l (gy2 l)).
  { intros l. unfold gy2. destruct (decide _); by repeat constructor. }
  assert (Hin1 : ∀ c, c ∈ columns trade → not_ending "_reporter" c →
                      c ∈ columns m1).
  { intros c Hc Hr. rewrite Hc1. unfold merged_labels. apply elem_of_app. left.
    apply list_elem_of_fmap. exists c. split; [|done].
    rewrite decide_False; [done|]. rewrite HkR. by apply HnR. }
  assert (Hin2 : ∀ c, c ∈ columns trade → not_ending "_reporter" c →
                      not_ending "_partner" c → c ∈ columns merged).
  { intros c Hc Hr Hp. rewrite Hc2. unfold merged_labels. apply elem_of_app. left.
    apply list_elem_of_fmap. exists c. split; [|by apply Hin1].
    rewrite decide_False; [done|]. rewrite HkP. by apply HnP. }
  split; [apply Hin2; [done|not_ending..]|].
  split; [apply Hin2; [done|not_ending..]|].
  exists (fx2 <$> (fx1 <$> columns trade)), (fx2 <$> (gy1 <$> rep_cols)),
         (gy2 <$> par_cols).
  split; [exact Hm2|]. split.
  { rewrite <- list_fmap_compose. apply suffixed_fmap. intros l.
    eapply suffixed_trans; [apply Hfx1|apply Hfx2]. }
  split.
  { rewrite <- list_fmap_compose. apply suffixed_fmap. intros l.
    eapply suffixed_trans; [apply Hgy1|apply Hfx2]. }
  split; [by apply suffixed_fmap|]. split.
  { intros Hfree. rewrite Forall_forall in Hfree.
    assert (F1 : fx1 <$> columns trade = columns trade).
    { apply fmap_fixed. intros c Hc. unfold fx1.
      rewrite decide_False; [done|]. by apply Hfree. }
    assert (F2 : fx2 <$> columns trade = columns trade).
    { apply fmap_fixed. intros c Hc. unfold fx2.
      rewrite decide_False; [done|]. by apply Hfree. }
    assert (F3 : gy1 <$> rep_cols = rep_cols).
    { apply fmap_fixed. intros c Hc. unfold gy1.
      rewrite decide_False; [done|]. intros Hc'.
      destruct (Hfree c Hc') as [Hn _]. done. }
    assert (F4 : fx2 <$> rep_cols = rep_cols).
    { apply fmap_fixed. intros c Hc. unfold fx2.
      rewrite decide_False; [done|]. by apply indicator_sides_apart. }
    assert (F5 : gy2 <$> par_cols = par_cols).
    { apply fmap_fixed. intros c Hc. unfold gy2.
      rewrite decide_False; [done|]. rewrite Hm1, F1, F3, elem_of_app.
      intros [Hc'|Hc'].
      - destruct (Hfree c Hc') as [_ Hn]. done.
      - by apply (indicator_sides_apart df_wb c). }
    by rewrite F1, F2, F3, F4, F5. }
  rewrite Hr2, Hr1. rewrite <- (list_fmap_compose _ _ (rows trade)).
  apply Forall2_fmap_r, Forall_Forall2_diag, Forall_forall.
  intros l Hl. cbn [compose].
  assert (Hlen : length l = length (columns trade)).
  { unfold aligned in Hat. rewrite Forall_forall in Hat. by apply Hat. }
  set (e1 := extension keysR trade wb_rep l).
  set (e2 := extension keysP m1 wb_par (l ++ e1)).
  assert (Hlen1 : length (l ++ e1) = length (columns m1)).
  { rewrite Hc1, length_merged_labels, length_app. unfold e1.
    rewrite length_extension by (by apply aligned_wb_side). lia. }
  assert (Hcell1 : ∀ c, c ∈ columns trade → not_ending "_reporter" c →
                        not_ending "_x" c →
                        cell_at (columns m1) (l ++ e1) c
                        = cell_at (columns trade) l c).
  { intros c Hc Hr Hx. rewrite Hc1.
    apply cell_at_merged_left; [done|done| |done].
    rewrite HkR. by apply HnR. }
  assert (Hcell2 : ∀ c, c ∈ columns trade → not_ending "_reporter" c →
                        not_ending "_partner" c → not_ending "_x" c →
                        cell_at (columns merged) ((l ++ e1) ++ e2) c
                        = cell_at (columns trade) l c).
  { intros c Hc Hr Hp Hx. rewrite Hc2.
    rewrite cell_at_merged_left; [by apply Hcell1|done| | |done].
    - by apply Hin1.
    - rewrite HkP. by apply HnP. }
  exists e1, e2. split_and!.
  - by rewrite app_assoc.
  - unfold e1. rewrite length_extension by (by apply aligned_wb_side).
    by rewrite HkR, !length_fmap.
  - unfold e2. rewrite length_extension by (by apply aligned_wb_side).
    by rewrite HkP, !length_fmap.
  - apply Hcell2; [done|not_ending..].
  - apply Hcell2; [done|not_ending..].
  - intros Hno. by apply wb_side_unmatched; [done|not_ending|not_ending|].
  - intros Hno. apply wb_side_unmatched; [done|not_ending|not_ending|].
    rewrite (Hcell1 "partnerISO") by (done || not_ending).
    rewrite (Hcell1 "year") by (done || not_ending). done.
Qed.

(** Step 3.2, columns and rows together. *)
Lemma merge_cepii_layout merged df_cepii out :
  cepii_unique df_cepii → aligned merged → aligned df_cepii →
  "reporterISO" ∈ columns merged → "partnerISO" ∈ columns merged →
  "cepii_merge_key" ∉ columns merged → "cepii_key" ∉ columns merged →
  "cepii_merge_key" ∉ columns df_cepii →
  merge_cepii merged df_cepii = Ok out →
  let cep_cols := pairwise_labels df_cepii in
  ∃ L C,
    columns out = L ++ C
    ∧ Forall2 suffixed (columns merged) L
    ∧ Forall2 suffixed cep_cols C
    ∧ (Forall (λ c, c ∉ cep_cols) (columns merged) →
       L = columns merged ∧ C = cep_cols)
    ∧ Forall2
        (λ rm ro, ∃ cep,
           ro = rm ++ cep
           ∧ length cep = length C
           ∧ (no_pair_row df_cepii (trade_pair_key (columns merged) rm) →
              Forall (λ v, v = None) cep))
        (rows merged) (rows out).
Proof.
  intros Hu Hal Halc HrM HpM Hf1 Hf2 Hf3 Hrun cep_cols. revert Hrun.
  unfold merge_cepii.
  destruct (decide _) as [(Hne & _ & _)|Hskip].
  2:{ intros [= <-].
      assert (Hemp : df_empty df_cepii = true).
      { destruct (df_empty df_cepii); [done|]. exfalso. by apply Hskip. }
      assert (Hnil : cep_cols = []).
      { unfold cep_cols, pairwise_labels. by rewrite Hemp. }
      exists (columns merged), []. rewrite Hnil, app_nil_r.
      split; [done|]. split.
      { apply Forall_Forall2_diag, Forall_forall. intros l _. constructor. }
      split; [constructor|]. split; [done|].
      apply Forall_Forall2_diag, Forall_forall. intros rm _.
      exists []. split; [by rewrite app_nil_r|]. split; [done|]. by constructor. }
  assert (Hcep : cep_cols = filter (λ l, l ≠ "cepii_key") (columns df_cepii)).
  { unfold cep_cols, pairwise_labels. by rewrite Hne. }
  destruct (require_unique _ "reporterISO" _); [|by intros [=]].
  destruct (require_unique _ "partnerISO" _); [|by intros [=]].
  cbn [mbind result_bind].
  destruct (traverse _ (rows merged)); [|by intros [=]].
  cbn [mbind result_bind].
  set (f := λ r, pair_key_cell (cell_at (columns merged) r "reporterISO")
                               (cell_at (columns merged) r "partnerISO")).
  set (with_key := assign "cepii_merge_key" f merged).
  destruct (merge_left [("cepii_merge_key", "cepii_key")] with_key df_cepii)
    as [joined|] eqn:E3; [|by intros [=]].
  cbn [mbind result_bind]. intros [= <-].
  destruct (merge_left_unique _ _ _ _ (key_unique_cepii _ Hu) E3) as [Hc3 Hr3].
  assert (Hrk : rows with_key
                = assign_row "cepii_merge_key" f (columns merged) <$> rows merged)
    by reflexivity.
  assert (Hwk : columns with_key = columns merged ++ ["cepii_merge_key"]).
  { unfold with_key, assign, assign_labels. cbn [columns]. by rewrite decide_False. }
  assert (Hdrop : right_drop [("cepii_merge_key", "cepii_key")] = []).
  { unfold right_drop. by rewrite filter_cons_False. }
  assert (Hkept : kept_right_labels [("cepii_merge_key", "cepii_key")] df_cepii
                  = columns df_cepii).
  { unfold kept_right_labels. rewrite Hdrop. apply filter_all.
    intros c _. apply not_elem_of_nil. }
  set (D := ["cepii_merge_key"; "cepii_key"]).
  set (fx := λ l, if decide (l ∈ columns df_cepii) then l +:+ "_x" else l).
  set (gy := λ l, if decide (l ∈ columns merged ++ ["cepii_merge_key"])
                  then l +:+ "_y" else l).
  assert (Hfx : ∀ l, suffixed l (fx l)).
  { intros l. unfold fx. destruct (decide _); by repeat constructor. }
  assert (Hgy : ∀ l, suffixed l (gy l)).
  { intros l. unfold gy. destruct (decide _); by repeat constructor. }
  assert (Hjoined : columns joined
                    = (fx <$> columns merged) ++ [fx "cepii_merge_key"]
                      ++ (gy <$> columns df_cepii)).
  { rewrite Hc3. unfold merged_labels. rewrite Hkept, Hwk, fmap_app.
    by rewrite <- app_assoc. }
  assert (HfxD : ∀ l, l ∈ columns merged → fx l ∉ D).
  { intros l Hl. unfold fx, D. rewrite !not_elem_of_cons.
    destruct (decide (l ∈ columns df_cepii)).
    - split_and!; [apply not_ending_app; not_ending..|apply not_elem_of_nil].
    - split_and!; [by intros ->|by intros ->|apply not_elem_of_nil]. }
  assert (Hfxk : fx "cepii_merge_key" = "cepii_merge_key").
  { unfold fx. by rewrite decide_False. }
  assert (HgyD : ∀ l, gy l ∉ D ↔ l ≠ "cepii_key").
  { intros l. unfold gy, D. rewrite !not_elem_of_cons.
    destruct (decide (l ∈ columns merged ++ ["cepii_merge_key"])) as [Hin|Hin].
    - split.
      + intros _ ->.
        apply elem_of_app in Hin as [?|?%list_elem_of_singleton]; done.
      + intros _.
        split_and!; [apply not_ending_app; not_ending..|apply not_elem_of_nil].
    - split; [tauto|]. intros Hk. split_and!; [|done|apply not_elem_of_nil].
      intros ->. apply Hin, elem_of_app. right. by left. }
  assert (Hcols : filter (λ l, l ∉ D) (columns joined)
                  = (fx <$> columns merged) ++ (gy <$> cep_cols)).
  { rewrite Hjoined, !filter_app.
    rewrite (filter_all _ (fx <$> columns merged)).
    2:{ intros c (l & -> & Hl)%list_elem_of_fmap. by apply HfxD. }
    rewrite Hfxk, filter_cons_False, filter_nil.
    2:{ intros Hn. apply Hn. by left. }
    cbn [app]. f_equal. rewrite filter_fmap, Hcep. f_equal.
    apply list_filter_iff. intros l. apply HgyD. }
  exists (fx <$> columns merged), (gy <$> cep_cols).
  unfold drop_columns. cbn [columns rows]. fold D.
  split; [exact Hcols|]. split; [by apply suffixed_fmap|].
  split; [by apply suffixed_fmap|]. split.
  { intros Hfree. rewrite Forall_forall in Hfree. split.
    - apply fmap_fixed. intros c Hc. unfold fx.
      rewrite decide_False; [done|]. intros Hc'. apply (Hfree c Hc).
      rewrite Hcep. apply list_elem_of_filter. split; [|done]. by intros ->.
    - apply fmap_fixed. intros c Hc. unfold gy.
      rewrite decide_False; [done|]. rewrite elem_of_app.
      intros [Hc'|Hc'%list_elem_of_singleton].
      + by apply (Hfree c Hc').
      + subst c. rewrite Hcep in Hc. apply list_elem_of_filter in Hc. tauto. }
  rewrite Hr3, Hrk. rewrite <- !list_fmap_compose.
  apply Forall2_fmap_r, Forall_Forall2_diag, Forall_forall.
  intros rm Hrm. cbn [compose].
  assert (Hlen : length rm = length (columns merged)).
  { unfold aligned in Hal. rewrite Forall_forall in Hal. by apply Hal. }
  assert (Har : assign_row "cepii_merge_key" f (columns merged) rm = rm ++ [f rm]).
  { unfold assign_row. by rewrite decide_False. }
  set (e3 := extension [("cepii_merge_key", "cepii_key")] with_key df_cepii
               (rm ++ [f rm])).
  assert (He3 : length e3 = length (columns df_cepii)).
  { unfold e3. rewrite length_extension by done. by rewrite Hkept. }
  rewrite Har, Hjoined, <- (app_assoc rm).
  rewrite cells_without_app by (by rewrite length_fmap).
  rewrite (cells_without_app D [fx "cepii_merge_key"]) by done.
  rewrite cells_without_id.
  2:{ by rewrite length_fmap. }
  2:{ intros c (l & -> & Hl)%list_elem_of_fmap. by apply HfxD. }
  rewrite cells_without_all.
  2:{ intros c ->%list_elem_of_singleton. rewrite Hfxk. by left. }
  cbn [app]. eexists. split; [reflexivity|]. split.
  - rewrite length_cells_without by (by rewrite length_fmap).
    rewrite filter_fmap, !length_fmap, Hcep. f_equal.
    apply list_filter_iff. intros l. apply HgyD.
  - intros Hno. apply cells_without_null, extension_unmatched.
    intros w Hw. unfold right_key, left_key. cbn [fmap list_fmap fst snd].
    rewrite Hwk, cell_at_append by done. rewrite decide_True by done.
    intros [= E]. by apply (Hno w Hw).
Qed.

End JoinLayout.

(** C4. When the indicator table has at most one row per (country, year)
    and the pairwise table at most one row per symmetric key, the table
    [merge_datasets] returns has exactly one row per trade row, in order.
    Its columns are four blocks: the labels of the trade table ([period]
    called [year]), the reporter-side labels, the partner-side labels and
    the pairwise labels, each label as it is or with the [_x] / [_y] pandas
    appends to a label both sides of a join have, and exactly as they are
    when no label of one block occurs in another.  Each row is the trade
    row with its [year] cell coerced, followed by one cell per added
    label; the cells of a side the row has no match on are all missing.
    The layout is stated for tables whose rows have one cell per label and
    where the working labels [cepii_merge_key] and [cepii_key] are not
    taken. *)
Theorem merge_keeps_every_trade_row {num : Type} `{!EqDecision num}
    (to_numeric : string → option num) (as_Int64 : num → option num)
    (to_csv : csv_target → DataFrame num → result unit)
    (df_wb df_trade df_cepii out : DataFrame num) :
  wb_unique df_wb →
  cepii_unique df_cepii →
  merge_datasets to_numeric as_Int64 to_csv df_wb df_trade df_cepii = Ok out →
  length (rows out) = length (rows df_trade)
  ∧ (df_empty df_trade = false →
     aligned df_trade → aligned df_wb → aligned df_cepii →
     "cepii_merge_key" ∉ columns df_trade →
     "cepii_key" ∉ columns df_trade →
     "cepii_merge_key" ∉ columns df_cepii →
     let cols := year_labels df_trade in
     let rep_cols := indicator_labels "_reporter" df_wb in
     let par_cols := indicator_labels "_partner" df_wb in
     let cep_cols := pairwise_labels df_cepii in
     ∃ L R P C,
       columns out = L ++ R ++ P ++ C
       ∧ Forall2 suffixed cols L
       ∧ Forall2 suffixed rep_cols R
       ∧ Forall2 suffixed par_cols P
       ∧ Forall2 suffixed cep_cols C
       ∧ (Forall (λ c, c ∉ rep_cols ++ par_cols ++ cep_cols) cols →
          Forall (λ c, c ∉ cep_cols) (rep_cols ++ par_cols) →
          L = cols ∧ R = rep_cols ∧ P = par_cols ∧ C = cep_cols)
       ∧ Forall2
           (λ r ro, ∃ r1 rep par cep,
              ro = r1 ++ rep ++ par ++ cep
              ∧ length r1 = length L ∧ length rep = length R
              ∧ length par = length P ∧ length cep = length C
              ∧ length r1 = length r
              ∧ (∃ y, year_cell to_numeric as_Int64 (cell_at cols r "year") = Ok y
                      ∧ r1 = zip_with (λ l v, if decide (l = "year") then y else v)
                               cols r)
              ∧ (∀ c, c ≠ "year" → c ≠ "period" →
                      cell_at cols r1 c = cell_at (columns df_trade) r c)
              ∧ (no_indicator_row df_wb (cell_at cols r1 "reporterISO")
                   (cell_at cols r1 "year") →
                 Forall (λ v, v = None) rep)
              ∧ (no_indicator_row df_wb (cell_at cols r1 "partnerISO")
                   (cell_at cols r1 "year") →
                 Forall (λ v, v = None) par)
              ∧ (no_pair_row df_cepii (trade_pair_key cols r1) →
                 Forall (λ v, v = None) cep))
           (rows df_trade) (rows out)).
Proof.
  intros Hwb Hcep Hrun. destruct (df_empty df_trade) eqn:Hemp.
  { unfold merge_datasets in Hrun. rewrite Hemp in Hrun.
    injection Hrun as <-. split; [done|]. by intros [=]. }
  destruct (merge_datasets_inv _ _ _ _ _ _ _ Hemp Hrun)
    as (t1 & m & E1 & E2 & E3).
  destruct (normalize_year_inv _ _ _ _ E1) as (Hc1 & _ & Hrows1).
  pose proof (merge_world_bank_length _ _ _ Hwb E2) as Hl2.
  destruct (merge_cepii_rows _ _ _ Hcep E3) as [Hl3 _].
  split.
  { rewrite Hl3, Hl2. symmetry. by eapply Forall2_length. }
  intros _ Hal Halwb Halc Hf1 Hf2 Hf3 cols rep_cols par_cols cep_cols.
  assert (Hrows1' :
    Forall2 (λ r r1, length r1 = length r
                     ∧ length r1 = length cols
                     ∧ (∃ y, year_cell to_numeric as_Int64 (cell_at cols r "year")
                             = Ok y
                             ∧ r1 = zip_with
                                      (λ l v, if decide (l = "year") then y else v)
                                      cols r)
                     ∧ ∀ c, c ≠ "year" → c ≠ "period" →
                            cell_at cols r1 c = cell_at (columns df_trade) r c)
            (rows df_trade) (rows t1)).
  { eapply Forall2_impl; [apply (Forall2_with_left _ _ _ _ Hrows1 Hal)|].
    intros r r1 [(y & Hy & ->) Hlen]. cbn beta in Hlen. fold cols in Hy |- *.
    assert (Hlen' : length r = length cols).
    { unfold cols. by rewrite length_year_labels. }
    rewrite length_zip_with.
    split_and!; [lia|lia|by exists y|].
    intros c Hcy Hp. rewrite cell_at_overwrite_ne by done.
    by apply cell_at_year_labels. }
  assert (Hal1 : aligned t1).
  { unfold aligned. rewrite Hc1. fold cols.
    eapply Forall2_right; [exact Hrows1'|]. intros r r1 (_ & H & _). exact H. }
  destruct (merge_world_bank_rows df_wb t1 m Hwb Halwb Hal1 E2)
    as (_ & _ & Hlabels & _).
  destruct (merge_world_bank_layout df_wb t1 m Hwb Halwb Hal1 E2)
    as (HrM & HpM & Lm & Rm & Pm & Hcm & HLm & HRm & HPm & Hexm & Hrows2).
  fold rep_cols par_cols in HRm, HPm, Hexm.
  rewrite Hc1 in Hlabels, HLm, Hexm, Hrows2.
  fold cols in Hlabels, HLm, Hexm, Hrows2.
  assert (HlenL : length Lm = length cols).
  { symmetry. by eapply Forall2_length. }
  assert (Halm : aligned m).
  { unfold aligned. eapply Forall2_right.
    - exact (Forall2_with_left _ _ _ _ Hrows2 Hal1).
    - intros r1 rm [(rep & par & -> & Hlr & Hlp & _) Hlen1].
      cbn beta in Hlen1 |- *. rewrite Hc1 in Hlen1. fold cols in Hlen1.
      rewrite Hcm, !length_app. lia. }
  assert (Hfresh : ∀ c, c ∈ columns m → c ≠ "year" →
            not_ending "_x" c → not_ending "_y" c →
            not_ending "_reporter" c → not_ending "_partner" c →
            c ∈ columns df_trade).
  { intros c Hc Hy Hx Hy' Hr Hp.
    destruct (Hlabels c Hc) as [Hin|[[l E]|[[l E]|[[l E]|[l E]]]]].
    - apply elem_of_year_labels in Hin as [?|?]; done.
    - symmetry in E. by apply not_ending_app in E.
    - symmetry in E. by apply not_ending_app in E.
    - symmetry in E. by apply not_ending_app in E.
    - symmetry in E. by apply not_ending_app in E. }
  assert (Hm1 : "cepii_merge_key" ∉ columns m).
  { intros Hc. apply Hf1, Hfresh; [done|done|not_ending..]. }
  assert (Hm2 : "cepii_key" ∉ columns m).
  { intros Hc. apply Hf2, Hfresh; [done|done|not_ending..]. }
  destruct (merge_cepii_layout m df_cepii out Hcep Halm Halc HrM HpM Hm1 Hm2
              Hf3 E3) as (L' & C & Hco & HL' & HC & Hexc & Hrows3).
  fold cep_cols in HC, Hexc.
  rewrite Hcm in HL'.
  apply Forall2_app_inv_l in HL' as (L & RP & HL & HRP & ->).
  apply Forall2_app_inv_l in HRP as (R & P & HR & HP & ->).
  assert (HlenR : length R = length Rm) by (symmetry; by eapply Forall2_length).
  assert (HlenP : length P = length Pm) by (symmetry; by eapply Forall2_length).
  assert (HlenL' : length L = length Lm) by (symmetry; by eapply Forall2_length).
  exists L, R, P, C. split_and!.
  - by rewrite Hco, <- !app_assoc.
  - exact (Forall2_trans _ _ _ _ _ _ suffixed_trans HLm HL).
  - exact (Forall2_trans _ _ _ _ _ _ suffixed_trans HRm HR).
  - exact (Forall2_trans _ _ _ _ _ _ suffixed_trans HPm HP).
  - exact HC.
  - intros Hfree1 Hfree2. rewrite Forall_forall in Hfree1, Hfree2.
    destruct Hexm as (-> & -> & ->).
    { apply Forall_forall. intros c Hc. specialize (Hfree1 c Hc).
      rewrite !elem_of_app in Hfree1. tauto. }
    destruct Hexc as [EL ->].
    { rewrite Hcm. apply Forall_forall. intros c Hc.
      rewrite elem_of_app in Hc. destruct Hc as [Hc|Hc].
      - specialize (Hfree1 c Hc). rewrite !elem_of_app in Hfree1. tauto.
      - by apply Hfree2. }
    rewrite Hcm in EL.
    apply app_inj_1 in EL as [-> EL]; [|lia].
    apply app_inj_1 in EL as [-> ->]; [done|lia].
  - pose proof (Forall2_compose _ _ _ _ _
                  (Forall2_compose _ _ _ _ _ Hrows1' Hrows2) Hrows3) as Hall.
    eapply Forall2_impl; [exact Hall|].
    intros r ro (rm & (r1 & (Hlen & Hlenc & Hy & Hcells) & Hwbrow) & Hpair).
    destruct Hwbrow as (rep & par & -> & Hlr & Hlp & Hrep & Hpar & Hnr & Hnp).
    destruct Hpair as (cep & -> & Hlc & Hnc).
    exists r1, rep, par, cep. split_and!; try done.
    + by rewrite <- !app_assoc.
    + lia.
    + lia.
    + lia.
    + intros Hno. apply Hnc. unfold trade_pair_key in *. by rewrite Hrep, Hpar.
Qed.

Module DemoJoin.

(** Three flows; the second has a partner without indicators or pairwise
    attributes, the third a period that does not parse. *)
Definition trade : DataFrame Z :=
  Frame ["reporterISO"; "partnerISO"; "period"; "primaryValue"]
    [[Some (VStr "THA"); Some (VStr "USA"); Some (VStr "2015"); Some (VNum 10%Z)];
     [Some (VStr "USA"); Some (VStr "CHN"); Some (VNum 2015%Z); Some (VNum 20%Z)];
     [Some (VStr "THA"); Some (VStr "USA"); Some (VStr "n/a"); Some (VNum 30%Z)]].

Definition merged : DataFrame Z :=
  Frame
    ["reporterISO"; "partnerISO"; "year"; "primaryValue";
     "NY.GDP.MKTP.CD_reporter"; "NY.GDP.MKTP.CD_partner";
     "contig"; "comlang_off"; "gdp_o"]
    [[Some (VStr "THA"); Some (VStr "USA"); Some (VNum 2015%Z); Some (VNum 10%Z);
      Some (VNum 401%Z); Some (VNum 18206%Z);
      Some (VNum 0%Z); Some (VNum 1%Z); Some (VStr "12.5e3")];
     [Some (VStr "USA"); Some (VStr "CHN"); Some (VNum 2015%Z); Some (VNum 20%Z);
      Some (VNum 18206%Z); None; None; None; None];
     [Some (VStr "THA"); Some (VStr "USA"); None; Some (VNum 30%Z);
      None; None; Some (VNum 0%Z); Some (VNum 1%Z); Some (VStr "12.5e3")]].

Lemma merged_eq :
  merge_datasets DemoCepii.to_numeric DemoMerge.as_Int64 Demo.to_csv
    DemoMerge.wb trade DemoCepii.normalized = Ok merged.
Proof. vm_compute. reflexivity. Qed.

Lemma wb_is_unique : wb_unique DemoMerge.wb.
Proof.
  intros i j r1 r2 Hi Hj E _.
  destruct i as [|[|i]], j as [|[|j]]; simpl in Hi, Hj; simplify_eq; try done.
Qed.

Lemma cepii_is_unique : cepii_unique DemoCepii.normalized.
Proof.
  intros i j r1 r2 Hi Hj _.
  destruct i as [|i], j as [|j]; simpl in Hi, Hj; simplify_eq; done.
Qed.

End DemoJoin.

Lemma merge_keeps_every_trade_row_witness :
  wb_unique DemoMerge.wb
  ∧ cepii_unique DemoCepii.normalized
  ∧ merge_datasets DemoCepii.to_numeric DemoMerge.as_Int64 Demo.to_csv
      DemoMerge.wb DemoJoin.trade DemoCepii.normalized = Ok DemoJoin.merged
  ∧ length (rows DemoJoin.merged) = length (rows DemoJoin.trade)
  ∧ columns DemoJoin.merged
    = year_labels DemoJoin.trade
      ++ indicator_labels "_reporter" DemoMerge.wb
      ++ indicator_labels "_partner" DemoMerge.wb
      ++ pairwise_labels DemoCepii.normalized
  ∧ Forall2
      (λ r ro, ∃ r1 rep par cep,
         ro = r1 ++ rep ++ par ++ cep
         ∧ length r1 = 4 ∧ length rep = 1 ∧ length par = 1 ∧ length cep = 3
         ∧ (no_indicator_row DemoMerge.wb
              (cell_at (year_labels DemoJoin.trade) r1 "partnerISO")
              (cell_at (year_labels DemoJoin.trade) r1 "year") →
            Forall (λ v, v = None) par))
      (rows DemoJoin.trade) (rows DemoJoin.merged).
Proof.
  pose proof (merge_keeps_every_trade_row DemoCepii.to_numeric
                DemoMerge.as_Int64 Demo.to_csv DemoMerge.wb DemoJoin.trade
                DemoCepii.normalized DemoJoin.merged
                DemoJoin.wb_is_unique DemoJoin.cepii_is_unique
                DemoJoin.merged_eq) as [Hlen Hlayout].
  destruct Hlayout as (L & R & P & C & Hcols & _ & _ & _ & _ & Hex & Hrows).
  { reflexivity. }
  { repeat constructor. }
  { repeat constructor. }
  { repeat constructor. }
  { apply (bool_decide_unpack _). vm_compute. exact I. }
  { apply (bool_decide_unpack _). vm_compute. exact I. }
  { apply (bool_decide_unpack _). vm_compute. exact I. }
  destruct Hex as (-> & -> & -> & ->).
  { apply (bool_decide_unpack _). vm_compute. exact I. }
  { apply (bool_decide_unpack _). vm_compute. exact I. }
  split; [exact DemoJoin.wb_is_unique|].
  split; [exact DemoJoin.cepii_is_unique|].
  split; [exact DemoJoin.merged_eq|].
  split; [exact Hlen|]. split; [exact Hcols|].
  eapply Forall2_impl; [exact Hrows|].
  intros r ro (r1 & rep & par & cep & E & H1 & H2 & H3 & H4 & _ & _ & _ & _ & Hp & _).
  exists r1, rep, par, cep. split_and!; done.
Defined.

(** * Further properties *)

(** ** Code mapper *)

(** A dict built from items holds, under a key, the value of the last item
    with that key. *)
Lemma lookup_dict_of_items items k :
  dict_of_items items !! k
  = snd <$> last (filter (λ kv : string * string, kv.1 = k) items).
Proof.
  unfold dict_of_items.
  induction items as [|[k' v] items IH] using rev_ind; [done|].
  rewrite foldl_app, filter_app. cbn [foldl fst snd].
  destruct (decide (k' = k)) as [->|Hne].
  - rewrite lookup_insert_eq.
    rewrite (filter_cons_True _ (k, v)) by done.
    rewrite filter_nil, last_snoc. done.
  - rewrite lookup_insert_ne by done.
    rewrite (filter_cons_False _ (k', v)) by done.
    rewrite filter_nil, app_nil_r. apply IH.
Qed.

Section CodeMapperFacts.

Variable str_strip : string → string.
Variable str_upper : string → string.
Variable str_zfill : nat → string → string.

Lemma lookup_loaded_map_of cells iso :
  loaded_map_of str_strip str_upper str_zfill (MappingSheet cells) !! iso
  = (λ kv : string * string, str_zfill 3 (str_strip kv.2))
      <$> last (filter (λ kv : string * string, str_upper (str_strip kv.1) = iso)
                       cells).
Proof.
  unfold loaded_map_of. rewrite lookup_dict_of_items, filter_fmap, fmap_last.
  by destruct (last _).
Qed.

Lemma sorted_set_ext l1 l2 :
  (∀ x, x ∈ l1 ↔ x ∈ l2) → sorted_set l1 = sorted_set l2.
Proof.
  intros H. unfold sorted_set. do 2 f_equal.
  apply set_eq. intros x. by rewrite !elem_of_list_to_set.
Qed.

End CodeMapperFacts.

(** X1. An ISO3 code that the embedded table does not list resolves through
    the sheet: to the code of the last sheet row whose ISO3 cell, stripped
    and upper-cased, is that code, itself stripped and zero-filled to three
    characters; and to nothing when the sheet has no such row. *)
Theorem sheet_serves_unlisted_codes
    (str_strip str_upper : string → string) (str_zfill : nat → string → string)
    (cells : list (string * string)) (iso : string) :
  HARDCODED_COMTRADE_MAP !! iso = None →
  load_country_mapping str_strip str_upper str_zfill (MappingSheet cells) !! iso
  = (λ kv : string * string, str_zfill 3 (str_strip kv.2))
      <$> last (filter (λ kv : string * string, str_upper (str_strip kv.1) = iso)
                       cells).
Proof.
  intros Hhard. rewrite <- lookup_loaded_map_of. unfold load_country_mapping.
  destruct (decide _) as [E|E].
  - by rewrite E, lookup_empty.
  - rewrite lookup_union_r; done.
Qed.

Lemma sheet_serves_unlisted_codes_witness :
  HARDCODED_COMTRADE_MAP !! "XKX" = None
  ∧ load_country_mapping Ascii7.strip Ascii7.upper Ascii7.zfill
      (MappingSheet [(" xkx ", "9"); ("THA", "1"); ("XKX", " 95 ")]) !! "XKX"
    = Some "095".
Proof.
  assert (H : HARDCODED_COMTRADE_MAP !! "XKX" = None) by (vm_compute; reflexivity).
  split; [exact H|].
  exact (sheet_serves_unlisted_codes Ascii7.strip Ascii7.upper Ascii7.zfill
           [(" xkx ", "9"); ("THA", "1"); ("XKX", " 95 ")] "XKX" H).
Defined.

(** X2. The reporter codes depend only on the set of the upper-cased
    reporters: two reporter lists (neither the wildcard) whose upper-cased
    entries are the same, in whatever order, case and number of
    repetitions, yield the same list of codes. *)
Theorem reporter_codes_ignore_order_case_repeats
    (str_upper : string → string) (cfg1 cfg2 : config)
    (COUNTRY_MAP : gmap string string) :
  REPORTERS cfg1 ≠ ["all"] → REPORTERS cfg2 ≠ ["all"] →
  (∀ u, u ∈ str_upper <$> REPORTERS cfg1 ↔ u ∈ str_upper <$> REPORTERS cfg2) →
  get_reporter_codes str_upper cfg1 COUNTRY_MAP
  = get_reporter_codes str_upper cfg2 COUNTRY_MAP.
Proof.
  intros H1 H2 Hsame. unfold get_reporter_codes.
  rewrite !decide_False by done. apply sorted_set_ext. intros c.
  rewrite !list_elem_of_omap. split.
  - intros (iso & Hiso & Hc).
    assert (Hu : str_upper iso ∈ str_upper <$> REPORTERS cfg2).
    { apply Hsame, list_elem_of_fmap. eauto. }
    apply list_elem_of_fmap in Hu as (iso' & E & Hiso').
    exists iso'. split; [done|]. by rewrite <- E.
  - intros (iso & Hiso & Hc).
    assert (Hu : str_upper iso ∈ str_upper <$> REPORTERS cfg1).
    { apply Hsame, list_elem_of_fmap. eauto. }
    apply list_elem_of_fmap in Hu as (iso' & E & Hiso').
    exists iso'. split; [done|]. by rewrite <- E.
Qed.

Lemma reporter_codes_ignore_order_case_repeats_witness :
  get_reporter_codes Ascii7.upper
    (Config [2015%Z] ["usa"; "THA"; "Usa"] ["all"] ["contig"]) Demo.COUNTRY_MAP
  = get_reporter_codes Ascii7.upper
      (Config [2015%Z] ["THA"; "USA"] ["all"] ["contig"]) Demo.COUNTRY_MAP.
Proof.
  apply reporter_codes_ignore_order_case_repeats.
  - simpl. congruence.
  - simpl. congruence.
  - intros u. vm_compute. split.
    + intros H. repeat (apply elem_of_cons in H as [->|H]); try set_solver.
    + intros H. repeat (apply elem_of_cons in H as [->|H]); try set_solver.
Defined.

(** ** Trade fetcher *)

(** *** Batches *)

Lemma chunks_from_lookup {A} (n : nat) : 0 < n →
  ∀ fuel (l : list A) i, length l ≤ fuel →
    chunks_from fuel n l !! i
    = if decide (i * n < length l) then Some (take n (drop (i * n) l)) else None.
Proof.
  intros Hn. induction fuel as [|fuel IH]; intros l i Hl.
  - destruct l; [|simpl in Hl; lia].
    destruct (decide (i * n < length (@nil A))) as [H|_]; [simpl in H; lia|].
    by destruct i.
  - destruct l as [|x l].
    { destruct (decide (i * n < length (@nil A))) as [H|_]; [simpl in H; lia|].
      by destruct i. }
    cbn [chunks_from]. destruct i as [|i].
    + cbn [lookup list_lookup].
      destruct (decide (0 * n < length (x :: l))) as [_|H]; [done|].
      simpl in H. lia.
    + cbn [lookup list_lookup].
      change (chunks_from fuel n (drop n (x :: l)) !! i
              = if decide (S i * n < length (x :: l))
                then Some (take n (drop (S i * n) (x :: l))) else None).
      rewrite IH by (rewrite length_drop; simpl in *; lia).
      rewrite length_drop, drop_drop.
      replace (n + i * n) with (S i * n) by lia.
      destruct (decide (i * n < length (x :: l) - n)),
               (decide (S i * n < length (x :: l))); try done; lia.
Qed.

Lemma chunks_lookup {A} (n : nat) (l : list A) i : 0 < n →
  chunks n l !! i
  = if decide (i * n < length l) then Some (take n (drop (i * n) l)) else None.
Proof. intros Hn. by apply chunks_from_lookup. Qed.

(** X3. The batches [l[i:i + n] for i in range(0, len(l), n)] partition
    the list: laid end to end they are the list; the batch at position [i]
    is the slice that starts at [i * n]; no batch is empty (so [group[0]]
    and [group[-1]] exist) and none is longer than [n]; every batch but the
    last has exactly [n] entries. *)
Theorem batches_partition_the_list {A} (n : nat) (l : list A) :
  0 < n →
  mjoin (chunks n l) = l
  ∧ (∀ i g, chunks n l !! i = Some g →
       g = take n (drop (i * n) l) ∧ 0 < length g ≤ n
       ∧ (S i < length (chunks n l) → length g = n)).
Proof.
  intros Hn. split; [by apply mjoin_chunks|].
  intros i g Hg. pose proof Hg as Hg'.
  rewrite chunks_lookup in Hg by done.
  destruct (decide (i * n < length l)) as [Hi|]; [|done].
  injection Hg as <-. split; [done|].
  rewrite length_take, length_drop. split; [lia|].
  intros Hnext. apply lookup_lt_is_Some_2 in Hnext as [g' Hg''].
  rewrite chunks_lookup in Hg'' by done.
  destruct (decide (S i * n < length l)); [lia|done].
Qed.

Lemma batches_partition_the_list_witness :
  0 < 2
  ∧ chunks 2 ["004"; "008"; "012"; "016"; "020"]
    = [["004"; "008"]; ["012"; "016"]; ["020"]]
  ∧ mjoin (chunks 2 ["004"; "008"; "012"; "016"; "020"])
    = ["004"; "008"; "012"; "016"; "020"].
Proof.
  assert (H : 0 < 2) by lia.
  split; [exact H|]. split; [reflexivity|].
  exact (proj1 (batches_partition_the_list 2
                  ["004"; "008"; "012"; "016"; "020"] H)).
Defined.

(** *** Rows of a run *)

Section FetcherFacts.

Context {num : Type}.
Variable api : Z → string → api_outcome num.
Variable as_completed : Z → list string → list string.
Variable to_csv : csv_target → DataFrame num → result unit.
Variable str_upper : string → string.

(** The rows a unit adds to its year: those of its table, none when the
    table is empty. *)
Definition unit_rows (year : Z) (code : string) : nat :=
  let chunk := fetch_single api year code in
  if df_empty chunk then 0 else length (rows chunk).

(** The rows the units of a run add up to. *)
Definition run_rows (years : list Z) (codes : list string) : nat :=
  sum_list_with (λ year, sum_list_with (unit_rows year) codes) years.

Lemma length_rows_concat_frames (frames : list (DataFrame num)) :
  length (rows (concat_frames frames))
  = sum_list_with (λ df, length (rows df)) frames.
Proof.
  unfold concat_frames. cbn [rows].
  generalize (union_labels [] (mjoin (columns <$> frames))). intros cols.
  induction frames as [|df frames IH]; [done|].
  cbn [fmap list_fmap mjoin list_join sum_list_with].
  rewrite length_app, length_fmap. f_equal. apply IH.
Qed.

Lemma length_rows_year_data year codes :
  completes_each_batch as_completed →
  sum_list_with (λ df : DataFrame num, length (rows df))
    (year_data api as_completed year codes)
  = sum_list_with (unit_rows year) codes.
Proof.
  intros Hc. unfold year_data.
  transitivity (sum_list_with (unit_rows year) (year_units as_completed year codes)).
  2:{ by rewrite (year_units_Permutation as_completed year codes Hc). }
  induction (year_units as_completed year codes) as [|c cs IH]; [done|].
  cbn [fmap list_fmap sum_list_with]. rewrite <- IH.
  unfold unit_rows. cbn zeta.
  destruct (df_empty (fetch_single api year c)) eqn:E.
  - by rewrite filter_cons_False by (by rewrite E).
  - by rewrite filter_cons_True by done.
Qed.

Lemma length_rows_year_tables years codes :
  completes_each_batch as_completed →
  sum_list_with (λ df : DataFrame num, length (rows df))
    (year_tables api as_completed years codes)
  = run_rows years codes.
Proof.
  intros Hc. unfold run_rows.
  induction years as [|y ys IH]; [done|].
  rewrite year_tables_cons, sum_list_with_app, IH.
  cbn [sum_list_with]. f_equal.
  rewrite <- (length_rows_year_data y codes Hc).
  destruct (year_data api as_completed y codes) as [|d ds] eqn:E; [done|].
  cbn [sum_list_with]. rewrite length_rows_concat_frames.
  cbn [sum_list_with]. lia.
Qed.

Lemma year_data_no_data year codes :
  (∀ code, df_empty (fetch_single api year code) = true) →
  year_data api as_completed year codes = [].
Proof.
  intros Hno. unfold year_data. apply filter_none.
  intros df (code & -> & _)%list_elem_of_fmap. by rewrite Hno.
Qed.

Lemma fetch_years_no_data years codes :
  (∀ year code, df_empty (fetch_single api year code) = true) →
  fetch_years api as_completed to_csv years codes = Ok [].
Proof.
  intros Hno. induction years as [|y ys IH]; [done|].
  cbn [fetch_years]. rewrite year_data_no_data by done.
  cbn [mbind result_bind]. rewrite IH. done.
Qed.

Lemma fetch_years_unwritable e years codes year :
  (∀ target df, to_csv target df = Raise e) →
  year ∈ years → year_data api as_completed year codes ≠ [] →
  fetch_years api as_completed to_csv years codes = Raise e.
Proof.
  intros Hw Hy Hdata. induction years as [|y ys IH]; [by apply elem_of_nil in Hy|].
  cbn [fetch_years].
  destruct (year_data api as_completed y codes) as [|d ds] eqn:E.
  - cbn [mbind result_bind]. rewrite IH; [done|].
    apply elem_of_cons in Hy as [->|Hy]; [congruence|done].
  - by rewrite Hw.
Qed.

End FetcherFacts.

(** X4. No row is lost or repeated by the fetch.  When the service hands
    over proper frames, every batch completes as a whole and the files can
    be written, the run returns a
    table with at most as many rows as the units of the run hold together
    (a unit whose table is empty, because it failed or came back without
    rows or without columns, counts for none), and with exactly as many
    under the partner wildcard [all]. *)
Theorem fetch_keeps_the_row_count {num : Type}
    (api : Z → string → api_outcome num)
    (as_completed : Z → list string → list string)
    (to_csv : csv_target → DataFrame num → result unit)
    (str_upper : string → string)
    (cfg : config) (COUNTRY_MAP : gmap string string) :
  api_well_formed api →
  completes_each_batch as_completed →
  writes_succeed to_csv →
  let total :=
    run_rows api (YEARS cfg) (get_reporter_codes str_upper cfg COUNTRY_MAP) in
  ∃ final,
    fetch_un_comtrade_data api as_completed to_csv str_upper cfg COUNTRY_MAP
    = Ok final
    ∧ length (rows final) ≤ total
    ∧ (PARTNERS cfg = ["all"] → length (rows final) = total).
Proof.
  intros _ Hc Hw total. eexists. split; [by apply fetch_un_comtrade_data_Ok|].
  set (merged := concat_frames _).
  assert (Hm : length (rows merged) = total).
  { unfold merged. rewrite length_rows_concat_frames.
    by apply length_rows_year_tables. }
  unfold partner_filter, get_partner_iso_list.
  destruct (decide (PARTNERS cfg = ["all"])) as [Hall|Hall].
  { split; [lia|done]. }
  split; [|done].
  destruct (decide _); [|lia]. cbn [filter_isin rows].
  rewrite <- Hm. apply length_filter.
Qed.

Module DemoRows.

(** Two years, two reporters; Thailand answers in 2015 only, the United
    States in both years. *)
Definition cfg : config :=
  Config [2015%Z; 2016%Z] ["THA"; "USA"] ["all"] ["contig"].

Definition api (year : Z) (code : string) : api_outcome Z :=
  if bool_decide (code = "842") then ApiReturns (RespFrame DemoFailure.table_usa)
  else if bool_decide (year = 2015%Z) then ApiReturns (RespFrame DemoPartner.table)
  else ApiRaises.

(** The output directory cannot be written. *)
Definition to_csv_fails (target : csv_target) (df : DataFrame Z) : result unit :=
  Raise ValueError.

Lemma rows_api_ok : api_well_formed api.
Proof.
  intros year code df. unfold api.
  case_bool_decide; [|case_bool_decide; [|done]]; intros [= <-]; split;
    try (apply (bool_decide_unpack _); vm_compute; exact I);
    repeat constructor.
Qed.

Lemma api_down_ok : api_well_formed Demo.api_down.
Proof. by intros year code df. Qed.

End DemoRows.

Lemma fetch_keeps_the_row_count_witness :
  api_well_formed DemoRows.api
  ∧ completes_each_batch Demo.in_order
  ∧ writes_succeed Demo.to_csv
  ∧ run_rows DemoRows.api (YEARS DemoRows.cfg)
      (get_reporter_codes Demo.str_upper DemoRows.cfg Demo.COUNTRY_MAP) = 5
  ∧ ∃ final,
      fetch_un_comtrade_data DemoRows.api Demo.in_order Demo.to_csv
        Demo.str_upper DemoRows.cfg Demo.COUNTRY_MAP = Ok final
      ∧ length (rows final) = 5.
Proof.
  assert (H1 : completes_each_batch Demo.in_order) by (intros y g; reflexivity).
  assert (H2 : writes_succeed Demo.to_csv) by (intros t df; reflexivity).
  split; [exact DemoRows.rows_api_ok|].
  split; [exact H1|]. split; [exact H2|]. split; [vm_compute; reflexivity|].
  destruct (fetch_keeps_the_row_count DemoRows.api Demo.in_order Demo.to_csv
              Demo.str_upper DemoRows.cfg Demo.COUNTRY_MAP
              DemoRows.rows_api_ok H1 H2)
    as (final & Hrun & _ & Hall).
  exists final. split; [exact Hrun|]. exact (Hall eq_refl).
Defined.

(** X5. Only the service is guarded; a write is not.  When no unit has
    data (every unit raises, or comes back empty) the run returns the
    empty table without writing any file, so it succeeds even where
    nothing can be written.  When nothing can be written and some unit of
    the run has data, the exception of the write ends the run. *)
Theorem write_failure_ends_the_run {num : Type}
    (api : Z → string → api_outcome num)
    (as_completed : Z → list string → list string)
    (to_csv : csv_target → DataFrame num → result unit)
    (str_upper : string → string)
    (cfg : config) (COUNTRY_MAP : gmap string string) (e : exn) :
  api_well_formed api →
  completes_each_batch as_completed →
  (∀ target df, to_csv target df = Raise e) →
  let codes := get_reporter_codes str_upper cfg COUNTRY_MAP in
  ((∀ year code, df_empty (fetch_single api year code) = true) →
   fetch_un_comtrade_data api as_completed to_csv str_upper cfg COUNTRY_MAP
   = Ok empty_frame)
  ∧ (∀ year code,
       year ∈ YEARS cfg → code ∈ codes →
       df_empty (fetch_single api year code) = false →
       fetch_un_comtrade_data api as_completed to_csv str_upper cfg COUNTRY_MAP
       = Raise e).
Proof.
  intros _ Hc Hw codes. split.
  - intros Hno. unfold fetch_un_comtrade_data.
    destruct (get_reporter_codes _ _ _); [done|].
    by rewrite fetch_years_no_data.
  - intros year code Hy Hcode Hdata. unfold fetch_un_comtrade_data.
    fold codes. destruct codes as [|c0 cs] eqn:E; [by apply elem_of_nil in Hcode|].
    rewrite (fetch_years_unwritable api as_completed to_csv e _ _ year); try done.
    intros Hnil.
    assert (Hin : fetch_single api year code
                  ∈ year_data api as_completed year (c0 :: cs)).
    { apply elem_of_year_data. split; [done|]. exists code. split; [|done].
      by rewrite (year_units_Permutation as_completed year _ Hc). }
    rewrite Hnil in Hin. by apply elem_of_nil in Hin.
Qed.

Lemma write_failure_ends_the_run_witness :
  api_well_formed DemoRows.api
  ∧ completes_each_batch Demo.in_order
  ∧ (∀ target df, DemoRows.to_csv_fails target df = Raise ValueError)
  ∧ fetch_un_comtrade_data Demo.api_down Demo.in_order DemoRows.to_csv_fails
      Demo.str_upper DemoRows.cfg Demo.COUNTRY_MAP = Ok empty_frame
  ∧ fetch_un_comtrade_data DemoRows.api Demo.in_order DemoRows.to_csv_fails
      Demo.str_upper DemoRows.cfg Demo.COUNTRY_MAP = Raise ValueError.
Proof.
  assert (H1 : completes_each_batch Demo.in_order) by (intros y g; reflexivity).
  assert (H2 : ∀ target df, DemoRows.to_csv_fails target df = Raise ValueError)
    by (intros t df; reflexivity).
  split; [exact DemoRows.rows_api_ok|].
  split; [exact H1|]. split; [exact H2|]. split.
  - apply (proj1 (write_failure_ends_the_run Demo.api_down Demo.in_order
                    DemoRows.to_csv_fails Demo.str_upper DemoRows.cfg
                    Demo.COUNTRY_MAP ValueError DemoRows.api_down_ok H1 H2)).
    intros year code. reflexivity.
  - apply (proj2 (write_failure_ends_the_run DemoRows.api Demo.in_order
                    DemoRows.to_csv_fails Demo.str_upper DemoRows.cfg
                    Demo.COUNTRY_MAP ValueError DemoRows.rows_api_ok H1 H2)
             2016%Z "842").
    + simpl. right. left.
    + apply (bool_decide_unpack _). vm_compute. exact I.
    + reflexivity.
Defined.

(** *** Proper frames *)

Section ProperFrames.

Context {num : Type}.

Lemma well_formed_empty_frame : well_formed (@empty_frame num).
Proof. split; [apply NoDup_nil_2|constructor]. Qed.

Lemma well_formed_concat_frames (frames : list (DataFrame num)) :
  well_formed (concat_frames frames).
Proof.
  split.
  - cbn [concat_frames columns]. apply NoDup_union_labels, NoDup_nil_2.
  - unfold aligned. apply Forall_forall. intros r'.
    intros (df & r & _ & _ & ->)%elem_of_rows_concat_frames.
    unfold reindex. by rewrite length_fmap.
Qed.

Lemma well_formed_partner_filter cfg (merged : DataFrame num) :
  well_formed merged → well_formed (partner_filter cfg merged).
Proof.
  intros [Hnd Hal]. unfold partner_filter.
  destruct (get_partner_iso_list cfg); [|done].
  destruct (decide _); [|done]. split; [done|].
  unfold aligned in *. cbn [filter_isin columns rows].
  rewrite Forall_forall in *. intros r [_ Hr]%list_elem_of_filter. by apply Hal.
Qed.

End ProperFrames.

(** X6. When the service hands over proper frames, the table
    [fetch_un_comtrade_data] returns is a proper frame: no label occurs
    twice and every row has one cell per label, whichever units answered
    with a frame, with records or not at all.  It is therefore a trade
    table of the kind the facts about the merge are stated for. *)
Theorem fetch_returns_a_proper_frame {num : Type}
    (api : Z → string → api_outcome num)
    (as_completed : Z → list string → list string)
    (to_csv : csv_target → DataFrame num → result unit)
    (str_upper : string → string)
    (cfg : config) (COUNTRY_MAP : gmap string string) (final : DataFrame num) :
  api_well_formed api →
  fetch_un_comtrade_data api as_completed to_csv str_upper cfg COUNTRY_MAP
  = Ok final →
  well_formed final.
Proof.
  intros _. unfold fetch_un_comtrade_data.
  destruct (get_reporter_codes _ _ _) as [|c0 codes].
  { intros [= <-]. apply well_formed_empty_frame. }
  destruct (fetch_years _ _ _ _ _) as [[|t ts]|]; cbn [mbind result_bind].
  - intros [= <-]. apply well_formed_empty_frame.
  - destruct (to_csv _ _); cbn [mbind result_bind]; [|by intros [=]].
    intros [= <-]. apply well_formed_partner_filter, well_formed_concat_frames.
  - by intros [=].
Qed.

Lemma fetch_returns_a_proper_frame_witness :
  api_well_formed DemoFailure.api
  ∧ fetch_un_comtrade_data DemoFailure.api Demo.in_order Demo.to_csv
    Demo.str_upper DemoFailure.cfg Demo.COUNTRY_MAP
  = Ok (Frame DemoFailure.labels [DemoFailure.row_tha])
  ∧ well_formed (Frame DemoFailure.labels [DemoFailure.row_tha]).
Proof.
  split; [exact DemoFailure.failure_api_ok|].
  split; [exact DemoFailure.run_eq|].
  exact (fetch_returns_a_proper_frame DemoFailure.api Demo.in_order Demo.to_csv
           Demo.str_upper DemoFailure.cfg Demo.COUNTRY_MAP
           (Frame DemoFailure.labels [DemoFailure.row_tha])
           DemoFailure.failure_api_ok DemoFailure.run_eq).
Defined.

(** ** Pairwise normalizer *)

Lemma key_a_sym o d : key_a o d = key_a d o.
Proof.
  unfold key_a. destruct (Str.lt o d) eqn:Hod.
  - by rewrite (Str.lt_asym _ _ Hod).
  - destruct (Str.lt d o) eqn:Hdo; [done|]. by apply Str.not_lt_eq.
Qed.

Lemma key_b_sym o d : key_b o d = key_b d o.
Proof.
  unfold key_b. destruct (Str.lt o d) eqn:Hod.
  - by rewrite (Str.lt_asym _ _ Hod).
  - destruct (Str.lt d o) eqn:Hdo; [done|]. symmetry. by apply Str.not_lt_eq.
Qed.

(** A string without the separator of the symmetric key. *)
Definition dash_free (s : string) : Prop :=
  Ascii.ascii_of_N 45 ∉ String.list_ascii_of_string s.

#[export] Instance dash_free_dec s : Decision (dash_free s).
Proof. unfold dash_free. apply _. Defined.

Lemma str_app_cons c (a s : string) : String c a +:+ s = String c (a +:+ s).
Proof. reflexivity. Qed.

Lemma str_app_empty (s : string) : "" +:+ s = s.
Proof. reflexivity. Qed.

(** The two halves of a key can be told apart when the first has no
    separator of its own. *)
Lemma dashed_key_inj (a a' b b' : string) :
  dash_free a → dash_free a' →
  a +:+ "-" +:+ b = a' +:+ "-" +:+ b' → a = a' ∧ b = b'.
Proof.
  unfold dash_free. revert a'.
  induction a as [|c a IH]; intros [|c' a'] Ha Ha' E;
    rewrite ?str_app_cons, ?str_app_empty in E.
  - by injection E as ->.
  - injection E as <- _. exfalso. apply Ha'. left.
  - injection E as -> _. exfalso. apply Ha. left.
  - injection E as -> E. destruct (IH a') as [-> ->]; try done.
    + intros H. apply Ha. by right.
    + intros H. apply Ha'. by right.
Qed.

Section NormalizerFacts.

Context {num : Type}.
Variable to_numeric : string → option num.

(** Without [iso3_o], without [iso3_d] or without a column to keep, the
    normalizer returns the empty table. *)
Lemma prepare_cepii_data_skips cfg labels lines :
  "iso3_o" ∉ labels ∨ "iso3_d" ∉ labels ∨ cols_to_keep_of cfg labels = [] →
  prepare_cepii_data to_numeric cfg (CepiiCsv labels lines) = Ok empty_frame.
Proof.
  intros Hcase. unfold prepare_cepii_data. cbn [read_csv columns].
  set (keep := cols_to_keep_of cfg labels) in *.
  destruct (decide (¬ ("iso3_o" ∈ filter (λ c, c ∈ labels) (["iso3_o"; "iso3_d"] ++ keep)
                       ∧ "iso3_d" ∈ filter (λ c, c ∈ labels) (["iso3_o"; "iso3_d"] ++ keep))))
    as [|Hboth]; [done|].
  apply dec_stable in Hboth. destruct Hboth as [Ho Hd].
  apply list_elem_of_filter in Ho as [Ho _].
  apply list_elem_of_filter in Hd as [Hd _].
  destruct Hcase as [?|[?|E]]; [done|done|].
  rewrite E. cbn [app].
  rewrite (filter_all (λ c, c ∈ labels) ["iso3_o"; "iso3_d"]).
  2:{ intros c [->|[->|[]%elem_of_nil]%elem_of_cons]%elem_of_cons; done. }
  rewrite select_Ok.
  2:{ intros c [->|[->|[]%elem_of_nil]%elem_of_cons]%elem_of_cons; done. }
  cbn [mbind result_bind].
  assert (En : filter (λ c, c ∈ num_cols_all) ["iso3_o"; "iso3_d"] = []).
  { apply (bool_decide_unpack _). vm_compute. exact I. }
  rewrite En. cbn [coerce_columns mbind result_bind].
  reflexivity.
Qed.

(** The table of a proper request, whatever the file holds. *)
Lemma prepare_cepii_data_shape cfg labels lines :
  let keep := cols_to_keep_of cfg labels in
  NoDup labels → proper_request keep →
  prepare_cepii_data to_numeric cfg (CepiiCsv labels lines)
  = Ok (if decide ("iso3_o" ∈ labels ∧ "iso3_d" ∈ labels ∧ keep ≠ [])
        then Frame ("cepii_key" :: keep)
               (normalized_row to_numeric labels lines keep
                  <$> group_keys labels lines)
        else empty_frame).
Proof.
  intros keep Hnd Hreq.
  destruct (decide _) as [(Ho & Hd & Hne)|Hno].
  - by apply prepare_cepii_data_normal.
  - apply prepare_cepii_data_skips.
    destruct (decide ("iso3_o" ∈ labels)); [|by left].
    destruct (decide ("iso3_d" ∈ labels)); [|by right; left].
    right; right. destruct (decide (keep = [])); [done|].
    exfalso. by apply Hno.
Qed.

(** Two lines, each under its own labels, that read the same: the same
    unordered pair, the same value in every kept attribute. *)
Definition same_reading (keep : list string)
    (labels labels' : list string) (line line' : list (option string)) : Prop :=
  line_pair labels line = line_pair labels' line'
  ∧ ∀ c, c ∈ keep →
         attr_value to_numeric labels line c
         = attr_value to_numeric labels' line' c.

Lemma group_keys_ext keep labels labels' lines lines' :
  Forall2 (same_reading keep labels labels') lines lines' →
  group_keys labels lines = group_keys labels' lines'.
Proof.
  intros H. unfold group_keys. do 2 f_equal.
  induction H as [|l l' ls ls' [Hp _] _ IH]; [done|].
  cbn [omap list_omap]. rewrite Hp, IH. done.
Qed.

Lemma group_values_ext keep labels labels' lines lines' k c :
  Forall2 (same_reading keep labels labels') lines lines' → c ∈ keep →
  (λ line, attr_value to_numeric labels line c) <$> group_of labels lines k
  = (λ line, attr_value to_numeric labels' line c) <$> group_of labels' lines' k.
Proof.
  intros H Hc. unfold group_of.
  induction H as [|l l' ls ls' [Hp Hv] _ IH]; [done|].
  destruct (decide (line_pair labels l = Some k)) as [E|E].
  - rewrite filter_cons_True by done.
    rewrite filter_cons_True by (by rewrite <- Hp).
    cbn [fmap list_fmap]. f_equal; [by apply Hv|apply IH].
  - rewrite filter_cons_False by done.
    rewrite filter_cons_False by (by rewrite <- Hp).
    apply IH.
Qed.

Lemma normalized_rows_ext keep labels labels' lines lines' :
  Forall2 (same_reading keep labels labels') lines lines' →
  normalized_row to_numeric labels lines keep <$> group_keys labels lines
  = normalized_row to_numeric labels' lines' keep <$> group_keys labels' lines'.
Proof.
  intros H. rewrite (group_keys_ext _ _ _ _ _ H).
  apply list_fmap_ext. intros _ k _. unfold normalized_row. f_equal.
  apply list_fmap_ext. intros i c Hi. f_equal.
  apply (group_values_ext keep); [done|]. by eapply list_elem_of_lookup_2.
Qed.

Lemma attr_value_cell labels labels' (line line' : list (option string)) c :
  cell_at labels line c = cell_at labels' line' c →
  attr_value to_numeric labels line c = attr_value to_numeric labels' line' c.
Proof. intros E. unfold attr_value, raw_value. by rewrite E. Qed.

End NormalizerFacts.

(** The same pair and the same attribute values, origin and destination
    exchanged. *)
Definition mirrored (labels : list string) (line line' : list (option string))
  : Prop :=
  cell_at labels line' "iso3_o" = cell_at labels line "iso3_d"
  ∧ cell_at labels line' "iso3_d" = cell_at labels line "iso3_o"
  ∧ ∀ c, c ≠ "iso3_o" → c ≠ "iso3_d" →
         cell_at labels line' c = cell_at labels line c.

Lemma proper_request_not_iso keep c :
  proper_request keep → c ∈ keep → c ≠ "iso3_o" ∧ c ≠ "iso3_d".
Proof.
  intros [_ Hres] Hc. specialize (Hres c Hc). unfold reserved_labels in Hres.
  rewrite !not_elem_of_cons in Hres. tauto.
Qed.

(** X7. The direction in which the file states a pair does not matter:
    exchanging origin and destination in any of its lines leaves the
    normalized table as it is. *)
Theorem direction_of_a_line_is_irrelevant {num : Type}
    (to_numeric : string → option num) (cfg : config)
    (labels : list string) (lines lines' : list (list (option string))) :
  NoDup labels →
  proper_request (cols_to_keep_of cfg labels) →
  Forall2 (λ line line', line' = line ∨ mirrored labels line line') lines lines' →
  prepare_cepii_data to_numeric cfg (CepiiCsv labels lines')
  = prepare_cepii_data to_numeric cfg (CepiiCsv labels lines).
Proof.
  intros Hnd Hreq Hlines.
  rewrite !prepare_cepii_data_shape by done. cbn zeta.
  destruct (decide _); [|done]. do 2 f_equal.
  apply (normalized_rows_ext to_numeric (cols_to_keep_of cfg labels)).
  apply Forall2_flip. eapply Forall2_impl; [exact Hlines|].
  intros line line' [->|(Ho & Hd & Hc)]; [done|]. split.
  - unfold line_pair. rewrite Ho, Hd.
    destruct (cell_at labels line "iso3_o") as [o|],
             (cell_at labels line "iso3_d") as [d|]; try done.
    by rewrite key_a_sym, key_b_sym.
  - intros c Hin. apply attr_value_cell.
    destruct (proper_request_not_iso _ c Hreq Hin). by apply Hc.
Qed.

Module DemoMirror.

(** The lines of [DemoCepii] with the second one turned round. *)
Definition lines' : list (list (option string)) :=
  [ [Some "THA"; Some "USA"; Some "0"; None; Some "12.5e3"];
    [Some "THA"; Some "USA"; None; Some "1"; Some "9"] ].

Lemma turned :
  Forall2 (λ line line', line' = line ∨ mirrored DemoCepii.labels line line')
    DemoCepii.lines lines'.
Proof.
  constructor; [by left|]. constructor; [|constructor]. right.
  split; [reflexivity|]. split; [reflexivity|]. intros c Ho Hd.
  cbn [cell_at DemoCepii.labels].
  destruct (decide ("iso3_o" = c)) as [<-|_]; [done|].
  destruct (decide ("iso3_d" = c)) as [<-|_]; [done|].
  reflexivity.
Qed.

End DemoMirror.

Lemma direction_of_a_line_is_irrelevant_witness :
  NoDup DemoCepii.labels
  ∧ proper_request (cols_to_keep_of DemoCepii.cfg DemoCepii.labels)
  ∧ prepare_cepii_data DemoCepii.to_numeric DemoCepii.cfg
      (CepiiCsv DemoCepii.labels DemoMirror.lines')
    = prepare_cepii_data DemoCepii.to_numeric DemoCepii.cfg
        (CepiiCsv DemoCepii.labels DemoCepii.lines).
Proof.
  assert (H1 : NoDup DemoCepii.labels)
    by (apply (bool_decide_unpack _); vm_compute; exact I).
  split; [exact H1|]. split; [exact demo_cepii_proper|].
  exact (direction_of_a_line_is_irrelevant DemoCepii.to_numeric DemoCepii.cfg
           DemoCepii.labels DemoCepii.lines DemoMirror.lines'
           H1 demo_cepii_proper DemoMirror.turned).
Defined.

(** X8. Only the identities and the kept attributes count.  Two files
    with the same kept attributes whose lines agree, one by one, on
    [iso3_o], [iso3_d] and every kept attribute yield the same normalized
    table, whatever other columns they have and in whatever order their
    columns stand. *)
Theorem unrequested_columns_are_irrelevant {num : Type}
    (to_numeric : string → option num) (cfg : config)
    (labels labels' : list string) (lines lines' : list (list (option string))) :
  let keep := cols_to_keep_of cfg labels in
  NoDup labels → NoDup labels' →
  proper_request keep →
  cols_to_keep_of cfg labels' = keep →
  ("iso3_o" ∈ labels ↔ "iso3_o" ∈ labels') →
  ("iso3_d" ∈ labels ↔ "iso3_d" ∈ labels') →
  Forall2 (λ line line',
             ∀ c, c ∈ "iso3_o" :: "iso3_d" :: keep →
                  cell_at labels line c = cell_at labels' line' c)
          lines lines' →
  prepare_cepii_data to_numeric cfg (CepiiCsv labels lines)
  = prepare_cepii_data to_numeric cfg (CepiiCsv labels' lines').
Proof.
  intros keep Hnd Hnd' Hreq Hkeep Ho Hd Hlines.
  rewrite (prepare_cepii_data_shape to_numeric cfg labels) by done.
  rewrite (prepare_cepii_data_shape to_numeric cfg labels')
    by (by rewrite ?Hkeep).
  cbn zeta. rewrite Hkeep. fold keep.
  destruct (decide ("iso3_o" ∈ labels ∧ "iso3_d" ∈ labels ∧ keep ≠ []))
    as [H|H], (decide ("iso3_o" ∈ labels' ∧ "iso3_d" ∈ labels' ∧ keep ≠ []))
    as [H'|H']; try done; try tauto.
  do 2 f_equal. apply (normalized_rows_ext to_numeric keep).
  eapply Forall2_impl; [exact Hlines|].
  intros line line' Hc. split.
  - unfold line_pair.
    rewrite (Hc "iso3_o") by (by left).
    rewrite (Hc "iso3_d") by (by right; left). done.
  - intros c Hin. apply attr_value_cell, Hc. by do 2 right.
Qed.

Module DemoColumns.

(** The file of [DemoCepii] without its [gdp_o] column read first and with
    a column nobody asked for. *)
Definition labels' : list string :=
  ["gdp_o"; "iso3_d"; "iso3_o"; "contig"; "comlang_off"; "pop_o"].

Definition lines' : list (list (option string)) :=
  [ [Some "12.5e3"; Some "USA"; Some "THA"; Some "0"; None; Some "66"];
    [Some "9"; Some "THA"; Some "USA"; None; Some "1"; Some "320"] ].

Lemma agree :
  Forall2 (λ line line',
             ∀ c, c ∈ "iso3_o" :: "iso3_d"
                      :: cols_to_keep_of DemoCepii.cfg DemoCepii.labels →
                  cell_at DemoCepii.labels line c = cell_at labels' line' c)
    DemoCepii.lines lines'.
Proof.
  repeat constructor; intros c Hc; vm_compute in Hc;
    repeat (apply elem_of_cons in Hc as [->|Hc]; [reflexivity|]);
    by apply elem_of_nil in Hc.
Qed.

End DemoColumns.

Lemma unrequested_columns_are_irrelevant_witness :
  NoDup DemoCepii.labels ∧ NoDup DemoColumns.labels'
  ∧ prepare_cepii_data DemoCepii.to_numeric DemoCepii.cfg
      (CepiiCsv DemoCepii.labels DemoCepii.lines)
    = prepare_cepii_data DemoCepii.to_numeric DemoCepii.cfg
        (CepiiCsv DemoColumns.labels' DemoColumns.lines').
Proof.
  assert (H1 : NoDup DemoCepii.labels)
    by (apply (bool_decide_unpack _); vm_compute; exact I).
  assert (H2 : NoDup DemoColumns.labels')
    by (apply (bool_decide_unpack _); vm_compute; exact I).
  split; [exact H1|]. split; [exact H2|].
  apply (unrequested_columns_are_irrelevant DemoCepii.to_numeric DemoCepii.cfg
           DemoCepii.labels DemoColumns.labels' DemoCepii.lines
           DemoColumns.lines' H1 H2 demo_cepii_proper).
  - vm_compute. reflexivity.
  - split; intros _; apply (bool_decide_unpack _); vm_compute; exact I.
  - split; intros _; apply (bool_decide_unpack _); vm_compute; exact I.
  - exact DemoColumns.agree.
Defined.

(** The line names both countries of its pair. *)
Definition has_identity (labels : list string) (line : list (option string))
  : Prop :=
  is_Some (cell_at labels line "iso3_o") ∧ is_Some (cell_at labels line "iso3_d").

#[export] Instance has_identity_dec labels line : Decision (has_identity labels line).
Proof. unfold has_identity. apply _. Defined.

Lemma line_pair_None labels line :
  ¬ has_identity labels line → line_pair labels line = None.
Proof.
  unfold has_identity, line_pair. intros H.
  destruct (cell_at labels line "iso3_o"), (cell_at labels line "iso3_d");
    try done.
  exfalso. apply H. split; by eexists.
Qed.

(** Where two readings of the kept attributes are both missing or both
    present on every entry, the first entry with a value is the same for
    both. *)
Lemma first_nonnull_alike {A num} (f g : A → cell num) (l : list A) :
  (∀ x, f x = None ↔ g x = None) →
  (first_nonnull (f <$> l) = None ∧ first_nonnull (g <$> l) = None)
  ∨ ∃ x, x ∈ l ∧ first_nonnull (f <$> l) = f x ∧ first_nonnull (g <$> l) = g x.
Proof.
  intros Hfg. induction l as [|x l IH]; [by left|].
  cbn [fmap list_fmap first_nonnull].
  destruct (f x) as [v|] eqn:Ef.
  - right. exists x. split; [by left|]. split; [done|].
    destruct (g x) as [w|] eqn:Eg; [done|].
    apply Hfg in Eg. congruence.
  - pose proof (proj1 (Hfg x) Ef) as Eg. rewrite Eg.
    destruct IH as [IH|(y & Hy & IH)]; [by left|].
    right. exists y. split; [by right|done].
Qed.

Lemma attr_value_None_alike {num} (to_numeric to_numeric' : string → option num)
    labels (line : list (option string)) c :
  (∀ s, to_numeric s = None ↔ to_numeric' s = None) →
  attr_value to_numeric labels line c = None
  ↔ attr_value to_numeric' labels line c = None.
Proof.
  intros Hsame. unfold attr_value, raw_value.
  destruct (decide (c ∈ num_cols_all)); [|done].
  destruct (cell_at labels line c) as [s|]; [|done].
  cbn [fmap option_fmap option_map to_numeric_cell].
  specialize (Hsame s).
  destruct (to_numeric s), (to_numeric' s); cbn; split; intros H; try done.
  - exfalso. destruct Hsame as [_ Hb]. by specialize (Hb eq_refl).
  - exfalso. destruct Hsame as [Ha _]. by specialize (Ha eq_refl).
Qed.

Lemma line_pair_has_identity labels (line : list (option string)) k :
  line_pair labels line = Some k → has_identity labels line.
Proof.
  unfold line_pair, has_identity.
  by destruct (cell_at labels line "iso3_o"), (cell_at labels line "iso3_d").
Qed.

Lemma group_keys_with_identity labels (lines : list (list (option string))) :
  group_keys labels (filter (has_identity labels) lines) = group_keys labels lines.
Proof.
  unfold group_keys. do 2 f_equal.
  induction lines as [|l ls IH]; [done|].
  destruct (decide (has_identity labels l)) as [H|H].
  - rewrite filter_cons_True by done. cbn [omap list_omap]. by rewrite IH.
  - rewrite filter_cons_False by done. cbn [omap list_omap].
    by rewrite (line_pair_None _ _ H).
Qed.

Lemma group_of_with_identity labels (lines : list (list (option string))) k :
  group_of labels (filter (has_identity labels) lines) k = group_of labels lines k.
Proof.
  unfold group_of.
  induction lines as [|l ls IH]; [done|].
  destruct (decide (has_identity labels l)) as [H|H].
  - rewrite (filter_cons_True (has_identity labels)) by done.
    destruct (decide (line_pair labels l = Some k)).
    + rewrite !filter_cons_True by done. by rewrite IH.
    + rewrite !filter_cons_False by done. apply IH.
  - rewrite (filter_cons_False (has_identity labels)) by done.
    rewrite filter_cons_False by (by rewrite (line_pair_None _ _ H)).
    apply IH.
Qed.

(** X9. A line whose [iso3_o] or [iso3_d] is missing takes no part in the
    normalized table.  On the file and on the file without such lines the
    normalizer returns tables with the same labels and the same keys in the
    same order, and every attribute cell is missing in both tables or read
    in both from one line that has both identities.  A column is coerced as
    a whole, so removing lines may change how its numbers are represented;
    the two runs are therefore given their own numeric reading, the two
    agreeing only on which texts are numbers. *)
Theorem lines_without_identity_are_dropped {num : Type}
    (to_numeric to_numeric' : string → option num) (cfg : config)
    (labels : list string) (lines : list (list (option string))) :
  NoDup labels →
  proper_request (cols_to_keep_of cfg labels) →
  (∀ s, to_numeric s = None ↔ to_numeric' s = None) →
  let keep := cols_to_keep_of cfg labels in
  let named := filter (has_identity labels) lines in
  ∃ out out',
    prepare_cepii_data to_numeric cfg (CepiiCsv labels lines) = Ok out
    ∧ prepare_cepii_data to_numeric' cfg (CepiiCsv labels named) = Ok out'
    ∧ columns out' = columns out
    ∧ Forall2
        (λ r r',
           length r = length (columns out) ∧ length r' = length (columns out)
           ∧ cell_at (columns out) r' "cepii_key"
             = cell_at (columns out) r "cepii_key"
           ∧ ∀ c, c ∈ keep →
               (cell_at (columns out) r c = None
                ∧ cell_at (columns out) r' c = None)
               ∨ ∃ line, line ∈ named
                   ∧ cell_at (columns out) r c
                     = attr_value to_numeric labels line c
                   ∧ cell_at (columns out) r' c
                     = attr_value to_numeric' labels line c)
        (rows out) (rows out').
Proof.
  intros Hnd Hreq Hsame keep named.
  rewrite !prepare_cepii_data_shape by done. fold keep. unfold named.
  destruct (decide _) as [_|_].
  2:{ exists empty_frame, empty_frame. split_and!; done. }
  eexists _, _. split; [reflexivity|]. split; [reflexivity|].
  cbn [columns rows]. split; [done|].
  rewrite group_keys_with_identity.
  apply Forall2_fmap, Forall_Forall2_diag, Forall_forall. intros k _.
  assert (Hk : "cepii_key" ∉ keep).
  { intros Hin. destruct Hreq as [_ Hres]. apply (Hres _ Hin).
    apply (bool_decide_unpack _). vm_compute. exact I. }
  destruct (cell_at_normalized_row to_numeric labels lines keep k Hk)
    as [Hkey Hval].
  destruct (cell_at_normalized_row to_numeric' labels
              (filter (has_identity labels) lines) keep k Hk) as [Hkey' Hval'].
  split_and!.
  - unfold normalized_row. cbn [length]. by rewrite length_fmap.
  - unfold normalized_row. cbn [length]. by rewrite length_fmap.
  - by rewrite Hkey, Hkey'.
  - intros c Hc. rewrite (Hval c Hc), (Hval' c Hc), group_of_with_identity.
    destruct (first_nonnull_alike
                (λ line, attr_value to_numeric labels line c)
                (λ line, attr_value to_numeric' labels line c)
                (group_of labels lines k)) as [H|(line & Hline & H1 & H2)].
    + intros line. by apply attr_value_None_alike.
    + by left.
    + right. exists line. split; [|done].
      unfold group_of in Hline. apply list_elem_of_filter in Hline as [Hp Hin].
      apply list_elem_of_filter. split; [|done].
      by eapply line_pair_has_identity.
Qed.

Module DemoGaps.

(** The lines of [DemoCepii] and two that lack an identity. *)
Definition lines : list (list (option string)) :=
  [ [None; Some "USA"; Some "1"; Some "0"; Some "1"];
    [Some "THA"; Some "USA"; Some "0"; None; Some "12.5e3"];
    [Some "USA"; None; Some "1"; Some "0"; Some "2"];
    [Some "USA"; Some "THA"; None; Some "1"; Some "9"] ].

(** A reading of the same texts that drops the last bit, as a column of
    floats does to a large integer. *)
Definition rounded (s : string) : option Z :=
  (λ n, 2 * (n / 2))%Z <$> DemoCepii.to_numeric s.

End DemoGaps.

Lemma lines_without_identity_are_dropped_witness :
  NoDup DemoCepii.labels
  ∧ proper_request (cols_to_keep_of DemoCepii.cfg DemoCepii.labels)
  ∧ (∀ s, DemoCepii.to_numeric s = None ↔ DemoGaps.rounded s = None)
  ∧ filter (has_identity DemoCepii.labels) DemoGaps.lines = DemoCepii.lines
  ∧ ∃ out out',
      prepare_cepii_data DemoCepii.to_numeric DemoCepii.cfg
        (CepiiCsv DemoCepii.labels DemoGaps.lines) = Ok out
      ∧ prepare_cepii_data DemoGaps.rounded DemoCepii.cfg
          (CepiiCsv DemoCepii.labels
             (filter (has_identity DemoCepii.labels) DemoGaps.lines)) = Ok out'
      ∧ columns out' = columns out
      ∧ length (rows out') = length (rows out).
Proof.
  assert (H1 : NoDup DemoCepii.labels)
    by (apply (bool_decide_unpack _); vm_compute; exact I).
  assert (H2 : ∀ s, DemoCepii.to_numeric s = None ↔ DemoGaps.rounded s = None).
  { intros s. unfold DemoGaps.rounded.
    destruct (DemoCepii.to_numeric s); cbn; split; intros H; done. }
  split; [exact H1|]. split; [exact demo_cepii_proper|]. split; [exact H2|].
  split; [vm_compute; reflexivity|].
  destruct (lines_without_identity_are_dropped DemoCepii.to_numeric
              DemoGaps.rounded DemoCepii.cfg DemoCepii.labels DemoGaps.lines
              H1 demo_cepii_proper H2) as (out & out' & E & E' & Hc & Hr).
  exists out, out'. split; [exact E|]. split; [exact E'|]. split; [exact Hc|].
  symmetry. by eapply Forall2_length.
Defined.

Lemma group_key_parts labels lines k :
  k ∈ group_keys labels lines →
  ∃ line o d, line ∈ lines
    ∧ cell_at labels line "iso3_o" = Some o
    ∧ cell_at labels line "iso3_d" = Some d
    ∧ k = (key_a o d, key_b o d).
Proof.
  intros (line & Hline & Hp)%elem_of_group_keys. unfold line_pair in Hp.
  destruct (cell_at labels line "iso3_o") as [o|] eqn:Eo; [|done].
  destruct (cell_at labels line "iso3_d") as [d|] eqn:Ed; [|done].
  injection Hp as <-. by exists line, o, d.
Qed.

(** X10. The normalized table can serve as the right side of the merge:
    when no country code of the file contains the separator [-], no two of
    its rows carry the same [cepii_key]. *)
Theorem normalized_keys_are_unique {num : Type} `{!EqDecision num}
    (to_numeric : string → option num) (cfg : config)
    (labels : list string) (lines : list (list (option string)))
    (out : DataFrame num) :
  NoDup labels →
  proper_request (cols_to_keep_of cfg labels) →
  (∀ line c s, line ∈ lines → c ∈ ["iso3_o"; "iso3_d"] →
               cell_at labels line c = Some s → dash_free s) →
  prepare_cepii_data to_numeric cfg (CepiiCsv labels lines) = Ok out →
  cepii_unique out.
Proof.
  intros Hnd Hreq Hdash. rewrite prepare_cepii_data_shape by done. cbn zeta.
  intros [= <-]. destruct (decide _) as [_|_]; [|by intros i j r1 r2 [=]].
  set (keep := cols_to_keep_of cfg labels) in *.
  assert (Hck : "cepii_key" ∉ keep).
  { intros Hc. apply (proj2 Hreq _ Hc). unfold reserved_labels. by do 4 right; left. }
  assert (Hfirst : ∀ k, k ∈ group_keys labels lines → dash_free k.1).
  { intros k (line & o & d & Hline & Eo & Ed & ->)%group_key_parts.
    cbn [fst]. unfold key_a. destruct (Str.lt o d).
    - apply (Hdash line "iso3_o" o); [done|by left|done].
    - apply (Hdash line "iso3_d" d); [done|by right; left|done]. }
  intros i j r1 r2. cbn [rows columns]. rewrite !list_lookup_fmap.
  destruct (group_keys labels lines !! i) as [k1|] eqn:E1; [|done].
  destruct (group_keys labels lines !! j) as [k2|] eqn:E2; [|done].
  cbn [fmap option_fmap option_map]. intros [= <-] [= <-].
  rewrite !(proj1 (cell_at_normalized_row to_numeric labels lines keep _ Hck)).
  intros [= E].
  apply dashed_key_inj in E as [Ea Eb].
  2,3: apply Hfirst; by eapply list_elem_of_lookup_2.
  assert (k1 = k2) as <- by (destruct k1, k2; simpl in *; congruence).
  by apply (NoDup_lookup _ i j k1 (NoDup_group_keys labels lines)).
Qed.

Lemma normalized_keys_are_unique_witness :
  NoDup DemoCepii.labels
  ∧ proper_request (cols_to_keep_of DemoCepii.cfg DemoCepii.labels)
  ∧ prepare_cepii_data DemoCepii.to_numeric DemoCepii.cfg
      (CepiiCsv DemoCepii.labels DemoCepii.lines) = Ok DemoCepii.normalized
  ∧ cepii_unique DemoCepii.normalized.
Proof.
  assert (H1 : NoDup DemoCepii.labels)
    by (apply (bool_decide_unpack _); vm_compute; exact I).
  split; [exact H1|]. split; [exact demo_cepii_proper|].
  split; [exact DemoCepii.normalized_eq|].
  apply (normalized_keys_are_unique DemoCepii.to_numeric DemoCepii.cfg
           DemoCepii.labels DemoCepii.lines DemoCepii.normalized
           H1 demo_cepii_proper); [|exact DemoCepii.normalized_eq].
  intros line c s Hline Hc Hs.
  apply (bool_decide_unpack _).
  repeat (apply elem_of_cons in Hline as [->|Hline]);
    [| |by apply elem_of_nil in Hline];
    (repeat (apply elem_of_cons in Hc as [->|Hc]);
       [| |by apply elem_of_nil in Hc]);
    vm_compute in Hs; injection Hs as <-; vm_compute; exact I.
Defined.
(** *** The order of the normalized table *)

Lemma str_lt_le a b : Str.lt a b = true → String.le a b.
Proof. intros H. apply str_le_iff. by right. Qed.

Lemma str_lt_le_trans a b c :
  Str.lt a b = true → String.le b c → Str.lt a c = true.
Proof.
  intros Hab Hbc.
  assert (Hac : String.le a c) by (etrans; [by apply str_lt_le|done]).
  apply str_le_iff in Hac as [->|?]; [|done].
  assert (b = c) as -> by (apply (anti_symm String.le); [done|by apply str_lt_le]).
  by rewrite Str.lt_irrefl in Hab.
Qed.

#[export] Instance pair_le_trans : Transitive pair_le.
Proof.
  intros [a1 a2] [b1 b2] [c1 c2]. unfold pair_le. cbn [fst snd].
  intros [Hab|[-> Hab]] [Hbc|[-> Hbc]].
  - left. eapply str_lt_le_trans; [done|by apply str_lt_le].
  - by left.
  - by left.
  - right. split; [done|]. by etrans.
Qed.

#[export] Instance pair_le_total : Total pair_le.
Proof.
  intros [a1 a2] [b1 b2]. unfold pair_le. cbn [fst snd].
  destruct (Str.lt a1 b1) eqn:E1; [by left; left|].
  destruct (Str.lt b1 a1) eqn:E2; [by right; left|].
  assert (a1 = b1) as -> by (by apply Str.not_lt_eq).
  destruct (total String.le a2 b2); [left|right]; by right.
Qed.

(** [p] comes strictly before [q]: by first component, then by second. *)
Definition pair_lt (p q : string * string) : Prop :=
  Str.lt p.1 q.1 = true ∨ (p.1 = q.1 ∧ Str.lt p.2 q.2 = true).

Lemma group_keys_sorted labels lines :
  StronglySorted pair_lt (group_keys labels lines).
Proof.
  pose proof (NoDup_group_keys labels lines) as Hnd.
  assert (Hs : StronglySorted pair_le (group_keys labels lines))
    by apply (StronglySorted_merge_sort pair_le).
  induction Hs as [|k ks Hs IH Hall]; [constructor|].
  apply NoDup_cons in Hnd as [Hk Hnd].
  constructor; [by apply IH|].
  rewrite Forall_forall in *. intros q Hq.
  destruct (Hall q Hq) as [?|[E Hle]]; [by left|].
  right. split; [done|].
  apply str_le_iff in Hle as [E2|?]; [|done].
  exfalso. apply Hk.
  assert (k = q) as -> by (destruct k, q; simpl in *; congruence). done.
Qed.

(** X11. The normalized table is a proper frame in the order of its pairs.
    For a proper request, whatever the file holds, the table has the key
    column first and then the kept attributes in the order of the request,
    no label twice and one cell per label in every row, and its key column
    lists the keys [a-b] of pairs [(a, b)] that go strictly upwards, by [a]
    and then by [b]. *)
Theorem normalized_table_is_ordered {num : Type}
    (to_numeric : string → option num) (cfg : config)
    (labels : list string) (lines : list (list (option string)))
    (out : DataFrame num) :
  let keep := cols_to_keep_of cfg labels in
  NoDup labels →
  proper_request keep →
  prepare_cepii_data to_numeric cfg (CepiiCsv labels lines) = Ok out →
  well_formed out
  ∧ (out = empty_frame ∨ columns out = "cepii_key" :: keep)
  ∧ ∃ pairs,
      StronglySorted pair_lt pairs
      ∧ (λ r, cell_at (columns out) r "cepii_key") <$> rows out
        = (λ k : string * string, Some (VStr (k.1 +:+ "-" +:+ k.2))) <$> pairs.
Proof.
  intros keep Hnd Hreq. rewrite prepare_cepii_data_shape by done. cbn zeta.
  fold keep. intros [= <-].
  destruct (decide _) as [_|_].
  2:{ split_and!; [apply well_formed_empty_frame|by left|].
      exists []. split; [constructor|done]. }
  assert (Hck : "cepii_key" ∉ keep).
  { intros Hc. apply (proj2 Hreq _ Hc). unfold reserved_labels. by do 4 right; left. }
  split_and!.
  - split.
    + cbn [columns]. apply NoDup_cons. split; [done|apply Hreq].
    + unfold aligned. cbn [columns rows]. apply Forall_forall.
      intros r (k & -> & _)%list_elem_of_fmap.
      unfold normalized_row. cbn [length]. by rewrite length_fmap.
  - by right.
  - exists (group_keys labels lines). split; [apply group_keys_sorted|].
    cbn [columns rows]. rewrite <- list_fmap_compose.
    apply list_fmap_ext. intros _ k _. cbn [compose].
    apply (cell_at_normalized_row to_numeric labels lines keep k Hck).
Qed.

Module DemoOrder.

(** Three pairs, stated out of order and in both directions. *)
Definition lines : list (list (option string)) :=
  [ [Some "USA"; Some "THA"; Some "0"; Some "0"; None];
    [Some "THA"; Some "CHN"; Some "0"; Some "0"; None];
    [Some "USA"; Some "CHN"; Some "0"; Some "1"; None];
    [Some "THA"; Some "USA"; Some "1"; Some "1"; None] ].

Definition normalized : DataFrame Z :=
  Frame ["cepii_key"; "contig"; "comlang_off"; "gdp_o"]
    [[Some (VStr "CHN-THA"); Some (VNum 0%Z); Some (VNum 0%Z); None];
     [Some (VStr "CHN-USA"); Some (VNum 0%Z); Some (VNum 1%Z); None];
     [Some (VStr "THA-USA"); Some (VNum 0%Z); Some (VNum 0%Z); None]].

Lemma ordered_eq :
  prepare_cepii_data DemoCepii.to_numeric DemoCepii.cfg
    (CepiiCsv DemoCepii.labels lines) = Ok normalized.
Proof. vm_compute. reflexivity. Qed.

End DemoOrder.

Lemma normalized_table_is_ordered_witness :
  NoDup DemoCepii.labels
  ∧ proper_request (cols_to_keep_of DemoCepii.cfg DemoCepii.labels)
  ∧ prepare_cepii_data DemoCepii.to_numeric DemoCepii.cfg
      (CepiiCsv DemoCepii.labels DemoOrder.lines) = Ok DemoOrder.normalized
  ∧ well_formed DemoOrder.normalized.
Proof.
  assert (H1 : NoDup DemoCepii.labels)
    by (apply (bool_decide_unpack _); vm_compute; exact I).
  split; [exact H1|]. split; [exact demo_cepii_proper|].
  split; [exact DemoOrder.ordered_eq|].
  exact (proj1 (normalized_table_is_ordered DemoCepii.to_numeric DemoCepii.cfg
                  DemoCepii.labels DemoOrder.lines DemoOrder.normalized
                  H1 demo_cepii_proper DemoOrder.ordered_eq)).
Defined.

(** ** Merge engine *)

Lemma label_count_one_elem label cols :
  label_count label cols = 1 → label ∈ cols.
Proof.
  intros H. destruct (decide (label ∈ cols)) as [|Hn]; [done|].
  rewrite label_count_notin in H; done.
Qed.

Lemma two_elements {A} (x y : A) (l : list A) :
  x ≠ y → x ∈ l → y ∈ l → 2 ≤ length l.
Proof.
  intros Hne Hx Hy. destruct l as [|a [|b l]]; simpl; [|exfalso|lia].
  - by apply elem_of_nil in Hx.
  - apply list_elem_of_singleton in Hx, Hy. congruence.
Qed.

Section MergeErrors.

Context {num : Type} `{!EqDecision num}.
Variable to_numeric : string → option num.
Variable as_Int64 : num → option num.
Variable to_csv : csv_target → DataFrame num → result unit.
Implicit Types df_wb df_trade df_cepii left right merged out : DataFrame num.

Lemma length_joined_rows keys left right (l : list (cell num)) :
  1 ≤ length (joined_rows keys left right l).
Proof.
  unfold joined_rows. destruct (matches keys left right l); simpl; lia.
Qed.

Lemma merge_left_length keys left right out :
  merge_left keys left right = Ok out →
  length (rows left) ≤ length (rows out).
Proof.
  intros [-> _]%merge_left_inv. cbn [rows].
  induction (rows left) as [|l ls IH]; [done|].
  cbn [fmap list_fmap mjoin list_join]. rewrite length_app.
  exact (Nat.add_le_mono 1 _ (length ls) _
           (length_joined_rows keys left right l) IH).
Qed.

Lemma merge_cepii_length merged df_cepii out :
  merge_cepii merged df_cepii = Ok out →
  length (rows merged) ≤ length (rows out).
Proof.
  unfold merge_cepii. destruct (decide _); [|by intros [= <-]].
  destruct (require_unique _ "reporterISO" _); [|by intros [=]].
  destruct (require_unique _ "partnerISO" _); [|by intros [=]].
  cbn [mbind result_bind].
  destruct (traverse _ (rows merged)); [|by intros [=]].
  cbn [mbind result_bind].
  destruct (merge_left _ _ df_cepii) as [joined|] eqn:E; [|by intros [=]].
  cbn [mbind result_bind]. intros [= <-].
  apply merge_left_length in E. unfold drop_columns, assign in *.
  cbn [rows] in *. by rewrite !length_fmap in *.
Qed.

Lemma label_count_renamed (cols : list string) :
  "period" ∈ cols → "year" ∈ cols →
  2 ≤ label_count "year"
        ((λ l, if decide (l = "period") then "year" else l) <$> cols).
Proof.
  intros Hp Hy. unfold label_count. rewrite filter_fmap, length_fmap.
  apply (two_elements "period" "year"); [done| |];
    apply list_elem_of_filter; by split.
Qed.

Lemma merge_datasets_length df_wb df_trade df_cepii out :
  merge_datasets to_numeric as_Int64 to_csv df_wb df_trade df_cepii = Ok out →
  length (rows df_trade) ≤ length (rows out).
Proof.
  intros Hrun. destruct (df_empty df_trade) eqn:Hemp.
  { unfold merge_datasets in Hrun. rewrite Hemp in Hrun. by injection Hrun as <-. }
  destruct (merge_datasets_inv _ _ _ _ _ _ _ Hemp Hrun)
    as (t1 & m & E1 & E2 & E3).
  destruct (normalize_year_inv _ _ _ _ E1) as (_ & _ & Hrows1).
  apply Forall2_length in Hrows1. apply merge_cepii_length in E3.
  unfold merge_world_bank in E2.
  destruct (merge_left _ t1 _) as [m1|] eqn:E21; [|by inversion E2].
  cbn [mbind result_bind] in E2.
  apply merge_left_length in E21, E2. lia.
Qed.

End MergeErrors.

(** X12. The merge is a chain of left joins, so it never loses a trade
    row: the table it returns has at least as many rows as the trade table,
    whatever the indicator and pairwise tables hold.  (It has more when a
    key of theirs is repeated.) *)
Theorem merge_never_drops_a_trade_row {num : Type} `{!EqDecision num}
    (to_numeric : string → option num) (as_Int64 : num → option num)
    (to_csv : csv_target → DataFrame num → result unit)
    (df_wb df_trade df_cepii out : DataFrame num) :
  merge_datasets to_numeric as_Int64 to_csv df_wb df_trade df_cepii = Ok out →
  length (rows df_trade) ≤ length (rows out).
Proof. apply merge_datasets_length. Qed.

Module DemoRepeat.

(** The indicator table of [DemoMerge] with Thailand's 2015 row twice. *)
Definition wb : DataFrame Z :=
  Frame ["countryISO"; "Year"; "NY.GDP.MKTP.CD"]
    [[Some (VStr "THA"); Some (VNum 2015%Z); Some (VNum 401%Z)];
     [Some (VStr "USA"); Some (VNum 2015%Z); Some (VNum 18206%Z)];
     [Some (VStr "THA"); Some (VNum 2015%Z); Some (VNum 402%Z)]].

Definition merged : DataFrame Z :=
  Frame
    ["reporterISO"; "partnerISO"; "year"; "primaryValue";
     "NY.GDP.MKTP.CD_reporter"; "NY.GDP.MKTP.CD_partner"]
    [[Some (VStr "THA"); Some (VStr "USA"); Some (VNum 2015%Z); Some (VNum 10%Z);
      Some (VNum 401%Z); Some (VNum 18206%Z)];
     [Some (VStr "THA"); Some (VStr "USA"); Some (VNum 2015%Z); Some (VNum 10%Z);
      Some (VNum 402%Z); Some (VNum 18206%Z)];
     [Some (VStr "USA"); Some (VStr "CHN"); Some (VNum 2015%Z); Some (VNum 20%Z);
      Some (VNum 18206%Z); None];
     [Some (VStr "THA"); Some (VStr "USA"); None; Some (VNum 30%Z);
      None; None]].

Lemma merged_twice :
  merge_datasets DemoCepii.to_numeric DemoMerge.as_Int64 Demo.to_csv
    wb DemoJoin.trade empty_frame = Ok merged.
Proof. vm_compute. reflexivity. Qed.

End DemoRepeat.

Lemma merge_never_drops_a_trade_row_witness :
  merge_datasets DemoCepii.to_numeric DemoMerge.as_Int64 Demo.to_csv
    DemoRepeat.wb DemoJoin.trade empty_frame = Ok DemoRepeat.merged
  ∧ length (rows DemoJoin.trade) = 3
  ∧ length (rows DemoRepeat.merged) = 4
  ∧ length (rows DemoJoin.trade) ≤ length (rows DemoRepeat.merged).
Proof.
  split; [exact DemoRepeat.merged_twice|]. split; [reflexivity|].
  split; [reflexivity|].
  exact (merge_never_drops_a_trade_row DemoCepii.to_numeric DemoMerge.as_Int64
           Demo.to_csv DemoRepeat.wb DemoJoin.trade empty_frame DemoRepeat.merged
           DemoRepeat.merged_twice).
Defined.

(** X13. The columns the merge cannot do without.  When [merge_datasets]
    returns a table for a trade table that is not empty, the trade table
    has the columns [reporterISO] and [partnerISO] and the indicator table
    has [countryISO] and [Year]; without one of them the joins of step 3.1
    raise.  So where step 3.2 tests for [reporterISO] and [partnerISO],
    both are there. *)
Theorem merge_needs_its_key_columns {num : Type} `{!EqDecision num}
    (to_numeric : string → option num) (as_Int64 : num → option num)
    (to_csv : csv_target → DataFrame num → result unit)
    (df_wb df_trade df_cepii out : DataFrame num) :
  df_empty df_trade = false →
  merge_datasets to_numeric as_Int64 to_csv df_wb df_trade df_cepii = Ok out →
  "reporterISO" ∈ columns df_trade ∧ "partnerISO" ∈ columns df_trade
  ∧ "countryISO" ∈ columns df_wb ∧ "Year" ∈ columns df_wb.
Proof.
  intros Hemp Hrun.
  destruct (merge_datasets_inv _ _ _ _ _ _ _ Hemp Hrun)
    as (t1 & m & E1 & E2 & _).
  destruct (normalize_year_inv _ _ _ _ E1) as (Hc1 & _ & _).
  unfold merge_world_bank in E2.
  set (keysR := [("reporterISO", "reporterISO"); ("year", "year")]) in *.
  set (keysP := [("partnerISO", "partnerISO"); ("year", "year")]) in *.
  set (wb_rep := wb_side "_reporter" "reporterISO" df_wb) in *.
  destruct (merge_left keysR t1 wb_rep) as [m1|] eqn:E21; [|by inversion E2].
  cbn [mbind result_bind] in E2.
  destruct (merge_left_inv _ _ _ _ E21) as [Hm1 Hq1].
  destruct (merge_left_inv _ _ _ _ E2) as [_ Hq2].
  assert (Hfrom : ∀ c, c ∈ columns t1 → c ≠ "year" → c ∈ columns df_trade).
  { intros c Hc Hy. rewrite Hc1 in Hc.
    by apply elem_of_year_labels in Hc as [?|?]. }
  assert (Hrep : "reporterISO" ∈ columns t1).
  { destruct (Hq1 ("reporterISO", "reporterISO")) as [H _]; [by left|].
    by apply require_unique_elem in H. }
  assert (Hpar : "partnerISO" ∈ columns t1).
  { destruct (Hq2 ("partnerISO", "partnerISO")) as [H _]; [by left|].
    apply require_unique_elem in H. rewrite Hm1 in H. cbn [columns] in H.
    apply (merged_label_from_left keysR t1 wb_rep); [done| |not_ending..].
    intros [l E]%kept_right_labels_wb_side.
    symmetry in E. apply not_ending_app in E; [done|not_ending]. }
  assert (Hwb : ∀ c, c ∈ wb_label "_reporter" "reporterISO" <$> columns df_wb →
                     ∃ l, l ∈ columns df_wb
                          ∧ wb_label "_reporter" "reporterISO" l = c).
  { intros c (l & -> & Hl)%list_elem_of_fmap. by exists l. }
  split_and!.
  - by apply Hfrom.
  - by apply Hfrom.
  - destruct (Hq1 ("reporterISO", "reporterISO")) as [_ H]; [by left|].
    apply require_unique_elem, Hwb in H as (l & Hl & E).
    apply wb_label_country in E; [by subst l|done|not_ending].
  - destruct (Hq1 ("year", "year")) as [_ H]; [by right; left|].
    apply require_unique_elem, Hwb in H as (l & Hl & E).
    apply wb_label_year in E; [by subst l|done|not_ending].
Qed.

Lemma merge_needs_its_key_columns_witness :
  df_empty DemoJoin.trade = false
  ∧ merge_datasets DemoCepii.to_numeric DemoMerge.as_Int64 Demo.to_csv
      DemoMerge.wb DemoJoin.trade DemoCepii.normalized = Ok DemoJoin.merged
  ∧ "reporterISO" ∈ columns DemoJoin.trade
  ∧ "partnerISO" ∈ columns DemoJoin.trade
  ∧ "countryISO" ∈ columns DemoMerge.wb ∧ "Year" ∈ columns DemoMerge.wb.
Proof.
  assert (H1 : df_empty DemoJoin.trade = false) by reflexivity.
  split; [exact H1|]. split; [exact DemoJoin.merged_eq|].
  exact (merge_needs_its_key_columns DemoCepii.to_numeric DemoMerge.as_Int64
           Demo.to_csv DemoMerge.wb DemoJoin.trade DemoCepii.normalized
           DemoJoin.merged H1 DemoJoin.merged_eq).
Defined.

(** X14. A trade table that has both a [period] and a [year] column cannot
    be merged: renaming [period] leaves two columns called [year], and the
    coercion of [df_trade["year"]] raises [TypeError]. *)
Theorem period_beside_year_raises {num : Type} `{!EqDecision num}
    (to_numeric : string → option num) (as_Int64 : num → option num)
    (to_csv : csv_target → DataFrame num → result unit)
    (df_wb df_trade df_cepii : DataFrame num) :
  df_empty df_trade = false →
  "period" ∈ columns df_trade →
  "year" ∈ columns df_trade →
  merge_datasets to_numeric as_Int64 to_csv df_wb df_trade df_cepii
  = Raise TypeError.
Proof.
  intros Hne Hperiod Hyear. unfold merge_datasets. rewrite Hne.
  unfold normalize_year. rewrite decide_True by done.
  pose proof (label_count_renamed (columns df_trade) Hperiod Hyear) as Hc.
  unfold require_unique.
  destruct (label_count _ _) as [|[|n]]; [lia|lia|done].
Qed.

Module DemoClash.

Definition trade : DataFrame Z :=
  Frame ["reporterISO"; "partnerISO"; "period"; "year"]
    [[Some (VStr "THA"); Some (VStr "USA"); Some (VStr "2015");
      Some (VNum 2015%Z)]].

End DemoClash.

Lemma period_beside_year_raises_witness :
  df_empty DemoClash.trade = false
  ∧ "period" ∈ columns DemoClash.trade
  ∧ "year" ∈ columns DemoClash.trade
  ∧ merge_datasets DemoCepii.to_numeric DemoMerge.as_Int64 Demo.to_csv
      DemoMerge.wb DemoClash.trade DemoCepii.normalized = Raise TypeError.
Proof.
  assert (H1 : df_empty DemoClash.trade = false) by reflexivity.
  assert (H2 : "period" ∈ columns DemoClash.trade)
    by (apply (bool_decide_unpack _); vm_compute; exact I).
  assert (H3 : "year" ∈ columns DemoClash.trade)
    by (apply (bool_decide_unpack _); vm_compute; exact I).
  split; [exact H1|]. split; [exact H2|]. split; [exact H3|].
  exact (period_beside_year_raises DemoCepii.to_numeric DemoMerge.as_Int64
           Demo.to_csv DemoMerge.wb DemoClash.trade DemoCepii.normalized
           H1 H2 H3).
Defined.

(** *** A year that is a number but no integer *)

Lemma traverse_Raise {A B} (f : A → result B) (l : list A) (x0 : A) (e0 : exn) :
  (∀ x e, x ∈ l → f x = Raise e → e = e0) →
  x0 ∈ l → f x0 = Raise e0 →
  traverse f l = Raise e0.
Proof.
  induction l as [|x l IH]; intros Hall Hin Hx0; [by apply elem_of_nil in Hin|].
  cbn [traverse]. destruct (f x) as [y|e] eqn:Ex; cbn [mbind result_bind].
  - apply elem_of_cons in Hin as [->|Hin]; [congruence|].
    rewrite IH; [done| |done|done]. intros x' e' Hx'. apply Hall. by right.
  - f_equal. apply (Hall x e); [by left|done].
Qed.

Lemma year_cell_raises {num} (to_numeric : string → option num)
    (as_Int64 : num → option num) (v : cell num) e :
  year_cell to_numeric as_Int64 v = Raise e → e = TypeError.
Proof.
  unfold year_cell. destruct (to_numeric_cell to_numeric v) as [[s|m]|];
    [by intros [=]| |by intros [=]].
  destruct (as_Int64 m); [by intros [=]|]. by intros [= <-].
Qed.

(** X24. The coercion of [year] fails on a number that is no integer.
    When the trade table has one [year] column (after [period] is renamed)
    and some row holds there a value that parses as a number on which the
    cast to [Int64] raises, [merge_datasets] raises [TypeError]; a value
    that does not parse at all is no error, it becomes a missing year. *)
Theorem non_integral_year_raises {num : Type} `{!EqDecision num}
    (to_numeric : string → option num) (as_Int64 : num → option num)
    (to_csv : csv_target → DataFrame num → result unit)
    (df_wb df_trade df_cepii : DataFrame num)
    (r : list (cell num)) (n : num) :
  df_empty df_trade = false →
  label_count "year" (year_labels df_trade) = 1 →
  r ∈ rows df_trade →
  to_numeric_cell to_numeric (cell_at (year_labels df_trade) r "year")
  = Some (VNum n) →
  as_Int64 n = None →
  merge_datasets to_numeric as_Int64 to_csv df_wb df_trade df_cepii
  = Raise TypeError
  ∧ ∀ v, to_numeric_cell to_numeric v = None →
         year_cell to_numeric as_Int64 v = Ok None.
Proof.
  intros Hne Hcount Hr Hnum Hcast. split.
  2:{ intros v Hv. unfold year_cell. by rewrite Hv. }
  unfold merge_datasets. rewrite Hne.
  unfold normalize_year. fold (year_labels df_trade).
  unfold require_unique. rewrite Hcount. cbn [mbind result_bind].
  rewrite (traverse_Raise _ _ r TypeError); [done| |done|].
  - intros x e _.
    destruct (year_cell to_numeric as_Int64
                (cell_at (year_labels df_trade) x "year")) as [y|e'] eqn:E;
      cbn [mbind result_bind]; [by intros [=]|].
    intros [= <-]. by eapply year_cell_raises.
  - unfold year_cell. by rewrite Hnum, Hcast.
Qed.

Module DemoHalfYear.

(** Numbers counted in tenths, so that 2015.5 is one of them; the cast
    to [Int64] raises on a number with a fractional part. *)
Definition to_numeric (s : string) : option Z :=
  match s with
  | "2015" => Some 20150%Z
  | "2015.5" => Some 20155%Z
  | _ => None
  end.

Definition as_Int64 (n : Z) : option Z :=
  if bool_decide (n `mod` 10 = 0)%Z then Some n else None.

Definition trade : DataFrame Z :=
  Frame ["reporterISO"; "partnerISO"; "period"]
    [[Some (VStr "THA"); Some (VStr "USA"); Some (VStr "2015")];
     [Some (VStr "THA"); Some (VStr "CHN"); Some (VStr "2015.5")]].

End DemoHalfYear.

Lemma non_integral_year_raises_witness :
  df_empty DemoHalfYear.trade = false
  ∧ label_count "year" (year_labels DemoHalfYear.trade) = 1
  ∧ merge_datasets DemoHalfYear.to_numeric DemoHalfYear.as_Int64 Demo.to_csv
      DemoMerge.wb DemoHalfYear.trade DemoCepii.normalized = Raise TypeError.
Proof.
  assert (H1 : df_empty DemoHalfYear.trade = false) by reflexivity.
  assert (H2 : label_count "year" (year_labels DemoHalfYear.trade) = 1)
    by (vm_compute; reflexivity).
  split; [exact H1|]. split; [exact H2|].
  apply (proj1 (non_integral_year_raises DemoHalfYear.to_numeric
                  DemoHalfYear.as_Int64 Demo.to_csv DemoMerge.wb
                  DemoHalfYear.trade DemoCepii.normalized
                  [Some (VStr "THA"); Some (VStr "CHN"); Some (VStr "2015.5")]
                  20155%Z H1 H2 ltac:(right; left) eq_refl eq_refl)).
Defined.

(** *** Labels the joins keep *)

Section MergedLabels.

Context {num : Type} `{!EqDecision num}.
Implicit Types df_wb df_cepii left right merged out : DataFrame num.

Lemma merged_labels_keeps keys left right c :
  c ∈ columns left → c ∉ kept_right_labels keys right →
  c ∈ merged_labels keys left right.
Proof.
  intros Hc Hk. unfold merged_labels. apply elem_of_app. left.
  apply list_elem_of_fmap. exists c. split; [|done]. by rewrite decide_False.
Qed.

Lemma wb_side_keeps suffix country df_wb c :
  not_ending suffix c →
  c ∉ kept_right_labels [(country, country); ("year", "year")]
        (wb_side suffix country df_wb).
Proof.
  intros Hend [l ->]%kept_right_labels_wb_side. by eapply not_ending_app.
Qed.

(** The two joins of step 3.1 need [reporterISO] and [partnerISO] on
    their left and keep every label without an indicator suffix. *)
Lemma merge_world_bank_labels df_wb left merged :
  merge_world_bank df_wb left = Ok merged →
  "reporterISO" ∈ columns left ∧ "partnerISO" ∈ columns left
  ∧ ∀ c, c ∈ columns left →
         not_ending "_reporter" c → not_ending "_partner" c →
         c ∈ columns merged.
Proof.
  unfold merge_world_bank.
  destruct (merge_left _ left _) as [m1|] eqn:E1; [|by intros [=]].
  cbn [mbind result_bind]. intros E2.
  destruct (merge_left_inv _ _ _ _ E1) as [Hm1 Hq1].
  destruct (merge_left_inv _ _ _ _ E2) as [Hm2 Hq2].
  assert (Hc1 : columns m1 = merged_labels
                  [("reporterISO", "reporterISO"); ("year", "year")] left
                  (wb_side "_reporter" "reporterISO" df_wb)) by (by rewrite Hm1).
  assert (Hc2 : columns merged = merged_labels
                  [("partnerISO", "partnerISO"); ("year", "year")] m1
                  (wb_side "_partner" "partnerISO" df_wb)) by (by rewrite Hm2).
  split_and!.
  - destruct (Hq1 ("reporterISO", "reporterISO")) as [H _]; [by left|].
    by apply require_unique_elem in H.
  - destruct (Hq2 ("partnerISO", "partnerISO")) as [H _]; [by left|].
    apply require_unique_elem in H. rewrite Hc1 in H.
    eapply merged_label_from_left; [exact H| |not_ending..].
    apply wb_side_keeps. not_ending.
  - intros c Hc Hr Hp. rewrite Hc2.
    apply merged_labels_keeps; [|by apply wb_side_keeps].
    rewrite Hc1. apply merged_labels_keeps; [done|by apply wb_side_keeps].
Qed.

(** Step 3.2 keeps every label that the pairwise table does not have and
    that is not one of the two working keys. *)
Lemma merge_cepii_labels merged df_cepii out c :
  merge_cepii merged df_cepii = Ok out →
  c ∈ columns merged → c ∉ columns df_cepii →
  c ≠ "cepii_merge_key" → c ≠ "cepii_key" →
  c ∈ columns out.
Proof.
  unfold merge_cepii. destruct (decide _); [|by intros [= <-]].
  destruct (require_unique _ "reporterISO" _); [|by intros [=]].
  destruct (require_unique _ "partnerISO" _); [|by intros [=]].
  cbn [mbind result_bind].
  destruct (traverse _ (rows merged)); [|by intros [=]].
  cbn [mbind result_bind].
  destruct (merge_left _ _ df_cepii) as [joined|] eqn:E; [|by intros [=]].
  cbn [mbind result_bind]. intros [= <-] Hc Hn Hk1 Hk2.
  apply merge_left_inv in E as [-> _]. unfold drop_columns. cbn [columns].
  apply list_elem_of_filter. split.
  - rewrite !not_elem_of_cons. split_and!; [done|done|apply not_elem_of_nil].
  - apply merged_labels_keeps.
    + cbn [assign columns]. apply elem_of_assign_labels. by left.
    + unfold kept_right_labels. rewrite list_elem_of_filter. tauto.
Qed.

End MergedLabels.

(** *** The values a trade row is given *)

Section MatchedRows.

Context {num : Type} `{!EqDecision num}.
Implicit Types df_wb df_cepii trade left right merged out : DataFrame num.

(** With unique keys a left row that has a match is extended by the
    cells of that row. *)
Lemma extension_matched keys left right (l r : list (cell num)) :
  key_unique keys right → r ∈ rows right →
  right_key keys right r = left_key keys left l →
  extension keys left right l
  = cells_without (right_drop keys) (columns right) r.
Proof.
  intros Hu Hr Hk. unfold extension.
  assert (Hin : r ∈ matches keys left right l).
  { unfold matches. apply list_elem_of_filter. by split. }
  destruct (matches_at_most_one keys left right l Hu) as [E|[r' E]];
    rewrite E in Hin |- *.
  - by apply elem_of_nil in Hin.
  - apply list_elem_of_singleton in Hin. by subst r'.
Qed.

Lemma cells_without_rename (f : string → string) (D D' : list string)
    (cols : list string) (w : list (cell num)) :
  (∀ l, l ∈ cols → f l ∈ D' ↔ l ∈ D) →
  cells_without D' (f <$> cols) w = cells_without D cols w.
Proof.
  unfold cells_without. revert w.
  induction cols as [|c cols IH]; intros [|v w] Hf; try done.
  cbn [fmap list_fmap zip zip_with].
  assert (IH' : (filter (λ lv : string * cell num, lv.1 ∉ D') (zip (f <$> cols) w)).*2
                = (filter (λ lv : string * cell num, lv.1 ∉ D) (zip cols w)).*2).
  { apply IH. intros l Hl. apply Hf. by right. }
  destruct (decide (c ∈ D)) as [Hc|Hc].
  - rewrite (filter_cons_False _ (f c, v)) by (cbn [fst]; intros H; apply H, Hf; [by left|done]).
    rewrite (filter_cons_False _ (c, v)) by (cbn [fst]; tauto).
    exact IH'.
  - rewrite (filter_cons_True _ (f c, v)).
    2:{ cbn [fst]. intros H. apply Hc, Hf; [by left|done]. }
    rewrite (filter_cons_True _ (c, v)) by done.
    cbn [fmap list_fmap snd]. f_equal. exact IH'.
Qed.

(** The cells of an indicator row but its key, and those of a pairwise
    row but its key. *)
Definition indicator_cells df_wb (w : list (cell num)) : list (cell num) :=
  cells_without ["countryISO"; "Year"] (columns df_wb) w.

Definition pair_cells df_cepii (w : list (cell num)) : list (cell num) :=
  cells_without ["cepii_key"] (columns df_cepii) w.

Lemma wb_side_cells suffix country df_wb (w : list (cell num)) :
  country ≠ "year" → not_ending suffix country → not_ending suffix "year" →
  cells_without (right_drop [(country, country); ("year", "year")])
    (columns (wb_side suffix country df_wb)) w
  = indicator_cells df_wb w.
Proof.
  intros Hy H1 H2. unfold right_drop, indicator_cells.
  rewrite !filter_cons_True by done. rewrite filter_nil.
  cbn [fmap list_fmap snd wb_side columns].
  apply cells_without_rename. intros l _.
  rewrite !elem_of_cons, !elem_of_nil.
  rewrite (wb_label_country suffix country l) by done.
  rewrite (wb_label_year suffix country l) by done. tauto.
Qed.

Lemma wb_side_matched suffix country df_wb trade (l w : list (cell num)) :
  country ≠ "year" → not_ending suffix country → not_ending suffix "year" →
  wb_unique df_wb → w ∈ rows df_wb →
  cell_at (columns df_wb) w "countryISO" = cell_at (columns trade) l country →
  cell_at (columns df_wb) w "Year" = cell_at (columns trade) l "year" →
  extension [(country, country); ("year", "year")] trade
    (wb_side suffix country df_wb) l
  = indicator_cells df_wb w.
Proof.
  intros Hy H1 H2 Hu Hw Ec Ey.
  rewrite <- (wb_side_cells suffix country) by done.
  apply extension_matched.
  - by apply key_unique_wb_side.
  - done.
  - rewrite right_key_wb_side by done. unfold left_key.
    cbn [fmap list_fmap fst]. by rewrite Ec, Ey.
Qed.

(** Step 3.1 on a proper trade table, with the cells of the matching
    indicator rows. *)
Lemma merge_world_bank_matched df_wb trade merged :
  wb_unique df_wb → aligned df_wb → aligned trade →
  merge_world_bank df_wb trade = Ok merged →
  Forall2
    (λ l rm, ∃ rep par,
       rm = l ++ rep ++ par
       ∧ (∀ w, w ∈ rows df_wb →
            cell_at (columns df_wb) w "countryISO"
            = cell_at (columns trade) l "reporterISO" →
            cell_at (columns df_wb) w "Year" = cell_at (columns trade) l "year" →
            rep = indicator_cells df_wb w)
       ∧ (∀ w, w ∈ rows df_wb →
            cell_at (columns df_wb) w "countryISO"
            = cell_at (columns trade) l "partnerISO" →
            cell_at (columns df_wb) w "Year" = cell_at (columns trade) l "year" →
            par = indicator_cells df_wb w))
    (rows trade) (rows merged).
Proof.
  intros Hu Hawb Hat Hrun.
  destruct (merge_world_bank_labels _ _ _ Hrun) as (HrepT & HparT & _).
  revert Hrun. unfold merge_world_bank.
  set (keysR := [("reporterISO", "reporterISO"); ("year", "year")]).
  set (keysP := [("partnerISO", "partnerISO"); ("year", "year")]).
  set (wb_rep := wb_side "_reporter" "reporterISO" df_wb).
  set (wb_par := wb_side "_partner" "partnerISO" df_wb).
  destruct (merge_left keysR trade wb_rep) as [m1|] eqn:E1; [|by intros [=]].
  cbn [mbind result_bind]. intros E2.
  assert (HuR : key_unique keysR wb_rep).
  { apply key_unique_wb_side; [done|not_ending|not_ending|done]. }
  assert (HuP : key_unique keysP wb_par).
  { apply key_unique_wb_side; [done|not_ending|not_ending|done]. }
  destruct (merge_left_unique _ _ _ _ HuR E1) as [Hc1 Hr1].
  destruct (merge_left_unique _ _ _ _ HuP E2) as [Hc2 Hr2].
  destruct (merge_left_inv _ _ _ _ E1) as [_ Hq1].
  assert (HyearT : "year" ∈ columns trade).
  { destruct (Hq1 ("year", "year")) as [H _]; [by right; left|].
    by apply require_unique_elem in H. }
  rewrite Hr2, Hr1. rewrite <- list_fmap_compose.
  apply Forall2_fmap_r, Forall_Forall2_diag, Forall_forall.
  intros l Hl. cbn [compose].
  assert (Hlen : length l = length (columns trade)).
  { unfold aligned in Hat. rewrite Forall_forall in Hat. by apply Hat. }
  set (e1 := extension keysR trade wb_rep l).
  set (e2 := extension keysP m1 wb_par (l ++ e1)).
  assert (Hcell1 : ∀ c, c ∈ columns trade → not_ending "_reporter" c →
                        not_ending "_x" c →
                        cell_at (columns m1) (l ++ e1) c
                        = cell_at (columns trade) l c).
  { intros c Hc Hr Hx. rewrite Hc1.
    apply cell_at_merged_left; [done|done|by apply wb_side_keeps|done]. }
  exists e1, e2. split_and!.
  - by rewrite app_assoc.
  - intros w Hw Ec Ey. unfold e1, keysR, wb_rep.
    apply wb_side_matched; [done|not_ending|not_ending|done..].
  - intros w Hw Ec Ey. unfold e2, keysP, wb_par.
    apply wb_side_matched; [done|not_ending|not_ending|done|done| |].
    + rewrite (Hcell1 "partnerISO") by (done || not_ending). done.
    + rewrite (Hcell1 "year") by (done || not_ending). done.
Qed.

(** Step 3.2 on a proper table, with the cells of the matching pairwise
    row. *)
Lemma merge_cepii_matched merged df_cepii out :
  cepii_unique df_cepii → aligned merged → aligned df_cepii →
  "reporterISO" ∈ columns merged → "partnerISO" ∈ columns merged →
  "cepii_merge_key" ∉ columns merged → "cepii_key" ∉ columns merged →
  "cepii_merge_key" ∉ columns df_cepii →
  merge_cepii merged df_cepii = Ok out →
  Forall2
    (λ rm ro, ∃ cep,
       ro = rm ++ cep
       ∧ (df_empty df_cepii = false →
          ∀ w, w ∈ rows df_cepii →
            cell_at (columns df_cepii) w "cepii_key"
            = trade_pair_key (columns merged) rm →
            cep = pair_cells df_cepii w))
    (rows merged) (rows out).
Proof.
  intros Hu Hal Halc HrM HpM Hf1 Hf2 Hf3. unfold merge_cepii.
  destruct (decide _) as [_|Hskip].
  2:{ intros [= <-].
      apply Forall_Forall2_diag, Forall_forall. intros rm _.
      exists []. split; [by rewrite app_nil_r|].
      intros Hne. exfalso. by apply Hskip. }
  destruct (require_unique _ "reporterISO" _); [|by intros [=]].
  destruct (require_unique _ "partnerISO" _); [|by intros [=]].
  cbn [mbind result_bind].
  destruct (traverse _ (rows merged)); [|by intros [=]].
  cbn [mbind result_bind].
  set (f := λ r, pair_key_cell (cell_at (columns merged) r "reporterISO")
                               (cell_at (columns merged) r "partnerISO")).
  set (with_key := assign "cepii_merge_key" f merged).
  destruct (merge_left [("cepii_merge_key", "cepii_key")] with_key df_cepii)
    as [joined|] eqn:E3; [|by intros [=]].
  cbn [mbind result_bind]. intros [= <-].
  destruct (merge_left_unique _ _ _ _ (key_unique_cepii _ Hu) E3) as [Hc3 Hr3].
  assert (Hrk : rows with_key
                = assign_row "cepii_merge_key" f (columns merged) <$> rows merged)
    by reflexivity.
  unfold drop_columns. cbn [columns rows]. rewrite Hr3, Hrk.
  rewrite <- !list_fmap_compose.
  apply Forall2_fmap_r, Forall_Forall2_diag, Forall_forall.
  intros rm Hrm. cbn [compose].
  assert (Hlen : length rm = length (columns merged)).
  { unfold aligned in Hal. rewrite Forall_forall in Hal. by apply Hal. }
  assert (Har : assign_row "cepii_merge_key" f (columns merged) rm = rm ++ [f rm]).
  { unfold assign_row. by rewrite decide_False. }
  assert (Hwk : columns with_key = columns merged ++ ["cepii_merge_key"]).
  { unfold with_key, assign, assign_labels. cbn [columns]. by rewrite decide_False. }
  assert (Hdrop : right_drop [("cepii_merge_key", "cepii_key")] = []).
  { unfold right_drop. by rewrite filter_cons_False. }
  assert (Hkept : kept_right_labels [("cepii_merge_key", "cepii_key")] df_cepii
                  = columns df_cepii).
  { unfold kept_right_labels. rewrite Hdrop. apply filter_all.
    intros c _. apply not_elem_of_nil. }
  rewrite Har, Hc3. unfold merged_labels. rewrite Hwk, fmap_app, Hkept.
  set (f3 := λ l, if decide (l ∈ columns df_cepii) then l +:+ "_x" else l).
  set (g := λ l, if decide (l ∈ columns merged ++ ["cepii_merge_key"])
                 then l +:+ "_y" else l).
  set (e3 := extension [("cepii_merge_key", "cepii_key")] with_key df_cepii
               (rm ++ [f rm])).
  rewrite cells_without_app.
  2:{ rewrite !length_app, !length_fmap. cbn [length]. lia. }
  rewrite cells_without_app by (by rewrite length_fmap).
  rewrite cells_without_id.
  2:{ by rewrite length_fmap. }
  2:{ intros c (l & -> & Hl)%list_elem_of_fmap. unfold f3. cbv beta.
      rewrite !not_elem_of_cons. destruct (decide (l ∈ columns df_cepii)).
      - split_and!; [apply not_ending_app; not_ending..|apply not_elem_of_nil].
      - split_and!; [by intros ->|by intros ->|apply not_elem_of_nil]. }
  rewrite cells_without_all.
  2:{ intros c ->%list_elem_of_singleton. unfold f3. cbv beta.
      rewrite decide_False by done. by left. }
  rewrite app_nil_r. eexists. split; [reflexivity|].
  intros _ w Hw Ekey.
  assert (He3 : e3 = w).
  { unfold e3. rewrite (extension_matched _ _ _ _ w (key_unique_cepii _ Hu) Hw).
    - rewrite Hdrop. apply cells_without_id; [|intros c _; apply not_elem_of_nil].
      unfold aligned in Halc. rewrite Forall_forall in Halc. by apply Halc.
    - unfold right_key, left_key. cbn [fmap list_fmap fst snd].
      rewrite Hwk, cell_at_append by done. rewrite decide_True by done.
      by rewrite Ekey. }
  rewrite He3. unfold pair_cells. apply cells_without_rename.
  intros l Hl. unfold g. rewrite !elem_of_cons, !elem_of_nil.
  destruct (decide (l ∈ columns merged ++ ["cepii_merge_key"])) as [Hin|Hin].
  - split.
    + intros [E|[E|[]]]; exfalso; revert E; apply not_ending_app; not_ending.
    + intros [->|[]]. exfalso.
      apply elem_of_app in Hin as [?|?%list_elem_of_singleton]; done.
  - split.
    + intros [->|[->|[]]]; [done|by left].
    + intros [->|[]]. right. by left.
Qed.

End MatchedRows.

Lemma Forall2_both {A B} (P Q : A → B → Prop) (l : list A) (k : list B) :
  Forall2 P l k → Forall2 Q l k → Forall2 (λ x y, P x y ∧ Q x y) l k.
Proof.
  induction 1 as [|x y l k Hxy HP IH]; intros HQ; [constructor|].
  inversion HQ; subst. constructor; [done|by apply IH].
Qed.

(** X15. Where a trade row has a match, the merge gives it the cells of
    the matching rows.  With at most one indicator row per (country, year)
    and one pairwise row per symmetric key, every row of the merged table
    is the trade row with its [year] cell coerced, followed by three
    blocks: the cells but [countryISO] and [Year] of the indicator row of
    the reporter in that year, those of the indicator row of the partner
    in that year, and the cells but [cepii_key] of the pairwise row whose
    key is the symmetric key of reporter and partner, whenever such a row
    exists.  Stated for tables whose rows have one cell per label and where
    the working labels [cepii_merge_key] and [cepii_key] are not taken. *)
Theorem merged_values_come_from_matching_rows {num : Type} `{!EqDecision num}
    (to_numeric : string → option num) (as_Int64 : num → option num)
    (to_csv : csv_target → DataFrame num → result unit)
    (df_wb df_trade df_cepii out : DataFrame num) :
  wb_unique df_wb →
  cepii_unique df_cepii →
  df_empty df_trade = false →
  aligned df_trade → aligned df_wb → aligned df_cepii →
  "cepii_merge_key" ∉ columns df_trade →
  "cepii_key" ∉ columns df_trade →
  "cepii_merge_key" ∉ columns df_cepii →
  merge_datasets to_numeric as_Int64 to_csv df_wb df_trade df_cepii = Ok out →
  let cols := year_labels df_trade in
  Forall2
    (λ r ro, ∃ r1 rep par cep,
       ro = r1 ++ rep ++ par ++ cep
       ∧ length r1 = length r
       ∧ year_cell to_numeric as_Int64 (cell_at cols r "year")
         = Ok (cell_at cols r1 "year")
       ∧ (∀ c, c ≠ "year" → c ≠ "period" →
               cell_at cols r1 c = cell_at (columns df_trade) r c)
       ∧ (∀ w, w ∈ rows df_wb →
            cell_at (columns df_wb) w "countryISO" = cell_at cols r1 "reporterISO" →
            cell_at (columns df_wb) w "Year" = cell_at cols r1 "year" →
            rep = indicator_cells df_wb w)
       ∧ (∀ w, w ∈ rows df_wb →
            cell_at (columns df_wb) w "countryISO" = cell_at cols r1 "partnerISO" →
            cell_at (columns df_wb) w "Year" = cell_at cols r1 "year" →
            par = indicator_cells df_wb w)
       ∧ (df_empty df_cepii = false →
          ∀ w, w ∈ rows df_cepii →
            cell_at (columns df_cepii) w "cepii_key" = trade_pair_key cols r1 →
            cep = pair_cells df_cepii w))
    (rows df_trade) (rows out).
Proof.
  intros Hwb Hcep Hemp Hal Halwb Halc Hf1 Hf2 Hf3 Hrun cols.
  destruct (merge_datasets_inv _ _ _ _ _ _ _ Hemp Hrun)
    as (t1 & m & E1 & E2 & E3).
  destruct (normalize_year_inv _ _ _ _ E1) as (Hc1 & Hcount & Hrows1).
  assert (Hyear : "year" ∈ cols) by (by apply label_count_one_elem).
  assert (Hrows1' :
    Forall2 (λ r r1, length r1 = length r
                     ∧ length r1 = length cols
                     ∧ year_cell to_numeric as_Int64 (cell_at cols r "year")
                       = Ok (cell_at cols r1 "year")
                     ∧ ∀ c, c ≠ "year" → c ≠ "period" →
                            cell_at cols r1 c = cell_at (columns df_trade) r c)
            (rows df_trade) (rows t1)).
  { eapply Forall2_impl; [apply (Forall2_with_left _ _ _ _ Hrows1 Hal)|].
    intros r r1 [(y & Hy & ->) Hlen]. cbn beta in Hlen. fold cols in Hy |- *.
    assert (Hlen' : length r = length cols).
    { unfold cols. rewrite length_year_labels. done. }
    rewrite length_zip_with.
    split_and!; [lia|lia| |].
    - by rewrite cell_at_overwrite_eq.
    - intros c Hcy Hp. rewrite cell_at_overwrite_ne by done.
      by apply cell_at_year_labels. }
  assert (Hal1 : aligned t1).
  { unfold aligned. rewrite Hc1. fold cols.
    eapply Forall2_right; [exact Hrows1'|]. intros r r1 (_ & H & _). exact H. }
  destruct (merge_world_bank_rows df_wb t1 m Hwb Halwb Hal1 E2)
    as (_ & _ & Hlabels & Hrows2).
  pose proof (merge_world_bank_matched df_wb t1 m Hwb Halwb Hal1 E2) as Hrows2'.
  destruct (merge_world_bank_labels _ _ _ E2) as (Hrep1 & Hpar1 & Hkeep).
  rewrite Hc1 in Hlabels, Hrows2, Hrows2', Hrep1, Hpar1.
  fold cols in Hlabels, Hrows2, Hrows2', Hrep1, Hpar1.
  assert (Halm : aligned m).
  { unfold aligned. eapply Forall2_right; [exact Hrows2|].
    intros r1 rm (rep & par & _ & H & _). exact H. }
  assert (Hfresh : ∀ c, c ∈ columns m → c ≠ "year" →
            not_ending "_x" c → not_ending "_y" c →
            not_ending "_reporter" c → not_ending "_partner" c →
            c ∈ columns df_trade).
  { intros c Hc Hy Hx Hy' Hr Hp.
    destruct (Hlabels c Hc) as [Hin|[[l E]|[[l E]|[[l E]|[l E]]]]].
    - apply elem_of_year_labels in Hin as [?|?]; done.
    - symmetry in E. by apply not_ending_app in E.
    - symmetry in E. by apply not_ending_app in E.
    - symmetry in E. by apply not_ending_app in E.
    - symmetry in E. by apply not_ending_app in E. }
  assert (Hm1 : "cepii_merge_key" ∉ columns m).
  { intros Hc. apply Hf1, Hfresh; [done|done|not_ending..]. }
  assert (Hm2 : "cepii_key" ∉ columns m).
  { intros Hc. apply Hf2, Hfresh; [done|done|not_ending..]. }
  assert (HrM : "reporterISO" ∈ columns m).
  { apply Hkeep; [by rewrite Hc1|not_ending..]. }
  assert (HpM : "partnerISO" ∈ columns m).
  { apply Hkeep; [by rewrite Hc1|not_ending..]. }
  pose proof (merge_cepii_matched m df_cepii out Hcep Halm Halc HrM HpM
                Hm1 Hm2 Hf3 E3) as Hrows3.
  pose proof (Forall2_compose _ _ _ _ _
                (Forall2_compose _ _ _ _ _ Hrows1'
                   (Forall2_both _ _ _ _ Hrows2 Hrows2')) Hrows3) as Hall.
  eapply Forall2_impl; [exact Hall|].
  intros r ro (rm & (r1 & (Hlen & _ & Hy & Hcells) & Hold & Hnew) & Hpair).
  destruct Hold as (rep0 & par0 & _ & _ & Hrep & Hpar & _ & _).
  destruct Hnew as (rep & par & -> & Hmrep & Hmpar).
  destruct Hpair as (cep & -> & Hmcep).
  exists r1, rep, par, cep. split_and!; try done.
  - by rewrite <- !app_assoc.
  - intros Hne w Hw Ek. apply Hmcep; [done|done|].
    unfold trade_pair_key in *. by rewrite Hrep, Hpar.
Qed.

Lemma merged_values_come_from_matching_rows_witness :
  wb_unique DemoMerge.wb ∧ cepii_unique DemoCepii.normalized
  ∧ df_empty DemoJoin.trade = false
  ∧ aligned DemoJoin.trade ∧ aligned DemoMerge.wb ∧ aligned DemoCepii.normalized
  ∧ merge_datasets DemoCepii.to_numeric DemoMerge.as_Int64 Demo.to_csv
      DemoMerge.wb DemoJoin.trade DemoCepii.normalized = Ok DemoJoin.merged
  ∧ Forall2
      (λ r ro, ∃ r1 rep par cep,
         ro = r1 ++ rep ++ par ++ cep ∧ length r1 = length r
         ∧ (∀ w, w ∈ rows DemoMerge.wb →
              cell_at (columns DemoMerge.wb) w "countryISO"
              = cell_at (year_labels DemoJoin.trade) r1 "reporterISO" →
              cell_at (columns DemoMerge.wb) w "Year"
              = cell_at (year_labels DemoJoin.trade) r1 "year" →
              rep = indicator_cells DemoMerge.wb w))
      (rows DemoJoin.trade) (rows DemoJoin.merged).
Proof.
  assert (H3 : df_empty DemoJoin.trade = false) by reflexivity.
  assert (H4 : aligned DemoJoin.trade) by (repeat constructor).
  assert (H5 : aligned DemoMerge.wb) by (repeat constructor).
  assert (H6 : aligned DemoCepii.normalized) by (repeat constructor).
  assert (H7 : "cepii_merge_key" ∉ columns DemoJoin.trade)
    by (apply (bool_decide_unpack _); vm_compute; exact I).
  assert (H8 : "cepii_key" ∉ columns DemoJoin.trade)
    by (apply (bool_decide_unpack _); vm_compute; exact I).
  assert (H9 : "cepii_merge_key" ∉ columns DemoCepii.normalized)
    by (apply (bool_decide_unpack _); vm_compute; exact I).
  split; [exact DemoJoin.wb_is_unique|].
  split; [exact DemoJoin.cepii_is_unique|].
  split; [exact H3|]. split; [exact H4|]. split; [exact H5|].
  split; [exact H6|]. split; [exact DemoJoin.merged_eq|].
  eapply Forall2_impl.
  - exact (merged_values_come_from_matching_rows DemoCepii.to_numeric
             DemoMerge.as_Int64 Demo.to_csv DemoMerge.wb DemoJoin.trade
             DemoCepii.normalized DemoJoin.merged
             DemoJoin.wb_is_unique DemoJoin.cepii_is_unique H3 H4 H5 H6
             H7 H8 H9 DemoJoin.merged_eq).
  - intros r ro (r1 & rep & par & cep & E & Hlen & _ & _ & Hrep & _).
    exists r1, rep, par, cep. split; [exact E|]. split; [exact Hlen|exact Hrep].
Defined.

(** * The World Bank fetcher, the summary report and the routine *)

(** ** Exceptions and settings *)

(** What ends a function of the routine: an exception of [exn], the
    [IndexError] of [years[0]], the [AttributeError] of [.str] on a frame,
    or whatever a remote service raises. *)
Inductive error :=
| Exn (e : exn)
| IndexError
| AttributeError
| ServiceError.

Inductive outcome (A : Type) : Type :=
| Returns (a : A)
| Throws (e : error).
Arguments Returns {A} a.
Arguments Throws {A} e.

#[export] Instance outcome_bind : MBind outcome :=
  λ A B k m, match m with Returns a => k a | Throws e => Throws e end.

#[export] Instance outcome_ret : MRet outcome := λ A a, Returns a.

Definition lift {A} (m : result A) : outcome A :=
  match m with
  | Ok a => Returns a
  | Raise e => Throws (Exn e)
  end.

(** The entries of [CONFIG] that the World Bank functions and [main] read
    besides those of [config]. *)
Record settings := Settings {
  WB_VARIABLES : list string;
  USE_WB_VARIABLE_NAME : bool;
  MERGE_DATA : bool;
}.

(** What is found at [MAPPING_PATH] for the sheet [WB_MAPPING_SHEET]:
    nothing (no path, no file), a file whose read or column access raises,
    or the sheet as its (ID, Description) cells in row order, all of them
    strings. *)
Inductive wb_mapping_source :=
| WbMappingAbsent
| WbMappingUnreadable
| WbMappingSheet (cells : list (string * string)).

(** ** World Bank fetcher *)

(** [s.replace("YR", "")]: every occurrence, from the left, none
    overlapping. *)
Fixpoint remove_YR (s : string) : string :=
  match s with
  | String c s' =>
      match s' with
      | String c' s'' =>
          if decide (c = Ascii.ascii_of_N 89 ∧ c' = Ascii.ascii_of_N 82)
          then remove_YR s''
          else String c (remove_YR s')
      | EmptyString => s
      end
  | EmptyString => EmptyString
  end.

(** [df.rename(columns=f)] for a renaming of labels. *)
Definition rename_columns {num} (f : string → string) (df : DataFrame num)
  : DataFrame num :=
  Frame (f <$> columns df) (rows df).

(** The renaming [fetch_world_bank_data] applies to the labels of the
    indicator table: by the mapping sheet, [dict(zip(ID, Description))],
    unless the sheet is not to be used or cannot be. *)
Definition wb_rename (ws : settings) (mapping : wb_mapping_source)
    (l : string) : string :=
  match mapping with
  | WbMappingSheet cells =>
      if USE_WB_VARIABLE_NAME ws then l
      else default l (dict_of_items cells !! l)
  | WbMappingAbsent | WbMappingUnreadable => l
  end.

Section WorldBank.

Context {num : Type}.

(** [wb.data.DataFrame(series=.., economy=.., time=.., columns="series",
    index=["economy", "time"]).reset_index()], Python's [str] of a number,
    [astype(int)] on one string ([None] where it raises), and
    [df.to_csv] for [WorldBank_Data.csv]. *)
Variable wb_data : list string → list string → list Z → outcome (DataFrame num).
Variable str_of_num : num → string.
Variable int_of_str : string → option num.
Variable wb_to_csv : DataFrame num → result unit.

Variable str_upper : string → string.

(** [wb_iso_list]: the upper-cased reporters and partners, [ALL] left
    out, each once, in ascending order; a wildcard stands for every ISO3
    code of [COUNTRY_MAP]. *)
Definition wb_iso_list (cfg : config) (COUNTRY_MAP : gmap string string)
  : list string :=
  let all_iso := (map_to_list COUNTRY_MAP).*1 in
  let reporters_iso :=
    if decide (REPORTERS cfg = ["all"]) then all_iso else REPORTERS cfg in
  let partners_iso :=
    if decide (PARTNERS cfg = ["all"]) then all_iso else PARTNERS cfg in
  sorted_set
    (str_upper <$> filter (λ iso, str_upper iso ≠ "ALL")
                          (reporters_iso ++ partners_iso)).

(** [astype(str).str.replace("YR", "", regex=False).astype(int)] on one
    cell. *)
Definition year_of_time (v : cell num) : result (cell num) :=
  let text :=
    match v with
    | Some (VStr s) => s
    | Some (VNum n) => str_of_num n
    | None => "nan"
    end in
  match int_of_str (remove_YR text) with
  | Some n => Ok (Some (VNum n))
  | None => Raise ValueError
  end.

(** [df["Year"] = df["Year"].astype(str).str.replace(..).astype(int)]. *)
Definition convert_year (df : DataFrame num) : outcome (DataFrame num) :=
  let cols := columns df in
  match label_count "Year" cols with
  | 0 => Throws (Exn KeyError)
  | 1 =>
      rows' ← lift (traverse
                      (λ r, y ← year_of_time (cell_at cols r "Year");
                            Ok (zip_with (λ l v, if decide (l = "Year") then y else v)
                                         cols r))
                      (rows df));
      Returns (Frame cols rows')
  | _ => Throws AttributeError
  end.

(** [fetch_world_bank_data]. *)
Definition fetch_world_bank_data (cfg : config) (ws : settings)
    (COUNTRY_MAP : gmap string string) (mapping : wb_mapping_source)
  : outcome (DataFrame num) :=
  let years := YEARS cfg in
  match years with
  | [] => Throws IndexError
  | _ =>
      df ← wb_data (WB_VARIABLES ws) (wb_iso_list cfg COUNTRY_MAP) years;
      let df :=
        rename_columns
          (λ l, if decide (l = "economy") then "countryISO"
                else if decide (l = "time") then "Year" else l)
          df in
      df ← convert_year df;
      let df := rename_columns (wb_rename ws mapping) df in
      _ ← lift (wb_to_csv df);
      Returns df
  end.

End WorldBank.

(** ** Summary report *)

(** [get_wb_column_map]: the table of the sheet [WB_Variable_Map]. *)
Definition wb_code_table {num} (ws : settings) (description : string)
  : DataFrame num :=
  Frame ["WB_Code"; "WB_Description"]
    ((λ code, [Some (VStr code); Some (VStr description)]) <$> WB_VARIABLES ws).

Definition get_wb_column_map {num} (ws : settings) (mapping : wb_mapping_source)
  : DataFrame num :=
  if USE_WB_VARIABLE_NAME ws then wb_code_table ws "(Default Code Used)"
  else
    match mapping with
    | WbMappingSheet cells =>
        Frame ["WB_Code"; "WB_Description"]
          ((λ kv : string * string, [Some (VStr kv.1); Some (VStr kv.2)])
             <$> filter (λ kv : string * string, kv.1 ∈ WB_VARIABLES ws) cells)
    | WbMappingUnreadable => wb_code_table ws "(Mapping Failed/Code Used)"
    | WbMappingAbsent => wb_code_table ws "(Default Code Used)"
    end.

(** The pandas aggregations behind the other sheets. *)
Inductive aggregation :=
| UniqueReportersByYear
| ReporterYearCrosstab
| MissingByYear
| ObservationsByYearProduct
| UniqueCombosByYear
| DescribeBy (key : string).

Section Summary.

Context {num : Type}.

(** [df.select_dtypes(include=['number']).columns.tolist()], an
    aggregation of the table (given the numeric columns), and the closing
    of the [pd.ExcelWriter], which saves the sheets written so far. *)
Variable select_dtypes_number : DataFrame num → list string.
Variable aggregate :
  aggregation → list string → DataFrame num → result (DataFrame num).
Variable save_workbook : list (string * DataFrame num) → result unit.

(** The sheets of [export_summary] in the order of the code, each with
    the computation of its table. *)
Definition summary_plan (ws : settings) (mapping : wb_mapping_source)
    (df : DataFrame num) : list (string * result (DataFrame num)) :=
  let numeric_cols := select_dtypes_number df in
  let has c := bool_decide (c ∈ columns df) in
  let sheet (cond : bool) name agg :=
    if cond then [(name, aggregate agg numeric_cols df)] else [] in
  let numeric := bool_decide (numeric_cols ≠ []) in
  sheet (has "year" && has "reporterISO") "Yearly_Reporters" UniqueReportersByYear
  ++ sheet (has "year" && has "reporterISO") "CountryYearMatrix" ReporterYearCrosstab
  ++ sheet (has "year") "MissingData" MissingByYear
  ++ sheet (has "cmdCode" && has "year") "ProductSummary" ObservationsByYearProduct
  ++ [("WB_Variable_Map", Ok (get_wb_column_map ws mapping))]
  ++ sheet (has "year" && has "reporterISO" && has "partnerISO" && has "cmdCode")
       "Unique_Combos_Year" UniqueCombosByYear
  ++ sheet (has "reporterISO" && numeric) "Stats_by_Reporter" (DescribeBy "reporterISO")
  ++ sheet (has "year" && numeric) "Stats_by_Year" (DescribeBy "year")
  ++ sheet (has "cmdCode" && numeric) "Stats_by_Product" (DescribeBy "cmdCode").

(** The body of the [with] block: the sheets written until a computation
    raises, and that exception. *)
Fixpoint write_sheets (plan : list (string * result (DataFrame num)))
  : list (string * DataFrame num) * option exn :=
  match plan with
  | [] => ([], None)
  | (name, Ok table) :: plan =>
      let '(written, e) := write_sheets plan in ((name, table) :: written, e)
  | (_, Raise e) :: _ => ([], Some e)
  end.

(** [export_summary]: skipped for an empty table; otherwise the workbook
    is saved when the block is left, also when it is left by an
    exception. *)
Definition export_summary (ws : settings) (mapping : wb_mapping_source)
    (df : DataFrame num) : result unit :=
  if df_empty df then Ok ()
  else
    let '(written, e) := write_sheets (summary_plan ws mapping df) in
    _ ← save_workbook written;
    match e with
    | Some e => Raise e
    | None => Ok ()
    end.

End Summary.

(** ** The routine *)

Section Routine.

Context {num : Type} `{!EqDecision num}.

Variable str_strip : string → string.
Variable str_upper : string → string.
Variable str_zfill : nat → string → string.
Variable to_numeric : string → option num.
Variable as_Int64 : num → option num.
Variable api : Z → string → api_outcome num.
Variable as_completed : Z → list string → list string.
Variable to_csv : csv_target → DataFrame num → result unit.
Variable wb_data : list string → list string → list Z → outcome (DataFrame num).
Variable str_of_num : num → string.
Variable int_of_str : string → option num.
Variable wb_to_csv : DataFrame num → result unit.
Variable select_dtypes_number : DataFrame num → list string.
Variable aggregate :
  aggregation → list string → DataFrame num → result (DataFrame num).
Variable save_workbook : list (string * DataFrame num) → result unit.

(** [main], with the three files it reads passed in; [COUNTRY_MAP] is
    [load_country_mapping()]. *)
Definition main (cfg : config) (ws : settings)
    (country_sheet : mapping_source) (wb_sheet : wb_mapping_source)
    (cepii_file : cepii_source) : outcome unit :=
  let COUNTRY_MAP := load_country_mapping str_strip str_upper str_zfill country_sheet in
  cepii_df ← lift (prepare_cepii_data to_numeric cfg cepii_file);
  wb_df ← fetch_world_bank_data wb_data str_of_num int_of_str wb_to_csv str_upper
             cfg ws COUNTRY_MAP wb_sheet;
  trade_df ← lift (fetch_un_comtrade_data api as_completed to_csv str_upper
                     cfg COUNTRY_MAP);
  if MERGE_DATA ws then
    merged_df ← lift (merge_datasets to_numeric as_Int64 to_csv
                        wb_df trade_df cepii_df);
    lift (export_summary select_dtypes_number aggregate save_workbook
            ws wb_sheet merged_df)
  else Returns ().

End Routine.

(** ** Properties of the World Bank fetcher *)

(** X16. The economies asked of the World Bank are the upper-cased
    reporters and partners, each once, in ascending order, never [ALL]:
    a listed code is asked for whether or not [COUNTRY_MAP] knows it, and
    a wildcard on either side brings in every ISO3 code of
    [COUNTRY_MAP]. *)
Theorem world_bank_economies_sorted_distinct
    (str_upper : string → string) (cfg : config)
    (COUNTRY_MAP : gmap string string) :
  let isos := wb_iso_list str_upper cfg COUNTRY_MAP in
  StronglySorted (λ a b, Str.lt a b = true) isos
  ∧ NoDup isos
  ∧ ("ALL" ∉ isos)
  ∧ ∀ u, u ∈ isos ↔
      u ≠ "ALL"
      ∧ ∃ iso, str_upper iso = u
          ∧ ((REPORTERS cfg ≠ ["all"] ∧ iso ∈ REPORTERS cfg)
             ∨ (PARTNERS cfg ≠ ["all"] ∧ iso ∈ PARTNERS cfg)
             ∨ ((REPORTERS cfg = ["all"] ∨ PARTNERS cfg = ["all"])
                ∧ is_Some (COUNTRY_MAP !! iso))).
Proof.
  intros isos.
  assert (Hs : StronglySorted (λ a b, Str.lt a b = true) isos)
    by apply sorted_set_strict.
  assert (Hkeys : ∀ iso, iso ∈ (map_to_list COUNTRY_MAP).*1
                         ↔ is_Some (COUNTRY_MAP !! iso)).
  { intros iso. rewrite list_elem_of_fmap. split.
    - intros ([k v] & -> & H%elem_of_map_to_list). by exists v.
    - intros [v H]. exists (iso, v). split; [done|]. by apply elem_of_map_to_list. }
  assert (Hmem : ∀ u, u ∈ isos ↔
      u ≠ "ALL"
      ∧ ∃ iso, str_upper iso = u
          ∧ ((REPORTERS cfg ≠ ["all"] ∧ iso ∈ REPORTERS cfg)
             ∨ (PARTNERS cfg ≠ ["all"] ∧ iso ∈ PARTNERS cfg)
             ∨ ((REPORTERS cfg = ["all"] ∨ PARTNERS cfg = ["all"])
                ∧ is_Some (COUNTRY_MAP !! iso)))).
  { intros u. unfold isos, wb_iso_list. cbn zeta.
    rewrite elem_of_sorted_set, list_elem_of_fmap. split.
    - intros (iso & -> & [Hne Hin]%list_elem_of_filter). split; [done|].
      exists iso. split; [done|]. apply elem_of_app in Hin as [Hin|Hin].
      + destruct (decide (REPORTERS cfg = ["all"])); [|by left].
        right; right. split; [by left|]. by apply Hkeys.
      + destruct (decide (PARTNERS cfg = ["all"])); [|by right; left].
        right; right. split; [by right|]. by apply Hkeys.
    - intros [Hne (iso & <- & Hcase)]. exists iso. split; [done|].
      apply list_elem_of_filter. split; [done|]. apply elem_of_app.
      destruct Hcase as [[Hr Hin]|[[Hp Hin]|[[Hr|Hp] Hin]]].
      + left. by rewrite decide_False.
      + right. by rewrite decide_False.
      + left. rewrite decide_True by done. by apply Hkeys.
      + right. rewrite decide_True by done. by apply Hkeys. }
  split_and!; [done|by apply StronglySorted_lt_NoDup| |done].
  intros H%Hmem. by destruct H.
Qed.

Lemma remove_YR_prefix (d : string) :
  remove_YR ("YR" +:+ d) = remove_YR d.
Proof. reflexivity. Qed.

(** A text without the letter [Y], such as a numeral. *)
Definition Y_free (s : string) : Prop :=
  Ascii.ascii_of_N 89 ∉ String.list_ascii_of_string s.

#[export] Instance Y_free_dec s : Decision (Y_free s).
Proof. unfold Y_free. apply _. Defined.

Lemma remove_YR_Y_free (d : string) : Y_free d → remove_YR d = d.
Proof.
  unfold Y_free. induction d as [|c d IH]; [done|]. intros Hc.
  assert (Hd : Ascii.ascii_of_N 89 ∉ String.list_ascii_of_string d).
  { intros H. apply Hc. by right. }
  assert (Hne : c ≠ Ascii.ascii_of_N 89).
  { intros ->. apply Hc. left. }
  specialize (IH Hd). destruct d as [|c' d]; [done|].
  cbn [remove_YR]. rewrite decide_False by (by intros [? _]).
  f_equal. exact IH.
Qed.

Lemma cell_at_rename_in {A} (f : string → string) (c c' : string) cols
    (r : list (option A)) :
  (∀ l, l ∈ cols → f l = c' ↔ l = c) →
  cell_at (f <$> cols) r c' = cell_at cols r c.
Proof.
  revert r. induction cols as [|l cols IH]; intros [|v r] Hf;
    cbn [fmap list_fmap cell_at]; try done.
  destruct (decide (f l = c')) as [E|E].
  - apply Hf in E; [|by left]. by rewrite decide_True.
  - rewrite decide_False.
    + apply IH. intros l' Hl'. apply Hf. by right.
    + intros E'. apply E, Hf; [by left|done].
Qed.

Section WorldBankFacts.

Context {num : Type}.
Variable wb_data : list string → list string → list Z → outcome (DataFrame num).
Variable str_of_num : num → string.
Variable int_of_str : string → option num.
Variable wb_to_csv : DataFrame num → result unit.
Variable str_upper : string → string.

Lemma convert_year_inv (df out : DataFrame num) :
  convert_year str_of_num int_of_str df = Returns out →
  columns out = columns df
  ∧ label_count "Year" (columns df) = 1
  ∧ Forall2
      (λ r r', ∃ y,
         year_of_time str_of_num int_of_str (cell_at (columns df) r "Year") = Ok y
         ∧ r' = zip_with (λ l v, if decide (l = "Year") then y else v)
                  (columns df) r)
      (rows df) (rows out).
Proof.
  unfold convert_year.
  destruct (label_count "Year" (columns df)) as [|[|n]] eqn:Ec;
    [by intros [=]| |by intros [=]].
  destruct (traverse _ (rows df)) as [rows'|] eqn:Et; [|by intros [=]].
  cbn [lift mbind outcome_bind]. intros [= <-]. cbn [columns rows].
  split_and!; [done|done|].
  apply traverse_Ok in Et. eapply Forall2_impl; [exact Et|].
  intros r r1 Hr. cbn beta in Hr.
  destruct (year_of_time _ _ _) as [y|]; [|by inversion Hr].
  cbn [mbind result_bind] in Hr. injection Hr as <-. by exists y.
Qed.

Lemma fetch_world_bank_data_inv cfg ws COUNTRY_MAP mapping df :
  fetch_world_bank_data wb_data str_of_num int_of_str wb_to_csv str_upper
    cfg ws COUNTRY_MAP mapping = Returns df →
  ∃ raw converted,
    YEARS cfg ≠ []
    ∧ wb_data (WB_VARIABLES ws) (wb_iso_list str_upper cfg COUNTRY_MAP) (YEARS cfg)
      = Returns raw
    ∧ convert_year str_of_num int_of_str
        (rename_columns
           (λ l, if decide (l = "economy") then "countryISO"
                 else if decide (l = "time") then "Year" else l) raw)
      = Returns converted
    ∧ df = rename_columns (wb_rename ws mapping) converted.
Proof.
  unfold fetch_world_bank_data. destruct (YEARS cfg) as [|y ys] eqn:Ey;
    [by intros [=]|].
  destruct (wb_data _ _ _) as [raw|] eqn:Eraw; [|by intros [=]].
  cbn [mbind outcome_bind].
  destruct (convert_year _ _ _) as [converted|] eqn:Econv; [|by intros [=]].
  cbn [mbind outcome_bind].
  destruct (wb_to_csv _) as [[]|]; [|by intros [=]].
  cbn [lift mbind outcome_bind]. intros [= <-]. by exists raw, converted.
Qed.

End WorldBankFacts.

(** X17. An empty [YEARS] stops the World Bank step, and with it the
    routine, with the [IndexError] of [years[0]], before the service is
    asked anything; the Comtrade step on its own would have returned the
    empty table. *)
Theorem empty_years_raise_index_error {num : Type} `{!EqDecision num}
    (str_strip str_upper : string → string) (str_zfill : nat → string → string)
    (to_numeric : string → option num) (as_Int64 : num → option num)
    (api : Z → string → api_outcome num)
    (as_completed : Z → list string → list string)
    (to_csv : csv_target → DataFrame num → result unit)
    (wb_data : list string → list string → list Z → outcome (DataFrame num))
    (str_of_num : num → string) (int_of_str : string → option num)
    (wb_to_csv : DataFrame num → result unit)
    (select_dtypes_number : DataFrame num → list string)
    (aggregate : aggregation → list string → DataFrame num → result (DataFrame num))
    (save_workbook : list (string * DataFrame num) → result unit)
    (cfg : config) (ws : settings) (COUNTRY_MAP : gmap string string)
    (country_sheet : mapping_source) (wb_sheet : wb_mapping_source)
    (cepii_file : cepii_source) :
  YEARS cfg = [] →
  fetch_world_bank_data wb_data str_of_num int_of_str wb_to_csv str_upper
    cfg ws COUNTRY_MAP wb_sheet = Throws IndexError
  ∧ fetch_un_comtrade_data api as_completed to_csv str_upper cfg COUNTRY_MAP
    = Ok empty_frame
  ∧ (∀ cepii_df,
       prepare_cepii_data to_numeric cfg cepii_file = Ok cepii_df →
       main str_strip str_upper str_zfill to_numeric as_Int64 api as_completed
         to_csv wb_data str_of_num int_of_str wb_to_csv select_dtypes_number
         aggregate save_workbook cfg ws country_sheet wb_sheet cepii_file
       = Throws IndexError).
Proof.
  intros Hy. split_and!.
  - unfold fetch_world_bank_data. by rewrite Hy.
  - unfold fetch_un_comtrade_data. rewrite Hy.
    by destruct (get_reporter_codes _ _ _).
  - intros cepii_df Hc. unfold main. rewrite Hc. cbn [lift mbind outcome_bind].
    unfold fetch_world_bank_data. by rewrite Hy.
Qed.

Module DemoWorldBank.

Definition ws : settings := Settings ["NY.GDP.MKTP.CD"; "SP.POP.TOTL"] false true.

Definition raw : DataFrame Z :=
  Frame ["economy"; "time"; "NY.GDP.MKTP.CD"; "SP.POP.TOTL"]
    [[Some (VStr "THA"); Some (VStr "YR2015"); Some (VNum 401%Z); Some (VNum 68%Z)];
     [Some (VStr "USA"); Some (VStr "YR2015"); Some (VNum 18206%Z); Some (VNum 320%Z)]].

(** The service answers with [raw] whatever it is asked. *)
Definition wb_data (series economy : list string) (time : list Z)
  : outcome (DataFrame Z) := Returns raw.

(** No cell of [raw] under [time] is a number, so [str] of a number is
    never asked for. *)
Definition str_of_num (n : Z) : string := "".

Definition int_of_str (s : string) : option Z := DemoCepii.to_numeric s.

Definition wb_to_csv (df : DataFrame Z) : result unit := Ok ().

Definition sheet : wb_mapping_source :=
  WbMappingSheet [("NY.GDP.MKTP.CD", "GDP (current US$)");
                  ("FP.CPI.TOTL.ZG", "Inflation (annual %)")].

Definition fetched : DataFrame Z :=
  Frame ["countryISO"; "Year"; "GDP (current US$)"; "SP.POP.TOTL"]
    [[Some (VStr "THA"); Some (VNum 2015%Z); Some (VNum 401%Z); Some (VNum 68%Z)];
     [Some (VStr "USA"); Some (VNum 2015%Z); Some (VNum 18206%Z); Some (VNum 320%Z)]].

Definition cfg_no_years : config := Config [] ["THA"; "USA"] ["all"] ["contig"].

Definition select_dtypes_number (df : DataFrame Z) : list string := [].

Definition aggregate (a : aggregation) (numeric_cols : list string)
    (df : DataFrame Z) : result (DataFrame Z) := Ok df.

Definition save_workbook (sheets : list (string * DataFrame Z)) : result unit :=
  Ok ().

(** The workbook cannot be saved. *)
Definition save_fails (sheets : list (string * DataFrame Z)) : result unit :=
  Raise ValueError.

Lemma fetched_eq :
  fetch_world_bank_data wb_data str_of_num int_of_str wb_to_csv Demo.str_upper
    DemoCepii.cfg ws Demo.COUNTRY_MAP sheet = Returns fetched.
Proof. vm_compute. reflexivity. Qed.

End DemoWorldBank.

Lemma empty_years_raise_index_error_witness :
  YEARS DemoWorldBank.cfg_no_years = []
  ∧ fetch_world_bank_data DemoWorldBank.wb_data DemoWorldBank.str_of_num
      DemoWorldBank.int_of_str DemoWorldBank.wb_to_csv Demo.str_upper
      DemoWorldBank.cfg_no_years DemoWorldBank.ws Demo.COUNTRY_MAP
      DemoWorldBank.sheet = Throws IndexError.
Proof.
  assert (H : YEARS DemoWorldBank.cfg_no_years = []) by reflexivity.
  split; [exact H|].
  exact (proj1 (empty_years_raise_index_error Ascii7.strip Ascii7.upper
                  Ascii7.zfill DemoCepii.to_numeric DemoMerge.as_Int64
                  Demo.api_down Demo.in_order Demo.to_csv
                  DemoWorldBank.wb_data DemoWorldBank.str_of_num
                  DemoWorldBank.int_of_str DemoWorldBank.wb_to_csv
                  DemoWorldBank.select_dtypes_number DemoWorldBank.aggregate
                  DemoWorldBank.save_workbook
                  DemoWorldBank.cfg_no_years DemoWorldBank.ws Demo.COUNTRY_MAP
                  MappingAbsent DemoWorldBank.sheet CepiiAbsent H)).
Defined.

(** X18. The [Year] column of the World Bank table.  When the step
    returns a table and the sheet renames neither [Year] nor another label
    to [Year], the table has one row per row of the service's table, and
    the [Year] cell of each row is the integer read from its [time] cell
    once every [YR] is removed; a [time] cell [YR] followed by a text
    without [Y] yields the integer of that text. *)
Theorem world_bank_year_is_parsed {num : Type}
    (wb_data : list string → list string → list Z → outcome (DataFrame num))
    (str_of_num : num → string) (int_of_str : string → option num)
    (wb_to_csv : DataFrame num → result unit)
    (str_upper : string → string)
    (cfg : config) (ws : settings) (COUNTRY_MAP : gmap string string)
    (mapping : wb_mapping_source) (raw df : DataFrame num) :
  wb_data (WB_VARIABLES ws) (wb_iso_list str_upper cfg COUNTRY_MAP) (YEARS cfg)
  = Returns raw →
  aligned raw → "time" ∈ columns raw →
  (∀ l, wb_rename ws mapping l = "Year" ↔ l = "Year") →
  fetch_world_bank_data wb_data str_of_num int_of_str wb_to_csv str_upper
    cfg ws COUNTRY_MAP mapping = Returns df →
  Forall2
    (λ r0 r, ∃ n,
       cell_at (columns df) r "Year" = Some (VNum n)
       ∧ year_of_time str_of_num int_of_str (cell_at (columns raw) r0 "time")
         = Ok (Some (VNum n)))
    (rows raw) (rows df)
  ∧ ∀ d, Y_free d →
      year_of_time str_of_num int_of_str (Some (VStr ("YR" +:+ d)))
      = match int_of_str d with
        | Some n => Ok (Some (VNum n))
        | None => Raise ValueError
        end.
Proof.
  intros Hraw Hal Htime Hren Hrun. split.
  2:{ intros d Hd. unfold year_of_time.
      by rewrite remove_YR_prefix, remove_YR_Y_free. }
  apply fetch_world_bank_data_inv in Hrun
    as (raw' & conv & _ & Hraw' & Hconv & ->).
  rewrite Hraw in Hraw'. injection Hraw' as <-.
  apply convert_year_inv in Hconv as (Hcols & Hcount & Hrows).
  set (f := λ l, if decide (l = "economy") then "countryISO"
                 else if decide (l = "time") then "Year" else l) in *.
  cbn [rename_columns columns rows] in *.
  assert (Hf : ∀ l, l ∈ columns raw → f l = "Year" ↔ l = "time").
  { intros l Hl. split; [|intros ->; done]. intros E.
    destruct (decide (l = "time")) as [|Hne]; [done|exfalso].
    assert (Hl2 : l = "Year").
    { unfold f in E. destruct (decide (l = "economy")); [done|].
      by rewrite decide_False in E. }
    subst l. unfold label_count in Hcount.
    rewrite filter_fmap, length_fmap in Hcount.
    pose proof (two_elements "time" "Year"
                  (filter (λ x, f x = "Year") (columns raw))) as H2.
    assert (2 ≤ length (filter (λ x, f x = "Year") (columns raw))); [|lia].
    apply H2; [done| |]; apply list_elem_of_filter; by split. }
  eapply Forall2_impl.
  { apply (Forall2_with_left _ _ _ _ Hrows Hal). }
  intros r0 r [(y & Hy & ->) Hlen]. cbn beta in Hlen.
  rewrite (cell_at_rename_in f "time" "Year") in Hy by done.
  unfold year_of_time in Hy |- *.
  destruct (int_of_str _) as [n|]; [|done]. injection Hy as <-.
  exists n. split; [|done]. rewrite Hcols.
  rewrite (cell_at_rename (wb_rename ws mapping) "Year" "Year") by done.
  apply cell_at_overwrite_eq.
  - apply list_elem_of_fmap. exists "time". split; [|done]. symmetry. by apply Hf.
  - by rewrite length_fmap.
Qed.

Lemma world_bank_year_is_parsed_witness :
  aligned DemoWorldBank.raw
  ∧ "time" ∈ columns DemoWorldBank.raw
  ∧ fetch_world_bank_data DemoWorldBank.wb_data DemoWorldBank.str_of_num
      DemoWorldBank.int_of_str DemoWorldBank.wb_to_csv Demo.str_upper
      DemoCepii.cfg DemoWorldBank.ws Demo.COUNTRY_MAP DemoWorldBank.sheet
    = Returns DemoWorldBank.fetched
  ∧ Forall2
      (λ r0 r, ∃ n,
         cell_at (columns DemoWorldBank.fetched) r "Year" = Some (VNum n)
         ∧ year_of_time DemoWorldBank.str_of_num DemoWorldBank.int_of_str
             (cell_at (columns DemoWorldBank.raw) r0 "time")
           = Ok (Some (VNum n)))
      (rows DemoWorldBank.raw) (rows DemoWorldBank.fetched).
Proof.
  assert (H1 : aligned DemoWorldBank.raw) by (repeat constructor).
  assert (H2 : "time" ∈ columns DemoWorldBank.raw)
    by (apply (bool_decide_unpack _); vm_compute; exact I).
  assert (H3 : ∀ l, wb_rename DemoWorldBank.ws DemoWorldBank.sheet l = "Year"
                    ↔ l = "Year").
  { intros l. unfold wb_rename, DemoWorldBank.sheet, DemoWorldBank.ws.
    cbn [USE_WB_VARIABLE_NAME]. rewrite lookup_dict_of_items.
    cbn [filter list_filter fst].
    destruct (decide ("NY.GDP.MKTP.CD" = l)) as [<-|];
      [vm_compute; split; intros [=]|].
    destruct (decide ("FP.CPI.TOTL.ZG" = l)) as [<-|];
      [vm_compute; split; intros [=]|].
    done. }
  split; [exact H1|]. split; [exact H2|].
  split; [exact DemoWorldBank.fetched_eq|].
  exact (proj1 (world_bank_year_is_parsed DemoWorldBank.wb_data
                  DemoWorldBank.str_of_num DemoWorldBank.int_of_str
                  DemoWorldBank.wb_to_csv Demo.str_upper DemoCepii.cfg
                  DemoWorldBank.ws Demo.COUNTRY_MAP DemoWorldBank.sheet
                  DemoWorldBank.raw DemoWorldBank.fetched
                  eq_refl H1 H2 H3 DemoWorldBank.fetched_eq)).
Defined.

(** ** Properties of the summary report *)

Lemma filter_unique_key (cells : list (string * string)) code d :
  NoDup cells.*1 → (code, d) ∈ cells →
  filter (λ kv : string * string, kv.1 = code) cells = [(code, d)].
Proof.
  induction cells as [|[k v] cells IH]; intros Hnd Hin;
    [by apply elem_of_nil in Hin|].
  cbn [fmap list_fmap fst] in Hnd. apply NoDup_cons in Hnd as [Hk Hnd].
  apply elem_of_cons in Hin as [[= <- <-]|Hin].
  - rewrite filter_cons_True by done. f_equal.
    apply filter_none. intros [k' v'] Hin' E. cbn [fst] in E. subst k'.
    apply Hk, list_elem_of_fmap. by exists (code, v').
  - rewrite filter_cons_False; [by apply IH|].
    cbn [fst]. intros ->. apply Hk, list_elem_of_fmap. by exists (code, d).
Qed.

(** X19. The table of the sheet [WB_Variable_Map] always has the two
    columns [WB_Code] and [WB_Description], and each of its rows names a
    configured indicator.  Unless a readable sheet is used it has one row
    per configured indicator, in the configured order; with a readable
    sheet it has the rows of the sheet whose ID is configured, in the order
    of the sheet, so an indicator the sheet does not describe is not
    listed. *)
Theorem wb_variable_map_lists_configured_codes {num : Type}
    (ws : settings) (mapping : wb_mapping_source) :
  let table : DataFrame num := get_wb_column_map ws mapping in
  columns table = ["WB_Code"; "WB_Description"]
  ∧ (∀ r, r ∈ rows table →
       ∃ code d, r = [Some (VStr code); Some (VStr d)]
                 ∧ code ∈ WB_VARIABLES ws)
  ∧ (USE_WB_VARIABLE_NAME ws = true
     ∨ mapping = WbMappingAbsent ∨ mapping = WbMappingUnreadable →
     (λ r, cell_at (columns table) r "WB_Code") <$> rows table
     = (λ code, Some (VStr code)) <$> WB_VARIABLES ws)
  ∧ (∀ cells, USE_WB_VARIABLE_NAME ws = false →
       mapping = WbMappingSheet cells →
       rows table
       = (λ kv : string * string, [Some (VStr kv.1); Some (VStr kv.2)])
           <$> filter (λ kv : string * string, kv.1 ∈ WB_VARIABLES ws) cells).
Proof.
  intros table.
  assert (Hdefault : ∀ note,
            (λ r, cell_at ["WB_Code"; "WB_Description"] r "WB_Code")
              <$> rows (wb_code_table (num := num) ws note)
            = (λ code, Some (VStr code)) <$> WB_VARIABLES ws).
  { intros note. unfold wb_code_table. cbn [rows].
    rewrite <- list_fmap_compose. by apply list_fmap_ext. }
  assert (Hrows : ∀ note r, r ∈ rows (wb_code_table (num := num) ws note) →
            ∃ code d, r = [Some (VStr code); Some (VStr d)]
                      ∧ code ∈ WB_VARIABLES ws).
  { intros note r (code & -> & Hc)%list_elem_of_fmap. by exists code, note. }
  unfold table, get_wb_column_map.
  destruct (USE_WB_VARIABLE_NAME ws) eqn:Euse.
  { split_and!; [done|by apply Hrows|intros _; apply Hdefault|by intros ? [=]]. }
  destruct mapping as [| |cells].
  - split_and!; [done|by apply Hrows|intros _; apply Hdefault|by intros ? _ [=]].
  - split_and!; [done|by apply Hrows|intros _; apply Hdefault|by intros ? _ [=]].
  - split_and!; [done| | |].
    + intros r ([code d] & -> & [Hc _]%list_elem_of_filter)%list_elem_of_fmap.
      by exists code, d.
    + intros [?|[?|?]]; done.
    + by intros ? _ [= <-].
Qed.

(** X20. The summary and the renaming agree.  When the sheet is used and
    no ID occurs twice in it, every row (code, description) of the
    [WB_Variable_Map] table gives the label that [fetch_world_bank_data]
    has put in the place of the column [code]. *)
Theorem wb_variable_map_agrees_with_renaming {num : Type}
    (ws : settings) (cells : list (string * string)) (code d : string) :
  USE_WB_VARIABLE_NAME ws = false →
  NoDup cells.*1 →
  [Some (VStr code); Some (VStr d)]
    ∈ rows (get_wb_column_map (num := num) ws (WbMappingSheet cells)) →
  wb_rename ws (WbMappingSheet cells) code = d.
Proof.
  intros Huse Hnd. unfold get_wb_column_map, wb_rename. rewrite Huse.
  cbn [rows].
  intros ([code' d'] & [= <- <-] & [_ Hin]%list_elem_of_filter)%list_elem_of_fmap.
  rewrite lookup_dict_of_items, (filter_unique_key cells code d) by done.
  reflexivity.
Qed.

Lemma wb_variable_map_agrees_with_renaming_witness :
  USE_WB_VARIABLE_NAME DemoWorldBank.ws = false
  ∧ [Some (VStr "NY.GDP.MKTP.CD"); Some (VStr "GDP (current US$)")]
      ∈ rows (get_wb_column_map (num := Z) DemoWorldBank.ws DemoWorldBank.sheet)
  ∧ wb_rename DemoWorldBank.ws DemoWorldBank.sheet "NY.GDP.MKTP.CD"
    = "GDP (current US$)".
Proof.
  assert (H1 : USE_WB_VARIABLE_NAME DemoWorldBank.ws = false) by reflexivity.
  assert (H2 : NoDup [("NY.GDP.MKTP.CD", "GDP (current US$)");
                      ("FP.CPI.TOTL.ZG", "Inflation (annual %)")].*1)
    by (apply (bool_decide_unpack _); vm_compute; exact I).
  assert (H3 : [Some (VStr "NY.GDP.MKTP.CD"); Some (VStr "GDP (current US$)")]
               ∈ rows (get_wb_column_map (num := Z) DemoWorldBank.ws
                         DemoWorldBank.sheet))
    by (vm_compute; left).
  split; [exact H1|]. split; [exact H3|].
  exact (wb_variable_map_agrees_with_renaming (num := Z) DemoWorldBank.ws
           [("NY.GDP.MKTP.CD", "GDP (current US$)");
            ("FP.CPI.TOTL.ZG", "Inflation (annual %)")]
           "NY.GDP.MKTP.CD" "GDP (current US$)" H1 H2 H3).
Defined.

Section SummaryFacts.

Context {num : Type}.
Variable select_dtypes_number : DataFrame num → list string.
Variable aggregate :
  aggregation → list string → DataFrame num → result (DataFrame num).
Variable save_workbook : list (string * DataFrame num) → result unit.

(** The names of the sheets of the plan, by the conditions of the code. *)
Definition sheet_names (year reporter partner product numeric : bool)
  : list string :=
  (if year && reporter then ["Yearly_Reporters"; "CountryYearMatrix"] else [])
  ++ (if year then ["MissingData"] else [])
  ++ (if product && year then ["ProductSummary"] else [])
  ++ ["WB_Variable_Map"]
  ++ (if year && reporter && partner && product then ["Unique_Combos_Year"] else [])
  ++ (if reporter && numeric then ["Stats_by_Reporter"] else [])
  ++ (if year && numeric then ["Stats_by_Year"] else [])
  ++ (if product && numeric then ["Stats_by_Product"] else []).

Lemma summary_plan_names ws mapping (df : DataFrame num) :
  (summary_plan select_dtypes_number aggregate ws mapping df).*1
  = sheet_names (bool_decide ("year" ∈ columns df))
      (bool_decide ("reporterISO" ∈ columns df))
      (bool_decide ("partnerISO" ∈ columns df))
      (bool_decide ("cmdCode" ∈ columns df))
      (bool_decide (select_dtypes_number df ≠ [])).
Proof.
  unfold summary_plan, sheet_names. cbn zeta.
  destruct (bool_decide ("year" ∈ columns df)),
    (bool_decide ("reporterISO" ∈ columns df)),
    (bool_decide ("partnerISO" ∈ columns df)),
    (bool_decide ("cmdCode" ∈ columns df)),
    (bool_decide (select_dtypes_number df ≠ [])); reflexivity.
Qed.

Lemma write_sheets_all_Ok (plan : list (string * result (DataFrame num)))
    written :
  write_sheets plan = (written, None) →
  plan = (λ s : string * DataFrame num, (s.1, Ok s.2)) <$> written.
Proof.
  revert written. induction plan as [|[name [table|e]] plan IH];
    intros written; cbn [write_sheets].
  - by intros [= <-].
  - destruct (write_sheets plan) as [w e'] eqn:E. intros [= <- ->].
    cbn [fmap list_fmap fst snd]. f_equal. by apply IH.
  - by intros [=].
Qed.

End SummaryFacts.

(** X21. The sheets of the summary.  Whatever the table, the planned
    sheets have pairwise different names, at most nine, and the sheet
    [WB_Variable_Map] with the table of [get_wb_column_map] is among them,
    so a workbook that is written is never without a sheet.  A table
    without a [year] column gets no sheet but [WB_Variable_Map],
    [Stats_by_Reporter] and [Stats_by_Product]; one with [year] and
    [reporterISO] gets [Yearly_Reporters], [CountryYearMatrix] and
    [MissingData].  When [export_summary] returns normally for a table
    that is not empty, every planned sheet was computed and saved. *)
Theorem summary_sheets_are_planned {num : Type}
    (select_dtypes_number : DataFrame num → list string)
    (aggregate : aggregation → list string → DataFrame num → result (DataFrame num))
    (save_workbook : list (string * DataFrame num) → result unit)
    (ws : settings) (mapping : wb_mapping_source) (df : DataFrame num) :
  let plan := summary_plan select_dtypes_number aggregate ws mapping df in
  NoDup plan.*1
  ∧ length plan ≤ 9
  ∧ ("WB_Variable_Map", Ok (get_wb_column_map ws mapping)) ∈ plan
  ∧ ("year" ∉ columns df →
     plan.*1 ⊆ ["WB_Variable_Map"; "Stats_by_Reporter"; "Stats_by_Product"])
  ∧ ("year" ∈ columns df → "reporterISO" ∈ columns df →
     ["Yearly_Reporters"; "CountryYearMatrix"; "MissingData"] ⊆ plan.*1)
  ∧ (df_empty df = false →
     export_summary select_dtypes_number aggregate save_workbook ws mapping df
     = Ok () →
     ∃ written,
       plan = (λ s : string * DataFrame num, (s.1, Ok s.2)) <$> written
       ∧ save_workbook written = Ok ()).
Proof.
  intros plan.
  pose proof (summary_plan_names select_dtypes_number aggregate ws mapping df)
    as Hnames. fold plan in Hnames.
  split_and!.
  - rewrite Hnames. apply (bool_decide_unpack _).
    by destruct (bool_decide ("year" ∈ columns df)),
      (bool_decide ("reporterISO" ∈ columns df)),
      (bool_decide ("partnerISO" ∈ columns df)),
      (bool_decide ("cmdCode" ∈ columns df)),
      (bool_decide (select_dtypes_number df ≠ [])); vm_compute.
  - rewrite <- (length_fmap fst), Hnames.
    destruct (bool_decide ("year" ∈ columns df)),
      (bool_decide ("reporterISO" ∈ columns df)),
      (bool_decide ("partnerISO" ∈ columns df)),
      (bool_decide ("cmdCode" ∈ columns df)),
      (bool_decide (select_dtypes_number df ≠ [])); cbn; lia.
  - unfold plan, summary_plan. cbn zeta.
    rewrite !elem_of_app. do 4 right. left. by left.
  - intros Hy. rewrite Hnames, (bool_decide_eq_false_2 _ Hy).
    apply (bool_decide_unpack _).
    by destruct (bool_decide ("reporterISO" ∈ columns df)),
      (bool_decide ("partnerISO" ∈ columns df)),
      (bool_decide ("cmdCode" ∈ columns df)),
      (bool_decide (select_dtypes_number df ≠ [])); vm_compute.
  - intros Hy Hr.
    rewrite Hnames, (bool_decide_eq_true_2 _ Hy), (bool_decide_eq_true_2 _ Hr).
    apply (bool_decide_unpack _).
    by destruct (bool_decide ("partnerISO" ∈ columns df)),
      (bool_decide ("cmdCode" ∈ columns df)),
      (bool_decide (select_dtypes_number df ≠ [])); vm_compute.
  - intros Hne. unfold export_summary. rewrite Hne. fold plan.
    destruct (write_sheets plan) as [written e] eqn:E.
    destruct (save_workbook written) as [[]|] eqn:Es; [|done].
    cbn [mbind result_bind]. destruct e; [done|]. intros _.
    exists written. split; [|done]. by apply write_sheets_all_Ok.
Qed.

Module DemoSummary.

(** Every aggregation succeeds with a one-cell table. *)
Definition count : DataFrame Z := Frame ["n"] [[Some (VNum 1%Z)]].

Definition aggregate (a : aggregation) (numeric_cols : list string)
    (df : DataFrame Z) : result (DataFrame Z) := Ok count.

Definition select_dtypes_number (df : DataFrame Z) : list string :=
  ["primaryValue"].

End DemoSummary.

Lemma summary_sheets_are_planned_witness :
  df_empty DemoJoin.merged = false
  ∧ export_summary DemoSummary.select_dtypes_number DemoSummary.aggregate
      DemoWorldBank.save_workbook DemoWorldBank.ws DemoWorldBank.sheet
      DemoJoin.merged = Ok ()
  ∧ ∃ written,
      summary_plan DemoSummary.select_dtypes_number DemoSummary.aggregate
        DemoWorldBank.ws DemoWorldBank.sheet DemoJoin.merged
      = (λ s : string * DataFrame Z, (s.1, Ok s.2)) <$> written
      ∧ DemoWorldBank.save_workbook written = Ok ().
Proof.
  assert (H1 : df_empty DemoJoin.merged = false) by reflexivity.
  assert (H2 : export_summary DemoSummary.select_dtypes_number
                 DemoSummary.aggregate DemoWorldBank.save_workbook
                 DemoWorldBank.ws DemoWorldBank.sheet DemoJoin.merged = Ok ())
    by (vm_compute; reflexivity).
  split; [exact H1|]. split; [exact H2|].
  exact (proj2 (proj2 (proj2 (proj2 (proj2
    (summary_sheets_are_planned DemoSummary.select_dtypes_number
       DemoSummary.aggregate DemoWorldBank.save_workbook DemoWorldBank.ws
       DemoWorldBank.sheet DemoJoin.merged))))) H1 H2).
Defined.

Section SummaryFailure.

Context {num : Type}.

Lemma write_sheets_stops (written : list (string * DataFrame num))
    name e (post : list (string * result (DataFrame num))) :
  write_sheets
    (((λ s : string * DataFrame num, (s.1, Ok s.2)) <$> written)
     ++ (name, Raise e) :: post)
  = (written, Some e).
Proof.
  induction written as [|[n t] written IH]; [done|].
  cbn [fmap list_fmap app write_sheets fst snd].
  change (list_fmap _ _ ?f written) with (f <$> written).
  by rewrite IH.
Qed.

End SummaryFailure.

(** X25. A sheet that cannot be computed does not cost the sheets before
    it.  When the aggregation of a planned sheet raises and every sheet
    planned before it was computed, [export_summary] saves the workbook
    with exactly those earlier sheets and then raises: the exception of
    the aggregation, or that of the saving if the saving fails too. *)
Theorem summary_failure_keeps_earlier_sheets {num : Type}
    (select_dtypes_number : DataFrame num → list string)
    (aggregate : aggregation → list string → DataFrame num → result (DataFrame num))
    (save_workbook : list (string * DataFrame num) → result unit)
    (ws : settings) (mapping : wb_mapping_source) (df : DataFrame num)
    (written : list (string * DataFrame num)) (name : string) (e : exn)
    (post : list (string * result (DataFrame num))) :
  df_empty df = false →
  summary_plan select_dtypes_number aggregate ws mapping df
  = ((λ s : string * DataFrame num, (s.1, Ok s.2)) <$> written)
    ++ (name, Raise e) :: post →
  export_summary select_dtypes_number aggregate save_workbook ws mapping df
  = match save_workbook written with
    | Ok _ => Raise e
    | Raise e' => Raise e'
    end
  ∧ name ≠ "WB_Variable_Map".
Proof.
  intros Hne Hplan. split.
  - unfold export_summary. rewrite Hne, Hplan, write_sheets_stops.
    by destruct (save_workbook written).
  - intros ->.
    assert (Hin : ("WB_Variable_Map", Raise e)
                  ∈ summary_plan select_dtypes_number aggregate ws mapping df).
    { rewrite Hplan. apply elem_of_app. right. by left. }
    pose proof (summary_plan_names select_dtypes_number aggregate ws mapping df)
      as Hnames.
    assert (Hnd : NoDup (summary_plan select_dtypes_number aggregate ws mapping df).*1).
    { rewrite Hnames. apply (bool_decide_unpack _).
      by destruct (bool_decide ("year" ∈ columns df)),
        (bool_decide ("reporterISO" ∈ columns df)),
        (bool_decide ("partnerISO" ∈ columns df)),
        (bool_decide ("cmdCode" ∈ columns df)),
        (bool_decide (select_dtypes_number df ≠ [])); vm_compute. }
    assert (Hmap : ("WB_Variable_Map", Ok (get_wb_column_map ws mapping))
                   ∈ summary_plan select_dtypes_number aggregate ws mapping df).
    { unfold summary_plan. cbn zeta.
      rewrite !elem_of_app. do 4 right. left. by left. }
    apply list_elem_of_lookup in Hin as [i Hi], Hmap as [j Hj].
    assert (i = j).
    { apply (NoDup_lookup _ i j "WB_Variable_Map" Hnd);
        rewrite list_lookup_fmap; [by rewrite Hi|by rewrite Hj]. }
    subst j. rewrite Hi in Hj. done.
Qed.

Module DemoBrokenSheet.

(** The count of missing values cannot be computed. *)
Definition aggregate (a : aggregation) (numeric_cols : list string)
    (df : DataFrame Z) : result (DataFrame Z) :=
  match a with
  | MissingByYear => Raise TypeError
  | _ => Ok DemoSummary.count
  end.

Definition written : list (string * DataFrame Z) :=
  [("Yearly_Reporters", DemoSummary.count);
   ("CountryYearMatrix", DemoSummary.count)].

Definition post : list (string * result (DataFrame Z)) :=
  [("WB_Variable_Map",
    Ok (get_wb_column_map DemoWorldBank.ws DemoWorldBank.sheet));
   ("Stats_by_Reporter", Ok DemoSummary.count);
   ("Stats_by_Year", Ok DemoSummary.count)].

Lemma plan_eq :
  summary_plan DemoSummary.select_dtypes_number aggregate DemoWorldBank.ws
    DemoWorldBank.sheet DemoJoin.merged
  = ((λ s : string * DataFrame Z, (s.1, Ok s.2)) <$> written)
    ++ ("MissingData", Raise TypeError) :: post.
Proof. vm_compute. reflexivity. Qed.

End DemoBrokenSheet.

Lemma summary_failure_keeps_earlier_sheets_witness :
  df_empty DemoJoin.merged = false
  ∧ export_summary DemoSummary.select_dtypes_number DemoBrokenSheet.aggregate
      DemoWorldBank.save_workbook DemoWorldBank.ws DemoWorldBank.sheet
      DemoJoin.merged
    = match DemoWorldBank.save_workbook DemoBrokenSheet.written with
      | Ok _ => Raise TypeError
      | Raise e' => Raise e'
      end.
Proof.
  assert (H1 : df_empty DemoJoin.merged = false) by reflexivity.
  split; [exact H1|].
  exact (proj1 (summary_failure_keeps_earlier_sheets
                  DemoSummary.select_dtypes_number DemoBrokenSheet.aggregate
                  DemoWorldBank.save_workbook DemoWorldBank.ws
                  DemoWorldBank.sheet DemoJoin.merged DemoBrokenSheet.written
                  "MissingData" TypeError DemoBrokenSheet.post H1
                  DemoBrokenSheet.plan_eq)).
Defined.

(** ** The merged table and its summary *)

(** X22. The merged table keeps its key columns, and so gets its yearly
    sheets.  When [merge_datasets] returns a table for a trade table that
    is not empty, [year], [reporterISO] and [partnerISO] are columns of it,
    each unless the pairwise table has a column of that name (the join
    would rename it).  With [year] and [reporterISO] kept, the table is not
    empty and [export_summary] plans the sheets [Yearly_Reporters],
    [CountryYearMatrix], [MissingData] and [WB_Variable_Map] for it. *)
Theorem merged_table_keeps_its_key_columns {num : Type} `{!EqDecision num}
    (to_numeric : string → option num) (as_Int64 : num → option num)
    (to_csv : csv_target → DataFrame num → result unit)
    (select_dtypes_number : DataFrame num → list string)
    (aggregate : aggregation → list string → DataFrame num → result (DataFrame num))
    (ws : settings) (mapping : wb_mapping_source)
    (df_wb df_trade df_cepii out : DataFrame num) :
  df_empty df_trade = false →
  merge_datasets to_numeric as_Int64 to_csv df_wb df_trade df_cepii = Ok out →
  (∀ c, c ∈ ["year"; "reporterISO"; "partnerISO"] →
        c ∉ columns df_cepii → c ∈ columns out)
  ∧ ("year" ∉ columns df_cepii → "reporterISO" ∉ columns df_cepii →
     df_empty out = false
     ∧ ["Yearly_Reporters"; "CountryYearMatrix"; "MissingData"; "WB_Variable_Map"]
       ⊆ (summary_plan select_dtypes_number aggregate ws mapping out).*1).
Proof.
  intros Hemp Hrun.
  destruct (merge_datasets_inv _ _ _ _ _ _ _ Hemp Hrun)
    as (t1 & m & E1 & E2 & E3).
  destruct (normalize_year_inv _ _ _ _ E1) as (Hc1 & Hcount & Hrows1).
  destruct (merge_world_bank_labels _ _ _ E2) as (Hrep & Hpar & Hkeep).
  assert (Hyear : "year" ∈ columns t1).
  { rewrite Hc1. by apply label_count_one_elem. }
  assert (Hkeys : ∀ c, c ∈ ["year"; "reporterISO"; "partnerISO"] →
                       c ∉ columns df_cepii → c ∈ columns out).
  { intros c Hc Hn.
    assert (Hin : c ∈ columns t1 ∧ not_ending "_reporter" c
                  ∧ not_ending "_partner" c
                  ∧ c ≠ "cepii_merge_key" ∧ c ≠ "cepii_key").
    { repeat (apply elem_of_cons in Hc as [->|Hc]);
        [| | |by apply elem_of_nil in Hc];
        (split_and!; [done|not_ending|not_ending|done|done]). }
    destruct Hin as (H1 & H2 & H3 & H4 & H5).
    apply (merge_cepii_labels m df_cepii); [done| |done..].
    by apply Hkeep. }
  split; [exact Hkeys|]. intros Hy Hr.
  assert (Hyo : "year" ∈ columns out) by (apply Hkeys; [by left|done]).
  assert (Hro : "reporterISO" ∈ columns out)
    by (apply Hkeys; [by right; left|done]).
  split.
  - pose proof (merge_datasets_length _ _ _ _ _ _ _ Hrun) as Hlen.
    unfold df_empty in *.
    destruct (rows df_trade); [done|]. destruct (rows out); [simpl in Hlen; lia|].
    destruct (columns out); [by apply elem_of_nil in Hyo|done].
  - rewrite summary_plan_names.
    rewrite (bool_decide_eq_true_2 _ Hyo), (bool_decide_eq_true_2 _ Hro).
    apply (bool_decide_unpack _).
    by destruct (bool_decide ("partnerISO" ∈ columns out)),
      (bool_decide ("cmdCode" ∈ columns out)),
      (bool_decide (select_dtypes_number out ≠ [])); vm_compute.
Qed.

Lemma merged_table_keeps_its_key_columns_witness :
  df_empty DemoJoin.trade = false
  ∧ merge_datasets DemoCepii.to_numeric DemoMerge.as_Int64 Demo.to_csv
      DemoMerge.wb DemoJoin.trade DemoCepii.normalized = Ok DemoJoin.merged
  ∧ ∀ c, c ∈ ["year"; "reporterISO"; "partnerISO"] →
         c ∉ columns DemoCepii.normalized → c ∈ columns DemoJoin.merged.
Proof.
  assert (H1 : df_empty DemoJoin.trade = false) by reflexivity.
  split; [exact H1|]. split; [exact DemoJoin.merged_eq|].
  exact (proj1 (merged_table_keeps_its_key_columns DemoCepii.to_numeric
                  DemoMerge.as_Int64 Demo.to_csv
                  DemoSummary.select_dtypes_number DemoSummary.aggregate
                  DemoWorldBank.ws DemoWorldBank.sheet
                  DemoMerge.wb DemoJoin.trade DemoCepii.normalized
                  DemoJoin.merged H1 DemoJoin.merged_eq)).
Defined.

(** ** Properties of the routine *)

(** X23. When no reporter of the list is mapped, the routine ends
    normally once the pairwise table is prepared and the World Bank table
    is fetched: the Comtrade step returns the empty table, the merge hands
    it back and the summary is skipped, so neither the service nor a file
    of the merge or of the summary is touched, and the routine returns
    even where these would fail. *)
Theorem unmapped_reporters_end_the_routine {num : Type} `{!EqDecision num}
    (str_strip str_upper : string → string) (str_zfill : nat → string → string)
    (to_numeric : string → option num) (as_Int64 : num → option num)
    (api : Z → string → api_outcome num)
    (as_completed : Z → list string → list string)
    (to_csv : csv_target → DataFrame num → result unit)
    (wb_data : list string → list string → list Z → outcome (DataFrame num))
    (str_of_num : num → string) (int_of_str : string → option num)
    (wb_to_csv : DataFrame num → result unit)
    (select_dtypes_number : DataFrame num → list string)
    (aggregate : aggregation → list string → DataFrame num → result (DataFrame num))
    (save_workbook : list (string * DataFrame num) → result unit)
    (cfg : config) (ws : settings)
    (country_sheet : mapping_source) (wb_sheet : wb_mapping_source)
    (cepii_file : cepii_source) (cepii_df wb_df : DataFrame num) :
  let COUNTRY_MAP :=
    load_country_mapping str_strip str_upper str_zfill country_sheet in
  REPORTERS cfg ≠ ["all"] →
  (∀ iso, iso ∈ REPORTERS cfg → COUNTRY_MAP !! str_upper iso = None) →
  prepare_cepii_data to_numeric cfg cepii_file = Ok cepii_df →
  fetch_world_bank_data wb_data str_of_num int_of_str wb_to_csv str_upper
    cfg ws COUNTRY_MAP wb_sheet = Returns wb_df →
  main str_strip str_upper str_zfill to_numeric as_Int64 api as_completed
    to_csv wb_data str_of_num int_of_str wb_to_csv select_dtypes_number
    aggregate save_workbook cfg ws country_sheet wb_sheet cepii_file
  = Returns ().
Proof.
  intros COUNTRY_MAP Hall Hun Hc Hwb. unfold main. fold COUNTRY_MAP.
  rewrite Hc. cbn [lift mbind outcome_bind]. rewrite Hwb.
  cbn [mbind outcome_bind].
  unfold fetch_un_comtrade_data.
  rewrite (get_reporter_codes_unmapped str_upper cfg COUNTRY_MAP Hall Hun).
  cbn [lift mbind outcome_bind]. by destruct (MERGE_DATA ws).
Qed.

Lemma unmapped_reporters_end_the_routine_witness :
  REPORTERS Demo.cfg_unmapped ≠ ["all"]
  ∧ main Ascii7.strip Ascii7.upper Ascii7.zfill DemoCepii.to_numeric
      DemoMerge.as_Int64 Demo.api_down Demo.in_order DemoRows.to_csv_fails
      DemoWorldBank.wb_data DemoWorldBank.str_of_num DemoWorldBank.int_of_str
      DemoWorldBank.wb_to_csv DemoSummary.select_dtypes_number
      DemoSummary.aggregate DemoWorldBank.save_fails
      Demo.cfg_unmapped DemoWorldBank.ws MappingAbsent DemoWorldBank.sheet
      CepiiAbsent
    = Returns ().
Proof.
  assert (H1 : REPORTERS Demo.cfg_unmapped ≠ ["all"]) by (simpl; congruence).
  assert (H2 : ∀ iso, iso ∈ REPORTERS Demo.cfg_unmapped →
                 load_country_mapping Ascii7.strip Ascii7.upper Ascii7.zfill
                   MappingAbsent !! Ascii7.upper iso = None).
  { intros iso Hiso. simpl in Hiso. apply list_elem_of_singleton in Hiso.
    subst iso. vm_compute. reflexivity. }
  split; [exact H1|].
  exact (unmapped_reporters_end_the_routine Ascii7.strip Ascii7.upper
           Ascii7.zfill DemoCepii.to_numeric DemoMerge.as_Int64 Demo.api_down
           Demo.in_order DemoRows.to_csv_fails DemoWorldBank.wb_data
           DemoWorldBank.str_of_num DemoWorldBank.int_of_str
           DemoWorldBank.wb_to_csv DemoSummary.select_dtypes_number
           DemoSummary.aggregate DemoWorldBank.save_fails
           Demo.cfg_unmapped DemoWorldBank.ws MappingAbsent DemoWorldBank.sheet
           CepiiAbsent empty_frame DemoWorldBank.fetched
           H1 H2 eq_refl eq_refl).
Defined.
